(** * The Bitcoin Cash authentication machine of bitcoin-ts

    A shallow embedding of
      src/lib/auth/instruction-sets/bitcoin-cash/bitcoin-cash.ts
      src/lib/auth/instruction-sets/common/push.ts
      src/lib/auth/instruction-sets/common/crypto.ts
    and the properties their specification states about them.

    Conventions.  A [Uint8Array] is a [list Z] of byte values, a JavaScript
    [number] used as an index or a counter is a [Z], and a JavaScript array
    is a [list] in array order: the top of the stack is the LAST element,
    since the operators [push] and [pop] at the end of [state.stack].
    The operators of the source mutate the state they are handed and return
    it; here every operator is a function from the state before to the state
    after.  The one array that the pipelines share between two states, the
    stack the unlocking phase ends with, is followed through the calls of the
    machine (see [AuthenticationVirtualMachine]). *)

From Stdlib Require Import String DecimalString.
From Stdlib Require Import ZArith List Bool Lia.
Import ListNotations.
Open Scope string_scope.
Open Scope list_scope.
Open Scope Z_scope.

Set Implicit Arguments.

(* ================================================================= *)
(** ** JavaScript arrays *)

Definition Uint8Array := list Z.

Definition len {A} (l : list A) : Z := Z.of_nat (List.length l).

(** [array[i]]: the element at an integer index, [undefined] out of range. *)
Definition at_index {A} (l : list A) (i : Z) : option A :=
  if i <? 0 then None else nth_error l (Z.to_nat i).

(** The relative index of [slice], [subarray] and [splice]: a negative
    index counts from the end, and the result is clamped to [0, length]. *)
Definition relative_index (length_ i : Z) : Z :=
  if i <? 0 then Z.max (length_ + i) 0 else Z.min i length_.

(** [array.slice(begin, end)]. *)
Definition slice {A} (l : list A) (begin end_ : Z) : list A :=
  let k := relative_index (len l) begin in
  let final := relative_index (len l) end_ in
  firstn (Z.to_nat (Z.max (final - k) 0)) (skipn (Z.to_nat k) l).

(** [array.subarray(begin)]. *)
Definition subarray {A} (l : list A) (begin : Z) : list A :=
  skipn (Z.to_nat (relative_index (len l) begin)) l.

(** [array.pop()]: the removed last element ([undefined] on an empty array)
    and the array that is left. *)
Definition pop {A} (l : list A) : option A * list A :=
  match rev l with
  | [] => (None, l)
  | x :: r => (Some x, rev r)
  end.

(** [array.splice(start)] with the delete count left out: everything from
    the relative index [start] on is removed and returned; the pair is
    (removed elements, array that is left).  [start] is a JavaScript number,
    so that [-0] is [0]: [splice(-0)] removes the whole array. *)
Definition splice {A} (l : list A) (start : Z) : list A * list A :=
  let actualStart := Z.to_nat (relative_index (len l) start) in
  (skipn actualStart l, firstn actualStart l).

(** What a call comes to: it returns a value, or it throws.  The pipelines
    throw a TypeError where they read a property of [undefined]; the
    constructor and the getters of a [DataView] throw a RangeError where the
    window or the read leaves the buffer. *)
Inductive JavaScriptError := TypeError | RangeError.

Inductive Completion (A : Type) :=
| Returned (value : A)
| Thrown (e : JavaScriptError).
Arguments Returned {A} value.
Arguments Thrown {A} e.

(** The value of a call where the type that takes it has no place for an
    exception. *)
Definition returned_or {A} (otherwise : A) (completion : Completion A) : A :=
  match completion with
  | Returned value => value
  | Thrown _ => otherwise
  end.

(** A [Uint8Array] is a view on an [ArrayBuffer]: its elements are the bytes
    of the buffer from [byteOffset] on.  The arrays of the model are the
    lists of their elements; the bytes its buffer holds before and behind
    the elements of an array are kept apart.  An array made by [slice], by
    [Uint8Array.from] or by [new Uint8Array(n)] has a buffer of its own,
    with nothing around its elements; [tx.subarray(2)] has the first two
    bytes of [tx] before its elements. *)
Record ArrayBufferRest := {
  bytesBefore : list Z;
  bytesAfter : list Z
}.

Definition ownBuffer : ArrayBufferRest :=
  {| bytesBefore := []; bytesAfter := [] |}.

(** [new DataView(buffer, byteOffset, byteLength)]: the window of
    [byteLength] bytes of the buffer from [byteOffset] on.  The constructor
    throws a RangeError when an argument is negative or the window leaves
    the buffer. *)
Definition DataView (buffer : list Z) (byteOffset byteLength : Z)
    : Completion (list Z) :=
  if (byteOffset <? 0) || (byteLength <? 0) ||
     (len buffer <? byteOffset + byteLength)
  then Thrown RangeError
  else Returned (slice buffer byteOffset (byteOffset + byteLength)).

(* ================================================================= *)
(** ** Opcodes and consensus constants *)

(** Modelled from the spec: the enum [BitcoinCashOpCodes]
    (bitcoin-cash-opcodes.ts is not part of the sources at hand).  Section 3
    of the specification gives OP_0 = 0x00, OP_PUSHBYTES_1..75 = 0x01..0x4b,
    OP_PUSHDATA1/2/4 = 0x4c/0x4d/0x4e, OP_1NEGATE = 0x4f and
    OP_1..OP_16 = 0x51..0x60; the remaining four are the values of the
    BCH_2019May opcode set the specification refers to. *)
Module BitcoinCashOpCodes.
Definition OP_0 : Z := 0x00.
(** OP_PUSHBYTES_n, for n from 1 to 75, is the byte n. *)
Definition OP_PUSHBYTES (n : Z) : Z := n.
Definition OP_PUSHBYTES_1 : Z := OP_PUSHBYTES 1.
Definition OP_PUSHBYTES_20 : Z := OP_PUSHBYTES 20.
Definition OP_PUSHBYTES_75 : Z := OP_PUSHBYTES 75.
Definition OP_PUSHDATA1 : Z := 0x4c.
Definition OP_PUSHDATA2 : Z := 0x4d.
Definition OP_PUSHDATA4 : Z := 0x4e.
Definition OP_1NEGATE : Z := 0x4f.
Definition OP_1 : Z := 0x51.
Definition OP_2 : Z := 0x52.
Definition OP_3 : Z := 0x53.
Definition OP_4 : Z := 0x54.
Definition OP_5 : Z := 0x55.
Definition OP_6 : Z := 0x56.
Definition OP_7 : Z := 0x57.
Definition OP_8 : Z := 0x58.
Definition OP_9 : Z := 0x59.
Definition OP_10 : Z := 0x5a.
Definition OP_11 : Z := 0x5b.
Definition OP_12 : Z := 0x5c.
Definition OP_13 : Z := 0x5d.
Definition OP_14 : Z := 0x5e.
Definition OP_15 : Z := 0x5f.
Definition OP_16 : Z := 0x60.
Definition OP_EQUAL : Z := 0x87.
Definition OP_HASH160 : Z := 0xa9.
Definition OP_CHECKSIG : Z := 0xac.
Definition OP_CHECKMULTISIG : Z := 0xae.
End BitcoinCashOpCodes.

(** Modelled from the spec: the constant [CommonConsensus.maximumOperationCount]
    of common.ts, 201 by section 3 of the specification and by the text of
    [BitcoinCashAuthenticationError.exceededMaximumOperationCount]. *)
Module CommonConsensus.
Definition maximumOperationCount : Z := 201.
End CommonConsensus.

(* ================================================================= *)
(** ** Errors *)

(** Modelled from the spec: the enum [CommonAuthenticationError] of
    common.ts, with the members the sources use and those section 7 of the
    specification lists. *)
Module CommonAuthenticationError.
Inductive t :=
| emptyStack
| invalidScriptNumber
| invalidPublicKeyEncoding
| invalidSignatureEncoding
| invalidNaturalNumber
| malformedPush
| nonMinimalPush
| exceedsMaximumPush
| insufficientPublicKeys
| exceedsMaximumMultisigPublicKeyCount
| invalidProtocolBugValue
| exceededMaximumOperationCount
| unknownOpcode
| disabledOpcode
| p2shPushOnly
| p2shEmptyStack.
End CommonAuthenticationError.

Module BitcoinCashAuthenticationError.
Inductive t :=
| exceededMaximumOperationCount.
End BitcoinCashAuthenticationError.

(** [ErrorState<InstructionSetError>]: the error of a state is a common
    error or an error of the instruction set. *)
Inductive AuthenticationError :=
| Common (e : CommonAuthenticationError.t)
| BitcoinCash (e : BitcoinCashAuthenticationError.t).

(* ================================================================= *)
(** ** Program state *)

Record BitcoinCashAuthenticationProgramExternalState := {
  blockHeight : Z;
  blockTime : Z;
  correspondingOutputHash : Uint8Array;
  locktime : Z;
  outpointIndex : Z;
  outpointTransactionHash : Uint8Array;
  outpointValue : Z;
  sequenceNumber : Z;
  transactionOutpointsHash : Uint8Array;
  transactionOutputsHash : Uint8Array;
  transactionSequenceNumbersHash : Uint8Array;
  version : Z
}.

(** The fields of the external state are kept together in [external]; the
    source spreads them into the state object. *)
Record BitcoinCashAuthenticationProgramState := {
  error : option AuthenticationError;
  ip : Z;
  lastCodeSeparator : Z;
  operationCount : Z;
  operations : list Z;
  script : Uint8Array;
  stack : list Uint8Array;
  external : BitcoinCashAuthenticationProgramExternalState
}.

Definition ProgramState : Type := BitcoinCashAuthenticationProgramState.

Definition set_error (e : option AuthenticationError) (s : ProgramState) :=
  {| error := e; ip := ip s; lastCodeSeparator := lastCodeSeparator s;
     operationCount := operationCount s; operations := operations s;
     script := script s; stack := stack s; external := external s |}.

Definition set_ip (i : Z) (s : ProgramState) :=
  {| error := error s; ip := i; lastCodeSeparator := lastCodeSeparator s;
     operationCount := operationCount s; operations := operations s;
     script := script s; stack := stack s; external := external s |}.

Definition set_operationCount (n : Z) (s : ProgramState) :=
  {| error := error s; ip := ip s; lastCodeSeparator := lastCodeSeparator s;
     operationCount := n; operations := operations s;
     script := script s; stack := stack s; external := external s |}.

Definition set_operations (o : list Z) (s : ProgramState) :=
  {| error := error s; ip := ip s; lastCodeSeparator := lastCodeSeparator s;
     operationCount := operationCount s; operations := o;
     script := script s; stack := stack s; external := external s |}.

Definition set_stack (k : list Uint8Array) (s : ProgramState) :=
  {| error := error s; ip := ip s; lastCodeSeparator := lastCodeSeparator s;
     operationCount := operationCount s; operations := operations s;
     script := script s; stack := k; external := external s |}.

(** [state.stack.push(element)]. *)
Definition stack_push (element : Uint8Array) (s : ProgramState) :=
  set_stack (stack s ++ [element]) s.

(** Modelled from the spec: [applyError] of common.ts.  Section 4.7:
    it returns a copy with [error := kind] and leaves all other fields
    intact. *)
Definition applyError (kind : AuthenticationError) (state : ProgramState) :=
  set_error (Some kind) state.

(** Modelled from the spec: [cloneStack] of common.ts, a copy of the array
    of stack elements (section 4.6, "Clone the unlocking stack"). *)
Definition cloneStack (stack_ : list Uint8Array) : list Uint8Array :=
  map (fun element => element) stack_.

(** Modelled from the spec: the type [AuthenticationProgram] of common.ts,
    the two scripts and the external state (section 4.6). *)
Record AuthenticationProgram := {
  lockingScript : Uint8Array;
  state : BitcoinCashAuthenticationProgramExternalState;
  unlockingScript : Uint8Array
}.

(* ================================================================= *)
(** ** The hooks of [bitcoinCashInstructionSet] (bitcoin-cash.ts) *)

(** [before]: the instruction pointer is advanced first; the byte it then
    points at, if there is one, is counted and recorded as the operation. *)
Definition before (state : ProgramState) : ProgramState :=
  let state := set_ip (ip state + 1) state in
  match at_index (script state) (ip state) with
  | Some operation =>
      let state := set_operationCount (operationCount state + 1) state in
      if operationCount state >? CommonConsensus.maximumOperationCount
      then applyError
             (BitcoinCash BitcoinCashAuthenticationError.exceededMaximumOperationCount)
             state
      else set_operations (operations state ++ [operation]) state
  | None => state
  end.

(** [clone]: a new object with copies ([slice()]) of the arrays. *)
Definition clone (state : ProgramState) : ProgramState :=
  {| error := error state;
     ip := ip state;
     lastCodeSeparator := lastCodeSeparator state;
     operationCount := operationCount state;
     operations := slice (operations state) 0 (len (operations state));
     script := slice (script state) 0 (len (script state));
     stack := slice (stack state) 0 (len (stack state));
     external := external state |}.

Definition continue (state : ProgramState) : bool :=
  match error state with
  | None => ip state <? len (script state)
  | Some _ => false
  end.

Module PayToScriptHash.
Definition length : Z := 23.
Definition lastElement : Z := 22.
End PayToScriptHash.

Definition is_byte (x : option Z) (v : Z) : bool :=
  match x with Some b => b =? v | None => false end.

Definition isPayToScriptHash (lockingScript : Uint8Array) : bool :=
  (len lockingScript =? PayToScriptHash.length) &&
  is_byte (at_index lockingScript 0) BitcoinCashOpCodes.OP_HASH160 &&
  is_byte (at_index lockingScript 1) BitcoinCashOpCodes.OP_PUSHBYTES_20 &&
  is_byte (at_index lockingScript PayToScriptHash.lastElement)
          BitcoinCashOpCodes.OP_EQUAL.

Definition isPushOnly (operations : list Z) : bool :=
  forallb (fun value => value <? BitcoinCashOpCodes.OP_16) operations.

(** [createBitcoinCashProgramState]: the object literal with the fields of
    [program.state] spread in; these are the external fields, so that no
    error is set. *)
Definition createBitcoinCashProgramState
    (program : AuthenticationProgram) (script : Uint8Array)
    (stack : list Uint8Array) : ProgramState :=
  {| error := None;
     ip := 0;
     lastCodeSeparator := -1;
     operationCount := 0;
     operations := [];
     script := script;
     stack := stack;
     external := state program |}.

(* ================================================================= *)
(** ** Operators *)

(** Modelled from the spec: the type [Operator] of virtual-machine.ts
    (section 4.1): a renderer of the mnemonic, a renderer of the
    description, and the transition.  Where the source gives a renderer as a
    plain string it is the constant function here. *)
Record Operator := {
  asm : ProgramState -> string;
  description : ProgramState -> string;
  operation : ProgramState -> ProgramState
}.

(** A table of operators is the JavaScript object that maps an opcode to
    its operator; [{...group, ...current}] is [group ++ current], and of two
    entries for one opcode the later one is read. *)
Definition OperatorTable := list (Z * Operator).

Definition lookup_operator (table : OperatorTable) (opcode : Z) : option Operator :=
  match find (fun entry => fst entry =? opcode) (rev table) with
  | Some entry => Some (snd entry)
  | None => None
  end.

(** [array.map((x, i) => f(x, i))]. *)
Fixpoint map_indexed_from {A B} (i : Z) (f : A -> Z -> B) (l : list A) : list B :=
  match l with
  | [] => []
  | x :: r => f x i :: map_indexed_from (i + 1) f r
  end.

Definition map_indexed {A B} (f : A -> Z -> B) (l : list A) : list B :=
  map_indexed_from 0 f l.

(** A template literal: the pieces side by side. *)
Definition template (pieces : list string) : string :=
  String.concat EmptyString pieces.

(** [`${value}`] for an integer value. *)
Definition decimal (value : Z) : string :=
  NilZero.string_of_int (Z.to_int value).

(* ----------------------------------------------------------------- *)
(** *** push.ts *)

Inductive Uint := Uint8 | Uint16 | Uint32.

Definition Uint_name (type : Uint) : string :=
  match type with
  | Uint8 => "Uint8"
  | Uint16 => "Uint16"
  | Uint32 => "Uint32"
  end.

Definition is_Uint8 (type : Uint) : bool :=
  match type with Uint8 => true | _ => false end.

Module PushOperationConstants.
Definition maximumPushDataConstant : Z := 75.
Definition maximumPushSize : Z := 520.
End PushOperationConstants.

Module Byte.
Definition possibleStates : Z := 256.
End Byte.

Definition highestRepresentableNumberIn (bytes : Z) : Z :=
  Byte.possibleStates ^ bytes.

(** The byte sizes [Uint8Array.BYTES_PER_ELEMENT] and the like. *)
Definition BYTES_PER_ELEMENT (type : Uint) : Z :=
  match type with Uint8 => 1 | Uint16 => 2 | Uint32 => 4 end.

(** [view.getUint8(0)], [view.getUint16(0, true)] and
    [view.getUint32(0, true)]: the little-endian number of the first one,
    two or four bytes of the view.  The getter throws a RangeError when the
    view is shorter than the number. *)
Definition getUint (type : Uint) (view : list Z) : Completion Z :=
  let byte i := nth i view 0 in
  if len view <? BYTES_PER_ELEMENT type
  then Thrown RangeError
  else Returned
         match type with
         | Uint8 => byte 0%nat
         | Uint16 => byte 0%nat + 2 ^ 8 * byte 1%nat
         | Uint32 => byte 0%nat + 2 ^ 8 * byte 1%nat
                     + 2 ^ 16 * byte 2%nat + 2 ^ 24 * byte 3%nat
         end.

Section Push.

(** Helpers of modules outside the sources at hand: [binToHex] of utils and
    [bigIntToScriptNumber] of common.ts. *)
Variable binToHex : Uint8Array -> string.
Variable bigIntToScriptNumber : Z -> Uint8Array.

(** What the buffer of an array holds around its elements (see
    [ArrayBufferRest]); [ownBuffer] for an array with a buffer of its own.
    The operators read the buffer of one array only, the script of the
    state they are applied to. *)
Variable bufferAround : Uint8Array -> ArrayBufferRest.

(** [array.buffer] and [array.byteOffset]. *)
Definition buffer (array : Uint8Array) : list Z :=
  bytesBefore (bufferAround array) ++ array ++ bytesAfter (bufferAround array).

Definition byteOffset (array : Uint8Array) : Z :=
  len (bytesBefore (bufferAround array)).

Definition opPushNumber (value : Z) : Operator :=
  {| asm := fun _ => template ["OP_"; decimal value];
     description := fun _ =>
       template ["Push the Script Number "; decimal value; " onto the stack."];
     operation := fun state => stack_push (bigIntToScriptNumber value) state |}.

Definition pushNumberOpCodes : list Z :=
  [ BitcoinCashOpCodes.OP_1NEGATE; BitcoinCashOpCodes.OP_0;
    BitcoinCashOpCodes.OP_1; BitcoinCashOpCodes.OP_2;
    BitcoinCashOpCodes.OP_3; BitcoinCashOpCodes.OP_4;
    BitcoinCashOpCodes.OP_5; BitcoinCashOpCodes.OP_6;
    BitcoinCashOpCodes.OP_7; BitcoinCashOpCodes.OP_8;
    BitcoinCashOpCodes.OP_9; BitcoinCashOpCodes.OP_10;
    BitcoinCashOpCodes.OP_11; BitcoinCashOpCodes.OP_12;
    BitcoinCashOpCodes.OP_13; BitcoinCashOpCodes.OP_14;
    BitcoinCashOpCodes.OP_15; BitcoinCashOpCodes.OP_16 ].

Definition pushNumberOperators : OperatorTable :=
  map_indexed (fun opcode i => (opcode, opPushNumber (i - 1))) pushNumberOpCodes.

Definition pushToAsm (array : Uint8Array) (begin end_ : Z) : string :=
  let missingBytes := end_ - len array in
  if missingBytes <=? 0
  then template ["0x"; binToHex (slice array begin end_)]
  else template ["0x"; binToHex (slice array begin (len array));
                 "[missing "; decimal missingBytes; " ";
                 (if missingBytes >? 1 then "bytes" else "byte"); "]"].

Definition pushDataConstantMethod {Result} (value : Z)
    (insufficientBits : ProgramState -> Result)
    (valid : ProgramState -> Z -> Z -> Result)
    (state : ProgramState) : Result :=
  let pushStart := ip state in
  let pushEnd := ip state + value in
  if len (script state) <? pushEnd
  then insufficientBits state
  else valid state pushStart pushEnd.

Definition opPushDataConstant (value : Z) : Operator :=
  {| asm := pushDataConstantMethod value
       (fun state =>
          template ["OP_PUSHBYTES_"; decimal value; " ";
                    pushToAsm (script state) (ip state) (ip state + value)])
       (fun state pushStart pushEnd =>
          template ["OP_PUSHBYTES_"; decimal value; " ";
                    pushToAsm (script state) pushStart pushEnd]);
     description := fun _ =>
       template ["Push the next ";
                 (if value =? 1 then "byte"
                  else template [decimal value; " bytes"]);
                 " onto the stack."];
     operation := pushDataConstantMethod value
       (fun state =>
          applyError (Common CommonAuthenticationError.malformedPush) state)
       (fun state pushStart pushEnd =>
          let state := stack_push (slice (script state) pushStart pushEnd) state in
          set_ip pushEnd state) |}.

(** OP_PUSHBYTES_1 to OP_PUSHBYTES_75, in this order. *)
Definition pushDataConstantOpCodes : list Z :=
  map (fun n => BitcoinCashOpCodes.OP_PUSHBYTES (Z.of_nat n)) (seq 1 75).

Definition pushDataConstantOperators : OperatorTable :=
  map_indexed (fun opcode i => (opcode, opPushDataConstant (i + 1)))
              pushDataConstantOpCodes.

(** The view is made on [script.buffer] at the offset [ip]: an offset into
    the buffer, to which the [byteOffset] of the script is not added. *)
Definition readLittleEndianLength
    (script : Uint8Array) (ip lengthBits : Z) (type : Uint) : Completion Z :=
  match DataView (buffer script) ip lengthBits with
  | Thrown e => Thrown e
  | Returned view => getUint type view
  end.

Definition pushDataVariableMethod {Result}
    (lengthBits : Z) (type : Uint) (minimum maximum : Z)
    (insufficientLengthBits : ProgramState -> Result)
    (insufficientTotalBits belowMinimumLength aboveMaximumLength valid
       : ProgramState -> Z -> Z -> Result)
    (state : ProgramState) : Completion Result :=
  let pushBegin := ip state + lengthBits in
  if len (script state) <? pushBegin
  then Returned (insufficientLengthBits state)
  else
    match readLittleEndianLength (script state) (ip state) lengthBits type with
    | Thrown e => Thrown e
    | Returned length_ =>
        Returned
          (if len (script state) <? pushBegin + length_
           then insufficientTotalBits state pushBegin length_
           else if length_ <? minimum
           then belowMinimumLength state pushBegin length_
           else if length_ >? maximum
           then aboveMaximumLength state pushBegin length_
           else valid state pushBegin length_)
    end.

(** The fields of an [Operator] are functions that return, and the method
    above throws where [readLittleEndianLength] does: on a negative
    instruction pointer, or when the length field is shorter than its type.
    There the renderers give the empty text and the operation fails with
    malformedPush.  Neither case is met by OP_PUSHDATA1/2/4 on an
    instruction pointer that is not negative (lemma
    [pushDataVariableMethod_returns]). *)
Definition createPushDataOperator
    (lengthBits : Z) (type : Uint) (minimum maximum : Z) : Operator :=
  let stringResult missing print state :=
    returned_or EmptyString
      (pushDataVariableMethod lengthBits type minimum maximum
         missing print print print print state) in
  {| asm := stringResult
       (fun _ =>
          template ["OP_PUSHDATA"; decimal lengthBits; " [missing ";
                    (if is_Uint8 type then "byte"
                     else template [decimal lengthBits; " bytes"]); "]"])
       (fun state pushBegin length_ =>
          template ["OP_PUSHDATA"; decimal lengthBits; " "; decimal length_; " ";
                    pushToAsm (script state) pushBegin (pushBegin + length_)]);
     description := stringResult
       (fun _ =>
          template ["Read the next ";
                    (if is_Uint8 type then EmptyString else "little-endian ");
                    Uint_name type;
                    " (missing) and push that number of bytes onto the stack."])
       (fun state pushBegin length_ =>
          template ["Read the next ";
                    (if is_Uint8 type then EmptyString else "little-endian ");
                    Uint_name type; " (";
                    pushToAsm (script state) (ip state) pushBegin;
                    ") and push that number of bytes ("; decimal length_;
                    ") onto the stack."]);
     operation := fun state =>
       returned_or
         (applyError (Common CommonAuthenticationError.malformedPush) state)
         (pushDataVariableMethod lengthBits type minimum maximum
            (fun state =>
               applyError (Common CommonAuthenticationError.malformedPush) state)
            (fun state _ _ =>
               applyError (Common CommonAuthenticationError.malformedPush) state)
            (fun state _ _ =>
               applyError (Common CommonAuthenticationError.nonMinimalPush) state)
            (fun state _ _ =>
               applyError (Common CommonAuthenticationError.exceedsMaximumPush)
                 state)
            (fun state pushBegin length_ =>
               let pushEnd := pushBegin + length_ in
               let state :=
                 stack_push (slice (script state) pushBegin pushEnd) state in
               set_ip pushEnd state)
            state) |}.

Definition opPushData1 : Operator :=
  createPushDataOperator (BYTES_PER_ELEMENT Uint8) Uint8
    PushOperationConstants.maximumPushDataConstant
    PushOperationConstants.maximumPushSize.

Definition opPushData2 : Operator :=
  createPushDataOperator (BYTES_PER_ELEMENT Uint16) Uint16
    (highestRepresentableNumberIn (BYTES_PER_ELEMENT Uint8))
    PushOperationConstants.maximumPushSize.

Definition opPushData4 : Operator :=
  createPushDataOperator (BYTES_PER_ELEMENT Uint32) Uint32
    (highestRepresentableNumberIn (BYTES_PER_ELEMENT Uint16))
    PushOperationConstants.maximumPushSize.

Definition pushDataVariableOperators : OperatorTable :=
  [ (BitcoinCashOpCodes.OP_PUSHDATA1, opPushData1);
    (BitcoinCashOpCodes.OP_PUSHDATA2, opPushData2);
    (BitcoinCashOpCodes.OP_PUSHDATA4, opPushData4) ].

End Push.

(* ----------------------------------------------------------------- *)
(** *** crypto.ts *)

(** Modelled from the spec: the provider types [Sha256], [Ripemd160] and
    [Secp256k1] of crypto/crypto (section 6, cryptographic provider
    contracts); the verification method has the name the sources call. *)
Record Sha256 := { sha256_hash : Uint8Array -> Uint8Array }.
Record Ripemd160 := { ripemd160_hash : Uint8Array -> Uint8Array }.
Record Secp256k1 := {
  verifySignatureDERLowS : Uint8Array -> Uint8Array -> Uint8Array -> bool
}.

(** The object [decodeBitcoinSignature] of encoding.ts returns. *)
Record DecodedSignature := {
  signingSerializationType : Uint8Array;
  signature : Uint8Array
}.

Module Multisig.
Definition maximumPublicKeys : Z := 20.
End Multisig.

Section Crypto.

Variable sha256 : Sha256.
Variable ripemd160 : Ripemd160.
Variable secp256k1 : Secp256k1.

(** Helpers of modules outside the sources at hand.  Of common.ts:
    [booleanToScriptNumber] and [parseBytesAsScriptNumber], whose result is
    the number, or [None] where the source returns a [ScriptNumberError]
    (the case [isScriptNumberError] recognises).  Of utils:
    [bigIntToBitcoinVarInt].  Of encoding.ts: the two encoding checks and
    [decodeBitcoinSignature].  Of signing-serialization.ts:
    [generateBitcoinCashSigningSerialization], with its twelve arguments in
    the order of the call. *)
Variable booleanToScriptNumber : bool -> Uint8Array.
Variable parseBytesAsScriptNumber : Uint8Array -> option Z.
Variable bigIntToBitcoinVarInt : Z -> Uint8Array.
Variable isValidPublicKeyEncoding : Uint8Array -> bool.
Variable isValidSignatureEncoding : Uint8Array -> bool.
Variable decodeBitcoinSignature : Uint8Array -> DecodedSignature.
Variable generateBitcoinCashSigningSerialization :
  Z -> Uint8Array -> Uint8Array -> Uint8Array -> Z -> Uint8Array ->
  Z -> Z -> Uint8Array -> Uint8Array -> Z -> Uint8Array -> Uint8Array.

Definition opHash160 : Operator :=
  {| asm := fun _ => "OP_HASH160";
     description := fun _ =>
       "Pop the top element off the stack and pass it through sha256, then ripemd160, pushing the result onto the stack.";
     operation := fun state =>
       let '(element, rest) := pop (stack state) in
       let state := set_stack rest state in
       match element with
       | None =>
           applyError (Common CommonAuthenticationError.emptyStack) state
       | Some element =>
           stack_push
             (ripemd160_hash ripemd160 (sha256_hash sha256 element)) state
       end |}.

(** [scriptCode]: the script after the last code separator, behind its
    length as a Bitcoin varint. *)
Definition scriptCodeOf (state : ProgramState) : Uint8Array :=
  let script_ := subarray (script state) (lastCodeSeparator state + 1) in
  bigIntToBitcoinVarInt (len script_) ++ script_.

(** The lines both signature operators share: decode the signature, build
    the signing serialization, hash it twice and verify. *)
Definition signed (state : ProgramState) (scriptCode : Uint8Array)
    (publicKey bitcoinEncodedSignature : Uint8Array) : bool :=
  let decoded := decodeBitcoinSignature bitcoinEncodedSignature in
  let serialization :=
    generateBitcoinCashSigningSerialization
      (version (external state))
      (transactionOutpointsHash (external state))
      (transactionSequenceNumbersHash (external state))
      (outpointTransactionHash (external state))
      (outpointIndex (external state))
      scriptCode
      (outpointValue (external state))
      (sequenceNumber (external state))
      (correspondingOutputHash (external state))
      (transactionOutputsHash (external state))
      (locktime (external state))
      (signingSerializationType decoded) in
  let digest := sha256_hash sha256 (sha256_hash sha256 serialization) in
  verifySignatureDERLowS secp256k1 (signature decoded) publicKey digest.

Definition opCheckSig : Operator :=
  {| asm := fun _ => "OP_CHECKSIG";
     description := fun _ =>
       "Pop the top two elements off the stack. Treat the first as a public key and the second as a signature. If the signature is valid, push a Script Number 1, otherwise push a Script Number 0.";
     operation := fun state =>
       let '(publicKey, rest) := pop (stack state) in
       let '(bitcoinEncodedSignature, rest) := pop rest in
       let state := set_stack rest state in
       match publicKey, bitcoinEncodedSignature with
       | Some publicKey, Some bitcoinEncodedSignature =>
           if negb (isValidPublicKeyEncoding publicKey)
           then applyError
                  (Common CommonAuthenticationError.invalidPublicKeyEncoding) state
           else if negb (isValidSignatureEncoding bitcoinEncodedSignature)
           then applyError
                  (Common CommonAuthenticationError.invalidSignatureEncoding) state
           else
             stack_push
               (booleanToScriptNumber
                  (signed state (scriptCodeOf state)
                     publicKey bitcoinEncodedSignature))
               state
       | _, _ =>
           applyError (Common CommonAuthenticationError.emptyStack) state
       end |}.

(** The [while] loop of OP_CHECKMULTISIG.  Every turn takes one public key
    away, so the loop is a recursion on [remainingPublicKeys]; with no key
    left its condition is false.  The result is the error of an early
    [return applyError(...)] or the final [approvingPublicKeys].  The two
    array reads are in range whenever the condition holds
    (lemma [checkMultiSigLoop_reads_in_range]); [nth] needs a default
    value all the same. *)
Fixpoint checkMultiSigLoop (state : ProgramState) (scriptCode : Uint8Array)
    (publicKeys signatures : list Uint8Array)
    (requiredApprovingPublicKeys : Z)
    (remainingPublicKeys approvingPublicKeys remainingSignatures : nat)
    : CommonAuthenticationError.t + nat :=
  match remainingPublicKeys with
  | O => inr approvingPublicKeys
  | S remainingPublicKeys' =>
      if (0 <? remainingSignatures)%nat &&
         (approvingPublicKeys + remainingSignatures <=? remainingPublicKeys)%nat &&
         negb (Z.of_nat approvingPublicKeys =? requiredApprovingPublicKeys)
      then
        let publicKey := nth (remainingPublicKeys - 1) publicKeys [] in
        let bitcoinEncodedSignature :=
          nth (remainingSignatures - 1) signatures [] in
        if negb (isValidPublicKeyEncoding publicKey)
        then inl CommonAuthenticationError.invalidPublicKeyEncoding
        else if negb (isValidSignatureEncoding bitcoinEncodedSignature)
        then inl CommonAuthenticationError.invalidSignatureEncoding
        else if signed state scriptCode publicKey bitcoinEncodedSignature
        then checkMultiSigLoop state scriptCode publicKeys signatures
               requiredApprovingPublicKeys
               remainingPublicKeys' (S approvingPublicKeys)
               (remainingSignatures - 1)
        else checkMultiSigLoop state scriptCode publicKeys signatures
               requiredApprovingPublicKeys
               remainingPublicKeys' approvingPublicKeys remainingSignatures
      else inr approvingPublicKeys
  end.

Definition opCheckMultiSig : Operator :=
  {| asm := fun _ => "OP_CHECKMULTISIG";
     description := fun _ =>
       "Pop elements off the stack: first the number of public keys, followed by the public keys, then the required number of signatures, followed by the signatures, then a final value which is ignored (due to a protocol bug). Checking each signature against each public key in order, if the required number of signatures are valid, push a Script Number 1, otherwise push a Script Number 0.";
     operation := fun state =>
       let '(potentialPublicKeysBytes, rest) := pop (stack state) in
       let state := set_stack rest state in
       match potentialPublicKeysBytes with
       | None => applyError (Common CommonAuthenticationError.emptyStack) state
       | Some potentialPublicKeysBytes =>
       match parseBytesAsScriptNumber potentialPublicKeysBytes with
       | None =>
           applyError (Common CommonAuthenticationError.invalidNaturalNumber) state
       | Some potentialPublicKeys =>
       if potentialPublicKeys <? 0
       then applyError (Common CommonAuthenticationError.invalidNaturalNumber) state
       else if potentialPublicKeys >? Multisig.maximumPublicKeys
       then applyError
              (Common CommonAuthenticationError.exceedsMaximumMultisigPublicKeyCount)
              state
       else
       let '(publicKeys, rest) := splice (stack state) (- potentialPublicKeys) in
       let state := set_stack rest state in
       let state :=
         set_operationCount (operationCount state + potentialPublicKeys) state in
       if operationCount state >? CommonConsensus.maximumOperationCount
       then applyError
              (Common CommonAuthenticationError.exceededMaximumOperationCount)
              state
       else
       let '(requiredApprovingPublicKeysBytes, rest) := pop (stack state) in
       let state := set_stack rest state in
       match requiredApprovingPublicKeysBytes with
       | None => applyError (Common CommonAuthenticationError.emptyStack) state
       | Some requiredApprovingPublicKeysBytes =>
       match parseBytesAsScriptNumber requiredApprovingPublicKeysBytes with
       | None =>
           applyError (Common CommonAuthenticationError.invalidNaturalNumber) state
       | Some requiredApprovingPublicKeys =>
       if requiredApprovingPublicKeys <? 0
       then applyError (Common CommonAuthenticationError.invalidNaturalNumber) state
       else if requiredApprovingPublicKeys >? potentialPublicKeys
       then applyError (Common CommonAuthenticationError.insufficientPublicKeys) state
       else
       let '(signatures, rest) :=
         splice (stack state) (- requiredApprovingPublicKeys) in
       let state := set_stack rest state in
       let '(protocolBugValue, rest) := pop (stack state) in
       let state := set_stack rest state in
       match protocolBugValue with
       | None => applyError (Common CommonAuthenticationError.emptyStack) state
       | Some protocolBugValue =>
       if negb (len protocolBugValue =? 0)
       then applyError (Common CommonAuthenticationError.invalidProtocolBugValue)
              state
       else
       let scriptCode := scriptCodeOf state in
       match checkMultiSigLoop state scriptCode publicKeys signatures
               requiredApprovingPublicKeys
               (List.length publicKeys) 0 (List.length signatures) with
       | inl kind => applyError (Common kind) state
       | inr approvingPublicKeys =>
           stack_push
             (booleanToScriptNumber
                (Z.of_nat approvingPublicKeys =? requiredApprovingPublicKeys))
             state
       end end end end end end |}.

Definition cryptoOperators : OperatorTable :=
  [ (BitcoinCashOpCodes.OP_HASH160, opHash160);
    (BitcoinCashOpCodes.OP_CHECKSIG, opCheckSig);
    (BitcoinCashOpCodes.OP_CHECKMULTISIG, opCheckMultiSig) ].

End Crypto.

(* ================================================================= *)
(** ** The virtual machine *)

Module DebuggingStep.
(** Modelled from the spec: the type [DebuggingStep] of virtual-machine.ts,
    the entries [{ asm, description, state }] of section 4.5. *)
Record t := {
  asm : string;
  description : string;
  state : ProgramState
}.
End DebuggingStep.

(** Modelled from the spec: the type [AuthenticationVirtualMachine] of
    virtual-machine.ts, as far as bitcoin-cash.ts calls it.  The machine is an
    argument of both pipelines.

    The operators change [state.stack] in place, and the pipelines hand the
    array [unlockingResult.stack] on to the locking phase and read it again
    afterwards.  What a call of the machine does to the stack array of the
    state it was handed is therefore part of the machine: [evaluate_leaves
    state] and [debug_leaves state label] are the contents of that array once
    [evaluate(state)] and [debug(state, label)] have returned. *)
Record AuthenticationVirtualMachine := {
  debug : ProgramState -> string -> list DebuggingStep.t;
  evaluate : ProgramState -> ProgramState;
  debug_leaves : ProgramState -> string -> list Uint8Array;
  evaluate_leaves : ProgramState -> list Uint8Array
}.

(** A machine that works on a copy of the state it is handed leaves the
    array as it was.  Section 5 of the specification asks for this: the loop
    must not change input that is aliased beyond the state it owns. *)
Definition works_on_a_copy (vm : AuthenticationVirtualMachine) : Prop :=
  (forall state, evaluate_leaves vm state = stack state) /\
  (forall state label, debug_leaves vm state label = stack state).


(* ================================================================= *)
(** ** The phase pipelines (bitcoin-cash.ts) *)

Module Phase.
Definition unlocking : string := "Begin unlocking script evaluation.".
Definition locking : string := "Begin locking script evaluation.".
Definition p2sh : string :=
  "Begin Pay-to-Script-Hash (P2SH) script evaluation.".
End Phase.

Module P2shError.
Definition asm : string := "[P2SH error]".
Definition pushOnly : string :=
  "P2SH error: unlockingScript must be push-only.".
Definition emptyStack : string :=
  "P2SH error: unlockingScript must not leave an empty stack.".
End P2shError.

(** The object [debugPhase] returns, and with it what the call has left in
    the array it was given as [stack]. *)
Record DebugPhaseResult := {
  result : ProgramState;
  steps : list DebuggingStep.t;
  stack_left : list Uint8Array
}.

(** [steps[steps.length - 1].state] throws when the machine returned no
    entry at all. *)
Definition debugPhase (vm : AuthenticationVirtualMachine)
    (program : AuthenticationProgram) (script : Uint8Array)
    (message : string) (stack : list Uint8Array) : Completion DebugPhaseResult :=
  let state := createBitcoinCashProgramState program script stack in
  let steps := debug vm state message in
  match at_index steps (len steps - 1) with
  | Some last_step =>
      Returned {| result := DebuggingStep.state last_step; steps := steps;
                  stack_left := debug_leaves vm state message |}
  | None => Thrown TypeError
  end.

(** [p2shStack.pop() as Uint8Array] is [undefined] on an empty stack, hence
    the optional script the callback receives. *)
Definition evaluateP2sh {T} (unlockingStack : list Uint8Array)
    (evaluate : option Uint8Array -> list Uint8Array -> T) : T :=
  let p2shStack := cloneStack unlockingStack in
  let '(p2shScript, p2shStack) := pop p2shStack in
  evaluate p2shScript p2shStack.

(** A state whose script is [undefined] cannot be run: [continue] reads
    [state.script.length] and [before] reads [state.script[state.ip]], and
    either read throws a TypeError. *)
Definition with_script {T} (p2shScript : option Uint8Array)
    (run : Uint8Array -> Completion T) : Completion T :=
  match p2shScript with
  | Some script => run script
  | None => Thrown TypeError
  end.

Definition has_error (state : ProgramState) : bool :=
  match error state with Some _ => true | None => false end.

(** The trace of the unlocking phase once the locking phase has run: the
    state of its last entry is [unlockingResult], whose stack array the
    locking phase was handed. *)
Definition with_final_stack (stack_ : list Uint8Array)
    (trace : list DebuggingStep.t) : list DebuggingStep.t :=
  match pop trace with
  | (Some entry, entries) =>
      entries ++
      [ {| DebuggingStep.asm := DebuggingStep.asm entry;
           DebuggingStep.description := DebuggingStep.description entry;
           DebuggingStep.state := set_stack stack_ (DebuggingStep.state entry) |} ]
  | (None, _) => trace
  end.

Definition debugBitcoinCashAuthenticationProgram
    (vm : AuthenticationVirtualMachine) (program : AuthenticationProgram)
    : Completion (list DebuggingStep.t) :=
  match debugPhase vm program (unlockingScript program) Phase.unlocking [] with
  | Thrown e => Thrown e
  | Returned unlocking =>
  let unlockingResult := result unlocking in
  if has_error unlockingResult
  then Returned (steps unlocking)
  else
  match debugPhase vm program (lockingScript program) Phase.locking
          (stack unlockingResult) with
  | Thrown e => Thrown e
  | Returned locking =>
  (* [unlockingResult.stack], as it reads after the locking phase *)
  let unlockingStack := stack_left locking in
  let unlockingSteps := with_final_stack unlockingStack (steps unlocking) in
  let lockingSteps := steps locking in
  let lockingResult := result locking in
  if has_error lockingResult || negb (isPayToScriptHash (lockingScript program))
  then Returned (unlockingSteps ++ lockingSteps)
  else if negb (isPushOnly (operations unlockingResult))
  then Returned (unlockingSteps ++ lockingSteps ++
                 [ {| DebuggingStep.asm := P2shError.asm;
                      DebuggingStep.description := P2shError.pushOnly;
                      DebuggingStep.state := lockingResult |} ])
  else if len unlockingStack =? 0
  then Returned (unlockingSteps ++ lockingSteps ++
                 [ {| DebuggingStep.asm := P2shError.asm;
                      DebuggingStep.description := P2shError.emptyStack;
                      DebuggingStep.state := lockingResult |} ])
  else
  match evaluateP2sh unlockingStack
          (fun p2shScript p2shStack =>
             with_script p2shScript (fun p2shScript =>
               debugPhase vm program p2shScript Phase.p2sh p2shStack)) with
  | Thrown e => Thrown e
  | Returned p2sh => Returned (unlockingSteps ++ lockingSteps ++ steps p2sh)
  end
  end
  end.

Section Validate.

(** [stackElementIsTruthy] of common.ts. *)
Variable stackElementIsTruthy : Uint8Array -> bool.

Definition validateBitcoinCashAuthenticationProgramState
    (state : ProgramState) : bool :=
  has_error state &&
  (len (stack state) =? 1) &&
  match at_index (stack state) 0 with
  | Some element => stackElementIsTruthy element
  | None => false
  end.

End Validate.

Definition evaluateBitcoinCashAuthenticationProgram
    (vm : AuthenticationVirtualMachine) (program : AuthenticationProgram)
    : Completion ProgramState :=
  let unlockingResult :=
    evaluate vm
      (createBitcoinCashProgramState program (unlockingScript program) []) in
  if has_error unlockingResult
  then Returned unlockingResult
  else
    let lockingState :=
      createBitcoinCashProgramState program (lockingScript program)
        (stack unlockingResult) in
    let lockingResult := evaluate vm lockingState in
    (* [unlockingResult.stack], as it reads after the locking phase *)
    let unlockingStack := evaluate_leaves vm lockingState in
    if isPayToScriptHash (lockingScript program)
    then evaluateP2sh unlockingStack
           (fun p2shScript p2shStack =>
              with_script p2shScript (fun p2shScript =>
                Returned
                  (evaluate vm
                     (createBitcoinCashProgramState program p2shScript p2shStack))))
    else Returned lockingResult.

(** The phases of the evaluate pipeline, by name: [unlockingResult], the
    state the locking phase is started on, and [lockingResult]. *)
Definition unlockingResultOf (vm : AuthenticationVirtualMachine)
    (program : AuthenticationProgram) : ProgramState :=
  evaluate vm
    (createBitcoinCashProgramState program (unlockingScript program) []).

Definition lockingStateOf (vm : AuthenticationVirtualMachine)
    (program : AuthenticationProgram) : ProgramState :=
  createBitcoinCashProgramState program (lockingScript program)
    (stack (unlockingResultOf vm program)).

Definition lockingResultOf (vm : AuthenticationVirtualMachine)
    (program : AuthenticationProgram) : ProgramState :=
  evaluate vm (lockingStateOf vm program).

(** The state of the last entry of a debugging trace. *)
Definition final_state (trace : list DebuggingStep.t) : option ProgramState :=
  match at_index trace (len trace - 1) with
  | Some entry => Some (DebuggingStep.state entry)
  | None => None
  end.

(* ================================================================= *)
(** ** The machine of the specification *)

(** Modelled from the spec: the type [InstructionSet] of virtual-machine.ts
    (section 4.4): the hook [before], [clone], the test [continue] and the
    table of operators. *)
Record InstructionSet := {
  instruction_before : ProgramState -> ProgramState;
  instruction_clone : ProgramState -> ProgramState;
  instruction_continue : ProgramState -> bool;
  operators : OperatorTable
}.

(** [bitcoinCashInstructionSet] of bitcoin-cash.ts.  The table it spreads
    in, [commonOperators(sha256, ripemd160, secp256k1)], is built in
    common.ts and is an argument here. *)
Definition bitcoinCashInstructionSet (commonOperators : OperatorTable)
    : InstructionSet :=
  {| instruction_before := before;
     instruction_clone := clone;
     instruction_continue := continue;
     operators := commonOperators |}.

Section Machine.

Variable instructionSet : InstructionSet.

(** The operator of the opcode at the instruction pointer, if the script
    has a byte there and the table an entry for it. *)
Definition operator_at (state : ProgramState) : option Operator :=
  match at_index (script state) (ip state) with
  | Some opcode => lookup_operator (operators instructionSet) opcode
  | None => None
  end.

(** Modelled from the spec: [step] of the machine, virtual-machine.ts
    (section 4.5): apply [before], then look up the opcode in the table;
    apply the operation of its operator, or fail with [unknownOpcode] when
    the table has none.  When [before] has moved the instruction pointer
    past the last byte there is no opcode to look up and the state is
    returned as [before] left it: by section 8 a script of length L is run
    in at most L + 1 steps and scenario S1 ends without an error. *)
Definition step (state : ProgramState) : ProgramState :=
  let state := instruction_before instructionSet state in
  match at_index (script state) (ip state) with
  | None => state
  | Some opcode =>
      match lookup_operator (operators instructionSet) opcode with
      | Some operator => operation operator state
      | None =>
          applyError (Common CommonAuthenticationError.unknownOpcode) state
      end
  end.

(** The loop [while continue(state): state := step(state)], for a given
    number of turns at most. *)
Fixpoint run (turns : nat) (state : ProgramState) : ProgramState :=
  match turns with
  | O => state
  | S turns' =>
      if instruction_continue instructionSet state
      then run turns' (step state)
      else state
  end.

(** The turns granted to a state: by section 8 of the specification a
    script of length L is run in at most L + 1 steps. *)
Definition turns_for (state : ProgramState) : nat :=
  S (List.length (script state)).

(** Modelled from the spec: [evaluate] of the machine (section 4.5). *)
Definition machine_evaluate (state : ProgramState) : ProgramState :=
  run (turns_for state) state.

(** The entry of one step: the texts of the operator that is executed,
    rendered on the state [before] hands it, and a clone of the state after
    the step.  The specification leaves the texts open where no operator is
    found; they are empty here. *)
Definition step_entry (state : ProgramState) : DebuggingStep.t :=
  let entered := instruction_before instructionSet state in
  {| DebuggingStep.asm :=
       match operator_at entered with
       | Some operator => asm operator entered
       | None => EmptyString
       end;
     DebuggingStep.description :=
       match operator_at entered with
       | Some operator => description operator entered
       | None => EmptyString
       end;
     DebuggingStep.state := instruction_clone instructionSet (step state) |}.

Fixpoint run_entries (turns : nat) (state : ProgramState)
    : list DebuggingStep.t :=
  match turns with
  | O => []
  | S turns' =>
      if instruction_continue instructionSet state
      then step_entry state :: run_entries turns' (step state)
      else []
  end.

(** Modelled from the spec: [debug] of the machine (section 4.5): an
    initial entry with the phase label, then one entry per step with a
    cloned snapshot.  The specification does not give the mnemonic of the
    initial entry; it is empty here. *)
Definition machine_debug (state : ProgramState) (phaseLabel : string)
    : list DebuggingStep.t :=
  {| DebuggingStep.asm := EmptyString;
     DebuggingStep.description := phaseLabel;
     DebuggingStep.state := instruction_clone instructionSet state |}
  :: run_entries (turns_for state) state.

(** Modelled from the spec: [createAuthenticationVirtualMachine] of
    virtual-machine.ts, the machine of an instruction set (section 4.5).  By
    section 5 it leaves the arrays of the state it is handed as they were. *)
Definition createAuthenticationVirtualMachine : AuthenticationVirtualMachine :=
  {| debug := machine_debug;
     evaluate := machine_evaluate;
     debug_leaves := fun state _ => stack state;
     evaluate_leaves := stack |}.

End Machine.

(* ================================================================= *)
(** ** The operators of the sources at hand, and what they can reach *)

Section SourceOperators.

Variable binToHex : Uint8Array -> string.
Variable bigIntToScriptNumber : Z -> Uint8Array.
Variable bufferAround : Uint8Array -> ArrayBufferRest.
Variable sha256 : Sha256.
Variable ripemd160 : Ripemd160.
Variable secp256k1 : Secp256k1.
Variable booleanToScriptNumber : bool -> Uint8Array.
Variable parseBytesAsScriptNumber : Uint8Array -> option Z.
Variable bigIntToBitcoinVarInt : Z -> Uint8Array.
Variable isValidPublicKeyEncoding : Uint8Array -> bool.
Variable isValidSignatureEncoding : Uint8Array -> bool.
Variable decodeBitcoinSignature : Uint8Array -> DecodedSignature.
Variable generateBitcoinCashSigningSerialization :
  Z -> Uint8Array -> Uint8Array -> Uint8Array -> Z -> Uint8Array ->
  Z -> Z -> Uint8Array -> Uint8Array -> Z -> Uint8Array -> Uint8Array.

(** The operators of push.ts and crypto.ts in one table, the part of
    [commonOperators] that the sources at hand define. *)
Definition sourceOperators : OperatorTable :=
  pushNumberOperators bigIntToScriptNumber ++
  pushDataConstantOperators binToHex ++
  pushDataVariableOperators binToHex bufferAround ++
  cryptoOperators sha256 ripemd160 secp256k1 booleanToScriptNumber
    parseBytesAsScriptNumber bigIntToBitcoinVarInt
    isValidPublicKeyEncoding isValidSignatureEncoding decodeBitcoinSignature
    generateBitcoinCashSigningSerialization.

End SourceOperators.

(** What the machine and the hooks of an instruction set do to a state,
    one at a time: the hook [before], the operation of an operator of the
    table, or the failure on an opcode the table does not have. *)
Inductive transition (table : OperatorTable) : ProgramState -> ProgramState -> Prop :=
| transition_before (state : ProgramState) :
    transition table state (before state)
| transition_operation (state : ProgramState) (opcode : Z) (operator : Operator) :
    lookup_operator table opcode = Some operator ->
    transition table state (operation operator state)
| transition_unknown (state : ProgramState) :
    transition table state
      (applyError (Common CommonAuthenticationError.unknownOpcode) state).

(** The states a phase can come to from its initial state. *)
Inductive reachable (table : OperatorTable) (initial : ProgramState)
    : ProgramState -> Prop :=
| reachable_initial : reachable table initial initial
| reachable_next (state state' : ProgramState) :
    reachable table initial state -> transition table state state' ->
    reachable table initial state'.

(** The condition under which an operation keeps the operation count in
    order: it never lowers the count, and from a state that is within the
    limit unless it carries an error it comes to such a state. *)
Definition respects_operation_limit (f : ProgramState -> ProgramState) : Prop :=
  forall state,
    operationCount state <= operationCount (f state) /\
    ((error state = None ->
      operationCount state <= CommonConsensus.maximumOperationCount) ->
     error (f state) = None ->
     operationCount (f state) <= CommonConsensus.maximumOperationCount).

(** An operation that neither moves the instruction pointer back nor
    changes the script. *)
Definition moves_forward (f : ProgramState -> ProgramState) : Prop :=
  forall state, ip state <= ip (f state) /\ script (f state) = script state.

(** The state of OP_CHECKMULTISIG once the counts, the keys, the signatures
    and the dummy element are off the stack: [below] is left, and the n keys
    are added to the operation count. *)
Definition after_pops (state : ProgramState) (below : list Uint8Array)
    (n : Z) : ProgramState :=
  set_stack below (set_operationCount (operationCount state + n) state).

(* ----------------------------------------------------------------- *)
(** *** The walk of OP_CHECKMULTISIG in the words of the specification *)

Section MultisigWalk.

(** Whether a public key and a signature are well encoded, and whether the
    signature verifies against the key. *)
Variable isValidPublicKeyEncoding : Uint8Array -> bool.
Variable isValidSignatureEncoding : Uint8Array -> bool.
Variable verifies : Uint8Array -> Uint8Array -> bool.

(** Section 4.1, step 7: walk signatures and keys from the end of each
    list; on success consume the signature and advance the key pointer,
    otherwise advance only the key pointer; stop when all signatures have
    matched or when the remaining keys are fewer than the remaining
    signatures.  The result is the number of signatures that matched. *)
Fixpoint multisigWalk (publicKeys signatures : list Uint8Array)
    (remainingPublicKeys matched remainingSignatures : nat)
    : CommonAuthenticationError.t + nat :=
  match remainingPublicKeys with
  | O => inr matched
  | S remainingPublicKeys' =>
      if (0 <? remainingSignatures)%nat &&
         (remainingSignatures <=? remainingPublicKeys)%nat
      then
        let publicKey := nth (remainingPublicKeys - 1) publicKeys [] in
        let bitcoinEncodedSignature :=
          nth (remainingSignatures - 1) signatures [] in
        if negb (isValidPublicKeyEncoding publicKey)
        then inl CommonAuthenticationError.invalidPublicKeyEncoding
        else if negb (isValidSignatureEncoding bitcoinEncodedSignature)
        then inl CommonAuthenticationError.invalidSignatureEncoding
        else if verifies publicKey bitcoinEncodedSignature
        then multisigWalk publicKeys signatures
               remainingPublicKeys' (S matched) (remainingSignatures - 1)
        else multisigWalk publicKeys signatures
               remainingPublicKeys' matched remainingSignatures
      else inr matched
  end.

End MultisigWalk.

(* ================================================================= *)
(** ** Helpers of common.ts, after the specification *)

(** Modelled from the spec: [booleanToScriptNumber] of common.ts.  Section
    4.1: boolean outputs are the script numbers 0x01 (true) or the empty
    element (false). *)
Definition booleanToScriptNumber (value : bool) : Uint8Array :=
  if value then [0x01] else [].

(** Modelled from the spec: [stackElementIsTruthy] of common.ts.  Section
    4.6: an element is falsy iff it is empty or consists of one or more 0x00
    bytes optionally terminated by a single 0x80; otherwise it is truthy. *)
Definition stackElementIsFalsy (element : Uint8Array) : bool :=
  match pop element with
  | (None, _) => true
  | (Some last_byte, zeros) =>
      forallb (Z.eqb 0x00) element ||
      (negb (len zeros =? 0) && forallb (Z.eqb 0x00) zeros && (last_byte =? 0x80))
  end.

Definition stackElementIsTruthy (element : Uint8Array) : bool :=
  negb (stackElementIsFalsy element).

(** The bytes of a magnitude, least significant first. *)
Fixpoint magnitude_bytes (digits : nat) (magnitude : Z) : Uint8Array :=
  match digits with
  | O => []
  | S digits' =>
      if magnitude =? 0 then []
      else (magnitude mod 256) :: magnitude_bytes digits' (magnitude / 256)
  end.

(** Modelled from the spec: [bigIntToScriptNumber] of common.ts.  Section 3:
    a script number is little-endian with the sign bit in the last byte, and
    minimal; zero is the empty element. *)
Definition bigIntToScriptNumber (value : Z) : Uint8Array :=
  let bytes := magnitude_bytes 9 (Z.abs value) in
  match pop bytes with
  | (None, _) => []
  | (Some last_byte, rest) =>
      if last_byte <? 0x80
      then rest ++ [if value <? 0 then last_byte + 0x80 else last_byte]
      else bytes ++ [if value <? 0 then 0x80 else 0x00]
  end.

Fixpoint little_endian (bytes : Uint8Array) : Z :=
  match bytes with
  | [] => 0
  | b :: rest => b + 256 * little_endian rest
  end.

(** Modelled from the spec: [parseBytesAsScriptNumber] of common.ts.
    Section 3: little-endian, the sign bit in the last byte; an encoding that
    is not minimal is rejected ([None] is the [ScriptNumberError]), and so is
    one of more than 9 bytes. *)
Definition parseBytesAsScriptNumber (bytes : Uint8Array) : option Z :=
  if len bytes >? 9 then None
  else
    match pop bytes with
    | (None, _) => Some 0
    | (Some last_byte, rest) =>
        let magnitude := little_endian (rest ++ [last_byte mod 0x80]) in
        let value := if last_byte <? 0x80 then magnitude else - magnitude in
        let minimal :=
          negb (last_byte mod 0x80 =? 0) ||
          match pop rest with
          | (Some previous, _) => 0x80 <=? previous
          | (None, _) => false
          end in
        if minimal then Some value else None
    end.

(** Byte-wise comparison of two elements. *)
Fixpoint elements_equal (a b : Uint8Array) : bool :=
  match a, b with
  | [], [] => true
  | x :: a', y :: b' => (x =? y) && elements_equal a' b'
  | _, _ => false
  end.

(** Modelled from the spec: [opEqual] of bitwise.ts.  Section 4.1: popping
    from an empty stack fails with emptyStack, element comparison is
    byte-wise, elements of different length are unequal, and the boolean is
    pushed as a script number; the texts are those its test expects. *)
Definition opEqual : Operator :=
  {| asm := fun _ => "OP_EQUAL";
     description := fun _ =>
       "Pop the top two elements off the stack and compare them byte-by-byte. If they are the same, push a Script Number 1, otherwise push a Script Number 0.";
     operation := fun state =>
       let '(element1, rest) := pop (stack state) in
       let '(element2, rest) := pop rest in
       let state := set_stack rest state in
       match element1, element2 with
       | Some element1, Some element2 =>
           stack_push
             (booleanToScriptNumber (elements_equal element1 element2)) state
       | _, _ => applyError (Common CommonAuthenticationError.emptyStack) state
       end |}.

(* ================================================================= *)
(** ** A machine to run *)

(** The collaborators of the machine that are neither in the sources at hand
    nor described by the specification in enough detail are arguments of the
    operators above.  To run the operators on concrete scripts this module
    fixes them: the helpers of common.ts as modelled above, and simple
    stand-ins for the cryptographic ones.  The theorems below hold for every
    choice of the collaborators; the stand-ins only serve to show that their
    hypotheses can be met. *)
Module Sample.

Definition hex_digit (d : Z) : string :=
  match at_index
          ["0"; "1"; "2"; "3"; "4"; "5"; "6"; "7";
           "8"; "9"; "a"; "b"; "c"; "d"; "e"; "f"] d with
  | Some digit => digit
  | None => "?"
  end.

Definition binToHex (bytes : Uint8Array) : string :=
  template (map (fun b => template [hex_digit (b / 16); hex_digit (b mod 16)])
                bytes).

(** The varint of a length below 0xfd is the length itself. *)
Definition bigIntToBitcoinVarInt (value : Z) : Uint8Array :=
  if value <? 0xfd then [value]
  else [0xfd; value mod 256; value / 256].

(** Section 4.2: 65 bytes led by 0x04, or 33 bytes led by 0x02 or 0x03. *)
Definition isValidPublicKeyEncoding (publicKey : Uint8Array) : bool :=
  match publicKey with
  | first :: _ =>
      ((len publicKey =? 65) && (first =? 0x04)) ||
      ((len publicKey =? 33) && ((first =? 0x02) || (first =? 0x03)))
  | [] => false
  end.

(** Stand-in: a signature is some bytes followed by the hash type 0x41. *)
Definition isValidSignatureEncoding (bitcoinEncodedSignature : Uint8Array) : bool :=
  match pop bitcoinEncodedSignature with
  | (Some hashType, _ :: _) => hashType =? 0x41
  | _ => false
  end.

Definition decodeBitcoinSignature (bitcoinEncodedSignature : Uint8Array)
    : DecodedSignature :=
  match pop bitcoinEncodedSignature with
  | (Some hashType, der) =>
      {| signingSerializationType := [hashType]; signature := der |}
  | (None, _) => {| signingSerializationType := []; signature := [] |}
  end.

(** Stand-in: the serialization is the script code and the hash type. *)
Definition generateBitcoinCashSigningSerialization
    (version : Z) (transactionOutpointsHash transactionSequenceNumbersHash
     outpointTransactionHash : Uint8Array) (outpointIndex : Z)
    (scriptCode : Uint8Array) (outpointValue sequenceNumber : Z)
    (correspondingOutputHash transactionOutputsHash : Uint8Array)
    (locktime : Z) (signingSerializationType : Uint8Array) : Uint8Array :=
  scriptCode ++ signingSerializationType.

(** Stand-ins: the hashes keep the first 32 and the first 20 bytes; the
    signature of a public key is the two bytes that follow its first. *)
Definition sha256 : Sha256 := {| sha256_hash := firstn 32 |}.
Definition ripemd160 : Ripemd160 := {| ripemd160_hash := firstn 20 |}.
Definition secp256k1 : Secp256k1 :=
  {| verifySignatureDERLowS := fun signature publicKey digest =>
       match signature, publicKey with
       | [s1; s2], _ :: k1 :: k2 :: _ => (s1 =? k1) && (s2 =? k2)
       | _, _ => false
       end |}.

Definition opCheckSig : Operator :=
  opCheckSig sha256 secp256k1 booleanToScriptNumber bigIntToBitcoinVarInt
    isValidPublicKeyEncoding isValidSignatureEncoding decodeBitcoinSignature
    generateBitcoinCashSigningSerialization.

Definition opCheckMultiSig : Operator :=
  opCheckMultiSig sha256 secp256k1 booleanToScriptNumber
    parseBytesAsScriptNumber bigIntToBitcoinVarInt
    isValidPublicKeyEncoding isValidSignatureEncoding decodeBitcoinSignature
    generateBitcoinCashSigningSerialization.

(** Every array has a buffer of its own. *)
Definition bufferAround (array : Uint8Array) : ArrayBufferRest := ownBuffer.

Definition sourceOperators : OperatorTable :=
  sourceOperators binToHex bigIntToScriptNumber bufferAround
    sha256 ripemd160 secp256k1
    booleanToScriptNumber parseBytesAsScriptNumber bigIntToBitcoinVarInt
    isValidPublicKeyEncoding isValidSignatureEncoding decodeBitcoinSignature
    generateBitcoinCashSigningSerialization.

(** The table of the machine: the operators of the sources at hand and
    OP_EQUAL, which the P2SH locking script ends with. *)
Definition commonOperators : OperatorTable :=
  sourceOperators ++ [(BitcoinCashOpCodes.OP_EQUAL, opEqual)].

Definition vm : AuthenticationVirtualMachine :=
  createAuthenticationVirtualMachine (bitcoinCashInstructionSet commonOperators).


Definition externalState : BitcoinCashAuthenticationProgramExternalState :=
  {| blockHeight := 0; blockTime := 0;
     correspondingOutputHash := repeat 0 32;
     locktime := 0; outpointIndex := 0;
     outpointTransactionHash := repeat 0 32;
     outpointValue := 0; sequenceNumber := 0;
     transactionOutpointsHash := repeat 0 32;
     transactionOutputsHash := repeat 0 32;
     transactionSequenceNumbersHash := repeat 0 32;
     version := 0 |}.

Definition program (unlocking locking : Uint8Array) : AuthenticationProgram :=
  {| lockingScript := locking; state := externalState;
     unlockingScript := unlocking |}.

(** A locking script of the P2SH shape:
    OP_HASH160 OP_PUSHBYTES_20 <20 bytes> OP_EQUAL. *)
Definition p2shLockingScript : Uint8Array :=
  [BitcoinCashOpCodes.OP_HASH160; BitcoinCashOpCodes.OP_PUSHBYTES_20]
  ++ repeat 0x11 20 ++ [BitcoinCashOpCodes.OP_EQUAL].

End Sample.

(* ================================================================= *)
(** ** Concrete states and programs *)

(** The state a successful program ends in: no error, the one element 0x01. *)
Definition successful_state : ProgramState :=
  set_stack [[0x01]]
    (createBitcoinCashProgramState (Sample.program [] []) [] []).

(** A state of the given script, instruction pointer and stack. *)
Definition state_at (script_ : Uint8Array) (ip_ : Z) (stack_ : list Uint8Array)
    : ProgramState :=
  set_ip ip_ (createBitcoinCashProgramState (Sample.program [] []) script_ stack_).

(** OP_PUSHBYTES_2 0xaa 0xbb OP_1, with the instruction pointer on the push
    opcode. *)
Definition push_state_at_opcode : ProgramState :=
  state_at [BitcoinCashOpCodes.OP_PUSHBYTES 2; 0xaa; 0xbb; BitcoinCashOpCodes.OP_1]
    0 [].

(** The same script, with the instruction pointer on the first byte after
    the push opcode. *)
Definition push_state_after_opcode : ProgramState :=
  state_at [BitcoinCashOpCodes.OP_PUSHBYTES 2; 0xaa; 0xbb; BitcoinCashOpCodes.OP_1]
    1 [].

(** OP_PUSHBYTES_2 0xaa: one byte of payload is missing. *)
Definition push_state_one_byte_short : ProgramState :=
  state_at [BitcoinCashOpCodes.OP_PUSHBYTES 2; 0xaa] 0 [].

(** OP_PUSHDATA1, the length byte 75 and 75 bytes of payload, with the
    instruction pointer on the length byte. *)
Definition pushdata1_state : ProgramState :=
  state_at ([BitcoinCashOpCodes.OP_PUSHDATA1; 75] ++ repeat 0xab 75) 1 [].

(** Three public keys and the signatures the stand-in [Sample.secp256k1]
    accepts for them: the signature of key i carries the two bytes i i. *)
Definition sample_key (i : Z) : Uint8Array := [0x02; i; i] ++ repeat 0x00 30.
Definition sample_signature (i : Z) : Uint8Array := [i; i; 0x41].

(** A 2-of-3 multisig state: the dummy element, the signatures of the first
    and of the third key, the count 2, the three keys and the count 3, above
    one more element. *)
Definition two_of_three_state : ProgramState :=
  state_at [BitcoinCashOpCodes.OP_CHECKMULTISIG] 1
    [ [0x07]; [];
      sample_signature 1; sample_signature 3; [0x02];
      sample_key 1; sample_key 2; sample_key 3; [0x03] ].

(** A 0-of-0 multisig state: the dummy element, the count 0 of signatures
    and the count 0 of keys, above one more element. *)
Definition zero_of_zero_state : ProgramState :=
  state_at [BitcoinCashOpCodes.OP_CHECKMULTISIG] 1 [ [0x07]; []; []; [] ].

(** A script of 203 bytes whose bytes from index 1 on are all OP_1. *)
Definition long_script : Uint8Array :=
  BitcoinCashOpCodes.OP_0 :: repeat BitcoinCashOpCodes.OP_1 202.

(** Programs with the P2SH locking script of [Sample]: the unlocking script
    OP_0 OP_16, which executes OP_16 and so is not push-only; the unlocking
    script OP_0 OP_1; and the empty unlocking script. *)
Definition program_not_push_only : AuthenticationProgram :=
  Sample.program [BitcoinCashOpCodes.OP_0; BitcoinCashOpCodes.OP_16]
    Sample.p2shLockingScript.

Definition program_push_only : AuthenticationProgram :=
  Sample.program [BitcoinCashOpCodes.OP_0; BitcoinCashOpCodes.OP_1]
    Sample.p2shLockingScript.

Definition program_empty_unlocking : AuthenticationProgram :=
  Sample.program [] Sample.p2shLockingScript.


(** OP_PUSHDATA2, the two length bytes 0x00 0x01 (256, little-endian) and
    256 bytes of payload, with the instruction pointer on the first length
    byte. *)
Definition pushdata2_state : ProgramState :=
  state_at ([BitcoinCashOpCodes.OP_PUSHDATA2; 0x00; 0x01] ++ repeat 0xcd 256) 1 [].

(** OP_CHECKSIG states: the signature of the first key and that key, above
    one more element; and a single element. *)
Definition checksig_state : ProgramState :=
  state_at [BitcoinCashOpCodes.OP_CHECKSIG] 1
    [ [0x07]; sample_signature 1; sample_key 1 ].

Definition checksig_short_state : ProgramState :=
  state_at [BitcoinCashOpCodes.OP_CHECKSIG] 1 [ sample_key 1 ].

(** OP_CHECKMULTISIG states: 21 keys announced; 2 signatures required of 1
    key; a 1-of-1 with the dummy element 0x01; and a well-formed 1-of-1. *)
Definition too_many_keys_state : ProgramState :=
  state_at [BitcoinCashOpCodes.OP_CHECKMULTISIG] 1 [ [0x07]; [0x15] ].

Definition two_of_one_state : ProgramState :=
  state_at [BitcoinCashOpCodes.OP_CHECKMULTISIG] 1
    [ [0x07]; [0x02]; sample_key 1; [0x01] ].

Definition dummy_not_empty_state : ProgramState :=
  state_at [BitcoinCashOpCodes.OP_CHECKMULTISIG] 1
    [ [0x07]; [0x01]; sample_signature 1; [0x01]; sample_key 1; [0x01] ].

Definition one_of_one_state : ProgramState :=
  state_at [BitcoinCashOpCodes.OP_CHECKMULTISIG] 1
    [ [0x07]; []; sample_signature 1; [0x01]; sample_key 1; [0x01] ].

(** A program whose locking script has the P2SH shape with another hash
    than [Sample.p2shLockingScript], and a program whose locking script is
    not of the P2SH shape; both with the unlocking script OP_0 OP_1. *)
Definition program_other_hash : AuthenticationProgram :=
  Sample.program [BitcoinCashOpCodes.OP_0; BitcoinCashOpCodes.OP_1]
    ([BitcoinCashOpCodes.OP_HASH160; BitcoinCashOpCodes.OP_PUSHBYTES_20]
     ++ repeat 0x22 20 ++ [BitcoinCashOpCodes.OP_EQUAL]).

Definition program_plain : AuthenticationProgram :=
  Sample.program [BitcoinCashOpCodes.OP_0; BitcoinCashOpCodes.OP_1]
    [BitcoinCashOpCodes.OP_0; BitcoinCashOpCodes.OP_2].

(** A program whose unlocking phase fails: OP_PUSHBYTES_2 with no payload. *)
Definition program_failing_unlocking : AuthenticationProgram :=
  Sample.program [BitcoinCashOpCodes.OP_0; BitcoinCashOpCodes.OP_PUSHBYTES 2]
    Sample.p2shLockingScript.

(* ================================================================= *)
(** ** What an operation leaves alone *)

(** An operation that changes neither the script, nor the last code
    separator, nor the external state, nor the recorded operations, that
    does not lower the operation count, and that does not clear an error. *)
Definition keeps_frame (f : ProgramState -> ProgramState) : Prop :=
  forall state,
    script (f state) = script state /\
    lastCodeSeparator (f state) = lastCodeSeparator state /\
    external (f state) = external state /\
    operations (f state) = operations state /\
    operationCount state <= operationCount (f state) /\
    (error (f state) = None -> error state = None).

(* ================================================================= *)
(** ** Signatures that match keys in order *)

(** Every signature of the list verifies against a public key of the list,
    and the keys of later signatures lie later in the list of keys. *)
Inductive signatures_match (verifies : Uint8Array -> Uint8Array -> bool)
    : list Uint8Array -> list Uint8Array -> Prop :=
| match_none (publicKeys : list Uint8Array) :
    signatures_match verifies publicKeys []
| match_skip (publicKeys : list Uint8Array) (publicKey : Uint8Array)
    (signatures : list Uint8Array) :
    signatures_match verifies publicKeys signatures ->
    signatures_match verifies (publicKeys ++ [publicKey]) signatures
| match_take (publicKeys : list Uint8Array) (publicKey : Uint8Array)
    (signatures : list Uint8Array) (bitcoinEncodedSignature : Uint8Array) :
    verifies publicKey bitcoinEncodedSignature = true ->
    signatures_match verifies publicKeys signatures ->
    signatures_match verifies (publicKeys ++ [publicKey])
      (signatures ++ [bitcoinEncodedSignature]).

(** Arrays that are views on a larger buffer: every array is
    [tx.subarray(2)] of a [tx] that starts with the bytes 0x00 0x01. *)
Definition bufferOfSubarray (array : Uint8Array) : ArrayBufferRest :=
  {| bytesBefore := [0x00; 0x01]; bytesAfter := [] |}.

(* ================================================================= *)
(** * Properties *)

Unset Implicit Arguments.

(** ** Arrays *)

Lemma len_nonneg {A} (l : list A) : 0 <= len l.
Proof. unfold len. lia. Qed.

Lemma len_app {A} (l r : list A) : len (l ++ r) = len l + len r.
Proof. unfold len. rewrite length_app. lia. Qed.

Lemma pop_nil {A} : pop (@nil A) = (None, []).
Proof. reflexivity. Qed.

Lemma pop_app {A} (l : list A) (x : A) : pop (l ++ [x]) = (Some x, l).
Proof. unfold pop. rewrite rev_app_distr. simpl. now rewrite rev_involutive. Qed.

Lemma pop_cases {A} (l : list A) :
  (l = [] /\ pop l = (None, [])) \/
  (exists r x, l = r ++ [x] /\ pop l = (Some x, r)).
Proof.
  destruct l as [|a l] using rev_ind.
  - left. split; reflexivity.
  - right. exists l, a. split; [reflexivity | apply pop_app].
Qed.

Lemma at_index_app_last {A} (l : list A) (x : A) :
  at_index (l ++ [x]) (len (l ++ [x]) - 1) = Some x.
Proof.
  unfold at_index. rewrite len_app. unfold len. simpl.
  replace (Z.of_nat (List.length l) + 1 - 1 <? 0) with false
    by (symmetry; apply Z.ltb_ge; lia).
  replace (Z.to_nat (Z.of_nat (List.length l) + 1 - 1)) with (List.length l) by lia.
  rewrite nth_error_app2 by lia. now rewrite Nat.sub_diag.
Qed.

Lemma at_index_nil_last {A} : at_index (@nil A) (len (@nil A) - 1) = None.
Proof. reflexivity. Qed.

(** [splice(-n)] with [n > 0] takes the last [n] elements away. *)
Lemma splice_last {A} (l r : list A) :
  0 < len r -> splice (l ++ r) (- len r) = (r, l).
Proof.
  intros Hr. unfold splice, relative_index.
  replace (- len r <? 0) with true by (symmetry; apply Z.ltb_lt; lia).
  rewrite len_app.
  replace (Z.to_nat (Z.max (len l + len r + - len r) 0)) with (List.length l)
    by (unfold len; lia).
  rewrite skipn_app, firstn_app, Nat.sub_diag, skipn_all, firstn_all.
  simpl. now rewrite app_nil_r.
Qed.

(** [splice(-0)] is [splice(0)]: it takes the whole array away. *)
Lemma splice_zero {A} (l : list A) : splice l (- 0) = (l, []).
Proof.
  unfold splice, relative_index. simpl.
  rewrite Z.min_l by apply len_nonneg. reflexivity.
Qed.

Lemma slice_window {A} (l : list A) (begin count : Z) :
  0 <= begin -> 0 <= count -> begin + count <= len l ->
  slice l begin (begin + count) =
  firstn (Z.to_nat count) (skipn (Z.to_nat begin) l).
Proof.
  intros Hb Hc Hl. unfold slice, relative_index.
  replace (begin <? 0) with false by (symmetry; apply Z.ltb_ge; lia).
  replace (begin + count <? 0) with false by (symmetry; apply Z.ltb_ge; lia).
  rewrite !Z.min_l by lia.
  now replace (Z.max (begin + count - begin) 0) with count by lia.
Qed.

Lemma slice_window_length {A} (l : list A) (begin count : Z) :
  0 <= begin -> 0 <= count -> begin + count <= len l ->
  len (slice l begin (begin + count)) = count.
Proof.
  intros Hb Hc Hl. rewrite slice_window by assumption.
  unfold len in *. rewrite length_firstn, length_skipn. lia.
Qed.

Lemma slice_window_at {A} (l : list A) (begin count i : Z) :
  0 <= begin -> 0 <= count -> begin + count <= len l -> 0 <= i < count ->
  at_index (slice l begin (begin + count)) i = at_index l (begin + i).
Proof.
  intros Hb Hc Hl Hi. rewrite slice_window by assumption.
  unfold at_index.
  replace (i <? 0) with false by (symmetry; apply Z.ltb_ge; lia).
  replace (begin + i <? 0) with false by (symmetry; apply Z.ltb_ge; lia).
  rewrite nth_error_firstn.
  replace (Z.to_nat i <? Z.to_nat count)%nat with true
    by (symmetry; apply Nat.ltb_lt; lia).
  rewrite nth_error_skipn. f_equal. lia.
Qed.

Lemma slice_all {A} (l : list A) : slice l 0 (len l) = l.
Proof.
  unfold slice, relative_index. simpl.
  replace (len l <? 0) with false
    by (symmetry; apply Z.ltb_ge; apply len_nonneg).
  pose proof (len_nonneg l) as Hl.
  replace (Z.max (Z.min (len l) (len l) - Z.min 0 (len l)) 0) with (len l) by lia.
  replace (Z.min 0 (len l)) with 0 by lia.
  unfold len. rewrite Nat2Z.id. simpl. apply firstn_all.
Qed.

Lemma clone_id (state : ProgramState) : clone state = state.
Proof. unfold clone. rewrite !slice_all. now destruct state. Qed.

Lemma cloneStack_id (stack_ : list Uint8Array) : cloneStack stack_ = stack_.
Proof. unfold cloneStack. apply map_id. Qed.

(* ================================================================= *)
(** ** The final validity check *)

Section FinalValidity.

Variable truthy : Uint8Array -> bool.

(** The check of the source accepts a state with an error, one element on
    the stack and that element truthy. *)
Lemma validate_accepts_failed_state (state : ProgramState)
    (kind : AuthenticationError) (element : Uint8Array) :
  error state = Some kind -> stack state = [element] ->
  truthy element = true ->
  validateBitcoinCashAuthenticationProgramState truthy state = true.
Proof.
  intros He Hs Ht. unfold validateBitcoinCashAuthenticationProgramState, has_error.
  rewrite He, Hs. simpl. exact Ht.
Qed.

(** C1 (the code departs from the claim).  The claim: the terminal state is
    judged valid iff it has no error, exactly one stack element, and that
    element is truthy.  The source tests [state.error !== undefined], so a
    state WITHOUT an error is never judged valid, whatever its stack. *)
Theorem validate_rejects_every_error_free_state (state : ProgramState) :
  error state = None ->
  validateBitcoinCashAuthenticationProgramState truthy state = false.
Proof.
  intros He. unfold validateBitcoinCashAuthenticationProgramState, has_error.
  now rewrite He.
Qed.

End FinalValidity.

Lemma validate_rejects_every_error_free_state_witness :
  error successful_state = None /\
  stack successful_state = [[0x01]] /\
  stackElementIsTruthy [0x01] = true /\
  validateBitcoinCashAuthenticationProgramState
    stackElementIsTruthy successful_state = false.
Proof.
  split; [reflexivity|]. split; [reflexivity|]. split; [reflexivity|].
  apply (validate_rejects_every_error_free_state stackElementIsTruthy
           successful_state).
  reflexivity.
Defined.

(* ================================================================= *)
(** ** The initial state of a phase *)

(** The operations the first [before] records: the opcode at index 1, the
    position it has moved the instruction pointer to. *)
Lemma first_before_records (program : AuthenticationProgram)
    (script_ : Uint8Array) (stack_ : list Uint8Array) :
  operations (before (createBitcoinCashProgramState program script_ stack_)) =
  match at_index script_ 1 with
  | Some opcode => [opcode]
  | None => []
  end.
Proof.
  unfold before, createBitcoinCashProgramState. simpl.
  destruct (at_index script_ 1); reflexivity.
Qed.

(** C4 (as stated, it fails on the code).  On the one-opcode script OP_1 the
    constructed state has instruction pointer 0, not -1; the first [before]
    moves it to 1, not to 0, and does not read the opcode at index 0. *)
Lemma createBitcoinCashProgramState_ip_counterexample :
  let state0 :=
    createBitcoinCashProgramState
      (Sample.program [BitcoinCashOpCodes.OP_1] []) [BitcoinCashOpCodes.OP_1] [] in
  ip state0 <> -1 /\
  ip (before state0) <> 0 /\
  operations (before state0) <> [BitcoinCashOpCodes.OP_1].
Proof. simpl. repeat split; discriminate. Qed.

(** C4 (amended).  For every program, script and initial stack, the state
    constructed for a phase has instruction pointer 0 (with last code
    separator -1, operation count 0 and no operations), and the first
    [before] call advances the instruction pointer to 1. *)
Theorem createBitcoinCashProgramState_ip (program : AuthenticationProgram)
    (script_ : Uint8Array) (stack_ : list Uint8Array) :
  let state0 := createBitcoinCashProgramState program script_ stack_ in
  ip state0 = 0 /\
  lastCodeSeparator state0 = -1 /\
  operationCount state0 = 0 /\
  operations state0 = [] /\
  script state0 = script_ /\
  stack state0 = stack_ /\
  error state0 = None /\
  ip (before state0) = 1.
Proof.
  simpl. repeat split.
  unfold before, createBitcoinCashProgramState. simpl.
  destruct (at_index script_ 1); reflexivity.
Qed.

(** With the machine as the specification words it (apply [before], then
    look up the opcode at the instruction pointer), the first step of a phase
    executes the operator of the byte at index 1. *)
Lemma first_step_executes_index_one (table : OperatorTable)
    (program : AuthenticationProgram) (script_ : Uint8Array)
    (stack_ : list Uint8Array) :
  step (bitcoinCashInstructionSet table)
       (createBitcoinCashProgramState program script_ stack_) =
  let entered := before (createBitcoinCashProgramState program script_ stack_) in
  match at_index script_ 1 with
  | None => entered
  | Some opcode =>
      match lookup_operator table opcode with
      | Some operator => operation operator entered
      | None => applyError (Common CommonAuthenticationError.unknownOpcode) entered
      end
  end.
Proof.
  unfold step. cbn [instruction_before bitcoinCashInstructionSet operators].
  assert (script (before (createBitcoinCashProgramState program script_ stack_))
          = script_ /\
          ip (before (createBitcoinCashProgramState program script_ stack_)) = 1)
    as [Hs Hi].
  { unfold before, createBitcoinCashProgramState. simpl.
    destruct (at_index script_ 1); split; reflexivity. }
  rewrite Hs, Hi. reflexivity.
Qed.

(* ================================================================= *)
(** ** Constant pushes *)

(** ** Reading through a DataView *)

Lemma at_index_Some_lt {A} (l : list A) (i : Z) (x : A) :
  at_index l i = Some x -> 0 <= i < len l.
Proof.
  unfold at_index. destruct (i <? 0) eqn:Hi; [discriminate|].
  apply Z.ltb_ge in Hi. intros H.
  assert (nth_error l (Z.to_nat i) <> None) as Hn by (rewrite H; discriminate).
  apply nth_error_Some in Hn. unfold len. lia.
Qed.

Lemma nth_at_index {A} (l : list A) (i : Z) (x d : A) :
  at_index l i = Some x -> nth (Z.to_nat i) l d = x.
Proof.
  unfold at_index. destruct (i <? 0); [discriminate|]. apply nth_error_nth.
Qed.

Lemma In_slice {A} (l : list A) (begin end_ : Z) (x : A) :
  In x (slice l begin end_) -> In x l.
Proof.
  unfold slice. intros H.
  set (k := Z.to_nat (relative_index (len l) begin)) in *.
  set (n := Z.to_nat
              (Z.max (relative_index (len l) end_ - relative_index (len l) begin)
                     0)) in *.
  rewrite <- (firstn_skipn k l). apply in_or_app. right.
  rewrite <- (firstn_skipn n (skipn k l)). apply in_or_app. now left.
Qed.

Lemma DataView_returns (buffer_ : list Z) (byteOffset_ byteLength : Z) :
  0 <= byteOffset_ -> 0 <= byteLength ->
  byteOffset_ + byteLength <= len buffer_ ->
  DataView buffer_ byteOffset_ byteLength =
  Returned (slice buffer_ byteOffset_ (byteOffset_ + byteLength)).
Proof.
  intros Ho Hl Hb. unfold DataView.
  replace (byteOffset_ <? 0) with false by (symmetry; apply Z.ltb_ge; lia).
  replace (byteLength <? 0) with false by (symmetry; apply Z.ltb_ge; lia).
  replace (len buffer_ <? byteOffset_ + byteLength) with false
    by (symmetry; apply Z.ltb_ge; lia).
  reflexivity.
Qed.

(** The bytes of a view are the bytes of the buffer from its offset on. *)
Lemma DataView_byte (buffer_ : list Z) (byteOffset_ byteLength i b : Z) :
  0 <= byteOffset_ -> 0 <= i < byteLength ->
  byteOffset_ + byteLength <= len buffer_ ->
  at_index buffer_ (byteOffset_ + i) = Some b ->
  nth (Z.to_nat i) (slice buffer_ byteOffset_ (byteOffset_ + byteLength)) 0 = b.
Proof.
  intros Ho Hi Hb Hat. apply nth_at_index.
  rewrite slice_window_at by lia. exact Hat.
Qed.

Section ReadLength.

Variable bufferAround : Uint8Array -> ArrayBufferRest.

(** The script lies within its buffer. *)
Lemma len_buffer (script_ : Uint8Array) :
  byteOffset bufferAround script_ + len script_ <= len (buffer bufferAround script_).
Proof.
  unfold buffer, byteOffset. rewrite !len_app.
  pose proof (len_nonneg (bytesAfter (bufferAround script_))). lia.
Qed.

(** An element of the script is the byte of the buffer at its index plus
    the offset of the script. *)
Lemma buffer_at_byteOffset (script_ : Uint8Array) (i : Z) :
  0 <= i < len script_ ->
  at_index (buffer bufferAround script_) (byteOffset bufferAround script_ + i)
  = at_index script_ i.
Proof.
  intros Hi. unfold buffer, byteOffset, at_index, len in *.
  replace (Z.of_nat (length (bytesBefore (bufferAround script_))) + i <? 0)
    with false by (symmetry; apply Z.ltb_ge; lia).
  replace (i <? 0) with false by (symmetry; apply Z.ltb_ge; lia).
  rewrite nth_error_app2 by lia.
  replace (Z.to_nat (Z.of_nat (length (bytesBefore (bufferAround script_))) + i)
           - length (bytesBefore (bufferAround script_)))%nat
    with (Z.to_nat i) by lia.
  apply nth_error_app1. lia.
Qed.

(** The length field of OP_PUSHDATA1 is the byte of the buffer at the
    instruction pointer. *)
Lemma readLittleEndianLength_Uint8 (script_ : Uint8Array) (ip_ K : Z) :
  at_index (buffer bufferAround script_) ip_ = Some K ->
  readLittleEndianLength bufferAround script_ ip_ (BYTES_PER_ELEMENT Uint8) Uint8
  = Returned K.
Proof.
  intros HK. apply at_index_Some_lt in HK as Hi.
  unfold readLittleEndianLength. cbn [BYTES_PER_ELEMENT].
  rewrite DataView_returns by lia. unfold getUint.
  rewrite slice_window_length by lia. cbn [BYTES_PER_ELEMENT].
  change (1 <? 1) with false. cbv iota zeta. f_equal.
  apply (DataView_byte (buffer bufferAround script_) ip_ 1 0 K); try lia.
  now replace (ip_ + 0) with ip_ by lia.
Qed.

(** The length field of OP_PUSHDATA2 is the little-endian number of the two
    bytes of the buffer at the instruction pointer. *)
Lemma readLittleEndianLength_Uint16 (script_ : Uint8Array) (ip_ b0 b1 : Z) :
  at_index (buffer bufferAround script_) ip_ = Some b0 ->
  at_index (buffer bufferAround script_) (ip_ + 1) = Some b1 ->
  readLittleEndianLength bufferAround script_ ip_ (BYTES_PER_ELEMENT Uint16) Uint16
  = Returned (b0 + 256 * b1).
Proof.
  intros H0 H1. apply at_index_Some_lt in H0 as Hi0. apply at_index_Some_lt in H1 as Hi1.
  unfold readLittleEndianLength. cbn [BYTES_PER_ELEMENT].
  rewrite DataView_returns by lia. unfold getUint.
  rewrite slice_window_length by lia. cbn [BYTES_PER_ELEMENT].
  change (2 <? 2) with false. cbv iota zeta.
  change (2 ^ 8) with 256. f_equal.
  assert (at_index (buffer bufferAround script_) (ip_ + 0) = Some b0) as H0'
    by (now replace (ip_ + 0) with ip_ by lia).
  pose proof (DataView_byte (buffer bufferAround script_) ip_ 2 0 b0
                ltac:(lia) ltac:(lia) ltac:(lia) H0') as E0.
  pose proof (DataView_byte (buffer bufferAround script_) ip_ 2 1 b1
                ltac:(lia) ltac:(lia) ltac:(lia) H1) as E1.
  change (Z.to_nat 0) with 0%nat in E0. change (Z.to_nat 1) with 1%nat in E1.
  now rewrite E0, E1.
Qed.

(** The read does not throw when the instruction pointer is not negative,
    the length field is as long as its type and the script holds it. *)
Lemma readLittleEndianLength_returns
    (script_ : Uint8Array) (ip_ lengthBits : Z) (type : Uint) :
  0 <= ip_ -> BYTES_PER_ELEMENT type <= lengthBits ->
  ip_ + lengthBits <= len script_ ->
  exists length_,
    readLittleEndianLength bufferAround script_ ip_ lengthBits type
    = Returned length_.
Proof.
  intros Hip Hbits Hlen.
  pose proof (len_buffer script_) as Hb.
  pose proof (len_nonneg (bytesBefore (bufferAround script_))) as Ho.
  fold (byteOffset bufferAround script_) in Ho.
  assert (0 < BYTES_PER_ELEMENT type) as Hpos by (destruct type; reflexivity).
  unfold readLittleEndianLength.
  rewrite DataView_returns by lia. unfold getUint.
  rewrite slice_window_length by lia.
  replace (lengthBits <? BYTES_PER_ELEMENT type) with false
    by (symmetry; apply Z.ltb_ge; lia).
  eexists. reflexivity.
Qed.

(** Whatever the read returns is made of bytes of the buffer. *)
Lemma readLittleEndianLength_bytes (P : Z -> Prop)
    (script_ : Uint8Array) (ip_ lengthBits : Z) (type : Uint) (length_ : Z) :
  P 0 -> Forall P (buffer bufferAround script_) ->
  readLittleEndianLength bufferAround script_ ip_ lengthBits type
  = Returned length_ ->
  exists b0 b1 b2 b3,
    P b0 /\ P b1 /\ P b2 /\ P b3 /\
    length_ =
      match type with
      | Uint8 => b0
      | Uint16 => b0 + 2 ^ 8 * b1
      | Uint32 => b0 + 2 ^ 8 * b1 + 2 ^ 16 * b2 + 2 ^ 24 * b3
      end.
Proof.
  intros H0 Hb. unfold readLittleEndianLength, DataView, getUint.
  destruct ((ip_ <? 0) || (lengthBits <? 0) ||
            (len (buffer bufferAround script_) <? ip_ + lengthBits));
    [discriminate|].
  set (view := slice (buffer bufferAround script_) ip_ (ip_ + lengthBits)).
  destruct (len view <? BYTES_PER_ELEMENT type); [discriminate|].
  intros H. injection H as <-.
  assert (forall i, P (nth i view 0)) as Hview.
  { intros i. destruct (nth_in_or_default i view 0) as [Hin|Heq];
      [|rewrite Heq; exact H0].
    apply In_slice in Hin. rewrite Forall_forall in Hb. now apply Hb. }
  exists (nth 0 view 0), (nth 1 view 0), (nth 2 view 0), (nth 3 view 0).
  repeat split; apply Hview.
Qed.

End ReadLength.

Section PushProperties.

Variable binToHex : Uint8Array -> string.
Variable bufferAround : Uint8Array -> ArrayBufferRest.

(** OP_PUSHBYTES_N is bound to [opPushDataConstant(N)]. *)
Lemma pushDataConstantOperators_lookup (N : Z) :
  1 <= N <= 75 ->
  lookup_operator (pushDataConstantOperators binToHex)
                  (BitcoinCashOpCodes.OP_PUSHBYTES N)
  = Some (opPushDataConstant binToHex N).
Proof.
  intros HN.
  assert (exists n, (n < 75)%nat /\ N = Z.of_nat (S n)) as (n & Hn & ->)
    by (exists (Z.to_nat (N - 1)); lia).
  clear HN.
  do 75 (destruct n as [|n]; [reflexivity|]).
  lia.
Qed.

Lemma opPushDataConstant_enough (N : Z) (state : ProgramState) :
  ip state + N <= len (script state) ->
  operation (opPushDataConstant binToHex N) state =
  set_ip (ip state + N)
    (stack_push (slice (script state) (ip state) (ip state + N)) state).
Proof.
  intros H. simpl. unfold pushDataConstantMethod.
  replace (len (script state) <? ip state + N) with false
    by (symmetry; apply Z.ltb_ge; lia).
  reflexivity.
Qed.

Lemma opPushDataConstant_short (N : Z) (state : ProgramState) :
  len (script state) < ip state + N ->
  operation (opPushDataConstant binToHex N) state =
  applyError (Common CommonAuthenticationError.malformedPush) state.
Proof.
  intros H. simpl. unfold pushDataConstantMethod.
  replace (len (script state) <? ip state + N) with true
    by (symmetry; apply Z.ltb_lt; lia).
  reflexivity.
Qed.

(** C5 (amended).  For every N in 1..75, OP_PUSHBYTES_N is bound to
    [opPushDataConstant(N)], and for every state whose instruction pointer
    is not negative: if the script has at least N bytes from position ip
    on, the operation pushes exactly the N bytes at positions ip through
    ip+N-1 as one new stack element, sets the instruction pointer to ip+N
    and leaves every other stack element and every other field unchanged;
    if fewer than N bytes remain from ip on, it returns the state with
    error = malformedPush and nothing else changed. *)
Theorem opPushDataConstant_pushes_from_ip (N : Z) (state : ProgramState) :
  1 <= N <= 75 -> 0 <= ip state ->
  lookup_operator (pushDataConstantOperators binToHex)
                  (BitcoinCashOpCodes.OP_PUSHBYTES N)
  = Some (opPushDataConstant binToHex N) /\
  (ip state + N <= len (script state) ->
   exists payload,
     operation (opPushDataConstant binToHex N) state =
     set_ip (ip state + N) (set_stack (stack state ++ [payload]) state) /\
     len payload = N /\
     forall i, 0 <= i < N ->
       at_index payload i = at_index (script state) (ip state + i)) /\
  (len (script state) < ip state + N ->
   operation (opPushDataConstant binToHex N) state =
   set_error (Some (Common CommonAuthenticationError.malformedPush)) state).
Proof.
  intros HN Hip. split; [now apply pushDataConstantOperators_lookup|]. split.
  - intros Hlen. exists (slice (script state) (ip state) (ip state + N)).
    split; [now apply opPushDataConstant_enough|]. split.
    + apply slice_window_length; lia.
    + intros i Hi. apply slice_window_at; lia.
  - apply opPushDataConstant_short.
Qed.

(* --------------------------------------------------------------- *)
(** ** OP_PUSHDATA1 *)

(** The method of an operator made by [createPushDataOperator] once the
    length has been read. *)
Lemma pushDataVariableMethod_read {Result}
    (lengthBits : Z) (type : Uint) (minimum maximum : Z)
    (insufficientLengthBits : ProgramState -> Result)
    (insufficientTotalBits belowMinimumLength aboveMaximumLength valid
       : ProgramState -> Z -> Z -> Result)
    (state : ProgramState) (length_ : Z) :
  ip state + lengthBits <= len (script state) ->
  readLittleEndianLength bufferAround (script state) (ip state) lengthBits type
  = Returned length_ ->
  pushDataVariableMethod bufferAround lengthBits type minimum maximum
    insufficientLengthBits insufficientTotalBits belowMinimumLength
    aboveMaximumLength valid state =
  Returned
    (if len (script state) <? ip state + lengthBits + length_
     then insufficientTotalBits state (ip state + lengthBits) length_
     else if length_ <? minimum
     then belowMinimumLength state (ip state + lengthBits) length_
     else if length_ >? maximum
     then aboveMaximumLength state (ip state + lengthBits) length_
     else valid state (ip state + lengthBits) length_).
Proof.
  intros Hlen Hread. unfold pushDataVariableMethod.
  replace (len (script state) <? ip state + lengthBits) with false
    by (symmetry; apply Z.ltb_ge; lia).
  now rewrite Hread.
Qed.

(** The method does not throw when the instruction pointer is not negative
    and the length field is as long as its type, as it is for
    OP_PUSHDATA1/2/4. *)
Lemma pushDataVariableMethod_returns {Result}
    (lengthBits : Z) (type : Uint) (minimum maximum : Z)
    (insufficientLengthBits : ProgramState -> Result)
    (insufficientTotalBits belowMinimumLength aboveMaximumLength valid
       : ProgramState -> Z -> Z -> Result)
    (state : ProgramState) :
  0 <= ip state -> BYTES_PER_ELEMENT type <= lengthBits ->
  exists result_,
    pushDataVariableMethod bufferAround lengthBits type minimum maximum
      insufficientLengthBits insufficientTotalBits belowMinimumLength
      aboveMaximumLength valid state = Returned result_.
Proof.
  intros Hip Hbits. unfold pushDataVariableMethod.
  destruct (len (script state) <? ip state + lengthBits) eqn:Hguard;
    [eexists; reflexivity|].
  apply Z.ltb_ge in Hguard.
  destruct (readLittleEndianLength_returns bufferAround (script state)
              (ip state) lengthBits type Hip Hbits Hguard) as (length_ & ->).
  eexists. reflexivity.
Qed.

(** The two ways the operation of an operator made by
    [createPushDataOperator] can go: it fails and changes nothing else, or
    it pushes the bytes behind the length field, as many as the length it
    has read. *)
Lemma createPushDataOperator_cases
    (lengthBits : Z) (type : Uint) (minimum maximum : Z) (state : ProgramState) :
  (exists kind,
     operation
       (createPushDataOperator binToHex bufferAround lengthBits type minimum
          maximum) state = applyError (Common kind) state) \/
  (exists length_,
     readLittleEndianLength bufferAround (script state) (ip state) lengthBits type
       = Returned length_ /\
     ip state + lengthBits + length_ <= len (script state) /\
     minimum <= length_ <= maximum /\
     operation
       (createPushDataOperator binToHex bufferAround lengthBits type minimum
          maximum) state =
     set_ip (ip state + lengthBits + length_)
       (stack_push
          (slice (script state) (ip state + lengthBits)
             (ip state + lengthBits + length_)) state)).
Proof.
  unfold createPushDataOperator, pushDataVariableMethod. cbn [operation].
  destruct (len (script state) <? ip state + lengthBits);
    [left; eexists; reflexivity|].
  destruct (readLittleEndianLength bufferAround (script state) (ip state)
              lengthBits type) as [length_|e] eqn:Hread;
    [|left; eexists; reflexivity].
  cbn [returned_or].
  destruct (len (script state) <? ip state + lengthBits + length_) eqn:Htotal;
    [left; eexists; reflexivity|].
  destruct (length_ <? minimum) eqn:Hmin; [left; eexists; reflexivity|].
  destruct (length_ >? maximum) eqn:Hmax; [left; eexists; reflexivity|].
  apply Z.ltb_ge in Htotal, Hmin. rewrite Z.gtb_ltb in Hmax.
  apply Z.ltb_ge in Hmax.
  right. exists length_. repeat split; lia.
Qed.

(** What OP_PUSHDATA1 does when the length byte K, the byte the view finds
    at [ip], and the K bytes of payload behind the length field are all
    there. *)
Lemma opPushData1_operation (K : Z) (state : ProgramState) :
  0 <= K ->
  at_index (buffer bufferAround (script state)) (ip state) = Some K ->
  ip state + 1 + K <= len (script state) ->
  operation (opPushData1 binToHex bufferAround) state =
  if K <? 75
  then applyError (Common CommonAuthenticationError.nonMinimalPush) state
  else if K >? 520
  then applyError (Common CommonAuthenticationError.exceedsMaximumPush) state
  else set_ip (ip state + 1 + K)
         (stack_push (slice (script state) (ip state + 1) (ip state + 1 + K))
            state).
Proof.
  intros HK0 HK Hlen.
  unfold opPushData1, createPushDataOperator. cbn [operation].
  rewrite (pushDataVariableMethod_read _ _ _ _ _ _ _ _ _ state K);
    [|cbn [BYTES_PER_ELEMENT]; lia
     |now apply readLittleEndianLength_Uint8].
  cbn [returned_or BYTES_PER_ELEMENT].
  replace (len (script state) <? ip state + 1 + K) with false
    by (symmetry; apply Z.ltb_ge; lia).
  reflexivity.
Qed.

(** C9 (the code departs from the claim).  The claim: with the length byte
    K and K bytes of payload available, OP_PUSHDATA1 fails with
    nonMinimalPush exactly when K <= 75.  The source compares
    [length < 75]: with K = 75 the operation does not fail, it pushes the
    75 bytes and leaves the error of the state as it was. *)
Theorem opPushData1_accepts_75 (state : ProgramState) :
  0 <= ip state ->
  at_index (buffer bufferAround (script state)) (ip state) = Some 75 ->
  ip state + 1 + 75 <= len (script state) ->
  operation (opPushData1 binToHex bufferAround) state =
  set_ip (ip state + 76)
    (set_stack
       (stack state ++ [slice (script state) (ip state + 1) (ip state + 76)])
       state) /\
  error (operation (opPushData1 binToHex bufferAround) state) = error state.
Proof.
  intros Hip HK Hlen.
  rewrite (opPushData1_operation 75 state ltac:(lia) HK Hlen). simpl.
  replace (ip state + 1 + 75) with (ip state + 76) by lia.
  split; reflexivity.
Qed.

End PushProperties.

(** C5 (as stated, it fails on the code).  In [push_state_at_opcode] the
    opcode at ip is OP_PUSHBYTES_2 and three bytes follow it; the claim has
    the bytes at ip+1 and ip+2 pushed (0xaa 0xbb), the operation pushes those
    at ip and ip+1 (0x02 0xaa).  In [push_state_one_byte_short] a single byte
    follows OP_PUSHBYTES_2; the claim has malformedPush, the operation pushes
    and sets no error. *)
Lemma opPushDataConstant_counterexample :
  at_index (script push_state_at_opcode) (ip push_state_at_opcode)
    = Some (BitcoinCashOpCodes.OP_PUSHBYTES 2) /\
  ip push_state_at_opcode + 2 < len (script push_state_at_opcode) /\
  slice (script push_state_at_opcode)
    (ip push_state_at_opcode + 1) (ip push_state_at_opcode + 3) = [0xaa; 0xbb] /\
  stack (operation (opPushDataConstant Sample.binToHex 2) push_state_at_opcode)
    = [[0x02; 0xaa]] /\
  stack (operation (opPushDataConstant Sample.binToHex 2) push_state_at_opcode)
    <> stack push_state_at_opcode ++ [[0xaa; 0xbb]] /\
  at_index (script push_state_one_byte_short) (ip push_state_one_byte_short)
    = Some (BitcoinCashOpCodes.OP_PUSHBYTES 2) /\
  len (script push_state_one_byte_short) = ip push_state_one_byte_short + 2 /\
  error (operation (opPushDataConstant Sample.binToHex 2) push_state_one_byte_short)
    <> Some (Common CommonAuthenticationError.malformedPush).
Proof.
  repeat split; try reflexivity; vm_compute; discriminate.
Qed.

Lemma opPushDataConstant_pushes_from_ip_witness :
  1 <= 2 <= 75 /\ 0 <= ip push_state_after_opcode /\
  (lookup_operator (pushDataConstantOperators Sample.binToHex)
                   (BitcoinCashOpCodes.OP_PUSHBYTES 2)
   = Some (opPushDataConstant Sample.binToHex 2) /\
   (ip push_state_after_opcode + 2 <= len (script push_state_after_opcode) ->
    exists payload,
      operation (opPushDataConstant Sample.binToHex 2) push_state_after_opcode =
      set_ip (ip push_state_after_opcode + 2)
        (set_stack (stack push_state_after_opcode ++ [payload])
           push_state_after_opcode) /\
      len payload = 2 /\
      forall i, 0 <= i < 2 ->
        at_index payload i =
        at_index (script push_state_after_opcode)
                 (ip push_state_after_opcode + i)) /\
   (len (script push_state_after_opcode) < ip push_state_after_opcode + 2 ->
    operation (opPushDataConstant Sample.binToHex 2) push_state_after_opcode =
    set_error (Some (Common CommonAuthenticationError.malformedPush))
      push_state_after_opcode)).
Proof.
  split; [lia|]. split; [simpl; lia|].
  apply (opPushDataConstant_pushes_from_ip Sample.binToHex 2
           push_state_after_opcode).
  - lia.
  - simpl; lia.
Defined.

Lemma opPushData1_accepts_75_witness :
  0 <= ip pushdata1_state /\
  at_index (buffer Sample.bufferAround (script pushdata1_state))
           (ip pushdata1_state) = Some 75 /\
  ip pushdata1_state + 1 + 75 <= len (script pushdata1_state) /\
  operation (opPushData1 Sample.binToHex Sample.bufferAround) pushdata1_state =
    set_ip (ip pushdata1_state + 76)
      (set_stack
         (stack pushdata1_state ++
          [slice (script pushdata1_state)
             (ip pushdata1_state + 1) (ip pushdata1_state + 76)])
         pushdata1_state) /\
  error (operation (opPushData1 Sample.binToHex Sample.bufferAround)
           pushdata1_state)
    = error pushdata1_state.
Proof.
  split; [simpl; lia|]. split; [reflexivity|]. split; [vm_compute; discriminate|].
  apply (opPushData1_accepts_75 Sample.binToHex Sample.bufferAround
           pushdata1_state).
  - simpl; lia.
  - reflexivity.
  - vm_compute; discriminate.
Defined.

(** On the failing input of C9 the pushed element is the 75 bytes of payload
    and no error is set. *)
Lemma opPushData1_accepts_75_run :
  stack (operation (opPushData1 Sample.binToHex Sample.bufferAround)
           pushdata1_state)
    = [repeat 0xab 75] /\
  error (operation (opPushData1 Sample.binToHex Sample.bufferAround)
           pushdata1_state) = None /\
  ip (operation (opPushData1 Sample.binToHex Sample.bufferAround)
        pushdata1_state) = 77.
Proof. repeat split; reflexivity. Qed.

(* ================================================================= *)
(** ** OP_CHECKMULTISIG *)

Section MultisigProperties.

Variable sha256 : Sha256.
Variable secp256k1 : Secp256k1.
Variable booleanToScriptNumber : bool -> Uint8Array.
Variable parseBytesAsScriptNumber : Uint8Array -> option Z.
Variable bigIntToBitcoinVarInt : Z -> Uint8Array.
Variable isValidPublicKeyEncoding : Uint8Array -> bool.
Variable isValidSignatureEncoding : Uint8Array -> bool.
Variable decodeBitcoinSignature : Uint8Array -> DecodedSignature.
Variable generateBitcoinCashSigningSerialization :
  Z -> Uint8Array -> Uint8Array -> Uint8Array -> Z -> Uint8Array ->
  Z -> Z -> Uint8Array -> Uint8Array -> Z -> Uint8Array -> Uint8Array.

Let checkMultiSig : Operator :=
  opCheckMultiSig sha256 secp256k1 booleanToScriptNumber
    parseBytesAsScriptNumber bigIntToBitcoinVarInt
    isValidPublicKeyEncoding isValidSignatureEncoding decodeBitcoinSignature
    generateBitcoinCashSigningSerialization.

Let loop :=
  checkMultiSigLoop sha256 secp256k1
    isValidPublicKeyEncoding isValidSignatureEncoding decodeBitcoinSignature
    generateBitcoinCashSigningSerialization.

Let verifies (state : ProgramState) (scriptCode : Uint8Array) :=
  signed sha256 secp256k1 decodeBitcoinSignature
    generateBitcoinCashSigningSerialization state scriptCode.

(** The two array reads of a turn of the loop are in range. *)
Lemma checkMultiSigLoop_reads_in_range
    (publicKeys signatures : list Uint8Array) (required : Z)
    (remainingPublicKeys approving remainingSignatures : nat) :
  (remainingPublicKeys <= length publicKeys)%nat ->
  (remainingSignatures <= length signatures)%nat ->
  (0 <? remainingSignatures)%nat &&
  (approving + remainingSignatures <=? remainingPublicKeys)%nat &&
  negb (Z.of_nat approving =? required) = true ->
  (remainingPublicKeys - 1 < length publicKeys)%nat /\
  (remainingSignatures - 1 < length signatures)%nat.
Proof.
  intros Hk Hs Hc.
  apply andb_prop in Hc as [Hc _]. apply andb_prop in Hc as [H1 H2].
  apply Nat.ltb_lt in H1. apply Nat.leb_le in H2. lia.
Qed.

(** With at least one key and at least one signature announced, the
    operation takes exactly the n keys, the m signatures, the two counts
    and the dummy element off the stack, leaves what is below untouched and
    pushes the outcome of the loop. *)
Lemma opCheckMultiSig_pops (state : ProgramState)
    (below : list Uint8Array) (dummy : Uint8Array)
    (signatures : list Uint8Array) (em : Uint8Array)
    (publicKeys : list Uint8Array) (en : Uint8Array) (n m : Z) :
  stack state = below ++ [dummy] ++ signatures ++ [em] ++ publicKeys ++ [en] ->
  parseBytesAsScriptNumber en = Some n -> n = len publicKeys -> 1 <= n <= 20 ->
  parseBytesAsScriptNumber em = Some m -> m = len signatures -> 1 <= m <= n ->
  operationCount state + n <= 201 ->
  dummy = [] ->
  operation checkMultiSig state =
  match loop (after_pops state below n)
             (scriptCodeOf bigIntToBitcoinVarInt (after_pops state below n))
             publicKeys signatures m
             (length publicKeys) 0%nat (length signatures) with
  | inl kind => applyError (Common kind) (after_pops state below n)
  | inr approving =>
      stack_push (booleanToScriptNumber (Z.of_nat approving =? m))
                 (after_pops state below n)
  end.
Proof.
  intros Hs Hn Hnk Hnr Hm Hms Hmr Hc Hd.
  destruct state as [e i l c o sc st ex].
  unfold after_pops.
  cbn [stack operationCount set_stack set_operationCount] in *.
  subst st dummy.
  unfold checkMultiSig, opCheckMultiSig. cbn [operation stack].
  rewrite !app_assoc.
  rewrite pop_app. cbn [stack set_stack]. rewrite Hn.
  replace (n <? 0) with false by (symmetry; apply Z.ltb_ge; lia).
  replace (n >? Multisig.maximumPublicKeys) with false
    by (symmetry; rewrite Z.gtb_ltb; apply Z.ltb_ge;
        unfold Multisig.maximumPublicKeys; lia).
  rewrite Hnk at 1. rewrite splice_last by lia.
  cbn [stack set_stack operationCount set_operationCount].
  replace (c + n >? CommonConsensus.maximumOperationCount) with false
    by (symmetry; rewrite Z.gtb_ltb; apply Z.ltb_ge;
        unfold CommonConsensus.maximumOperationCount; lia).
  rewrite pop_app. cbn [stack set_stack]. rewrite Hm.
  replace (m <? 0) with false by (symmetry; apply Z.ltb_ge; lia).
  replace (m >? n) with false
    by (symmetry; rewrite Z.gtb_ltb; apply Z.ltb_ge; lia).
  rewrite Hms at 1. rewrite splice_last by lia.
  cbn [stack set_stack]. rewrite pop_app.
  cbn [stack set_stack len length Z.of_nat Z.eqb negb].
  reflexivity.
Qed.

(** C7 (the code departs from the claim).  The claim: the loop ends
    exactly when all m signatures have matched (true is pushed) or when the
    remaining keys are fewer than the remaining signatures (false is
    pushed).  The loop of the source goes on only while
    [remainingPublicKeys >= approvingPublicKeys + remainingSignatures], a
    sum that stays at m.  With three keys and the signatures of the first
    and the third one: the second signature matches the third key, the
    first signature fails against the second key, and the loop ends with
    one key and one signature left.  The operation pushes false; the walk
    of the claim tries the first key as well, matches both signatures and
    has true pushed. *)
Theorem opCheckMultiSig_gives_up_early (state : ProgramState)
    (below : list Uint8Array)
    (signature1 signature3 em key1 key2 key3 en : Uint8Array) :
  stack state =
    below ++ [[]; signature1; signature3; em; key1; key2; key3; en] ->
  parseBytesAsScriptNumber en = Some 3 ->
  parseBytesAsScriptNumber em = Some 2 ->
  operationCount state + 3 <= 201 ->
  isValidPublicKeyEncoding key1 = true ->
  isValidPublicKeyEncoding key2 = true ->
  isValidPublicKeyEncoding key3 = true ->
  isValidSignatureEncoding signature1 = true ->
  isValidSignatureEncoding signature3 = true ->
  (forall scriptCode,
     verifies (after_pops state below 3) scriptCode key3 signature3 = true /\
     verifies (after_pops state below 3) scriptCode key2 signature1 = false /\
     verifies (after_pops state below 3) scriptCode key1 signature1 = true) ->
  operation checkMultiSig state =
    stack_push (booleanToScriptNumber false) (after_pops state below 3) /\
  multisigWalk isValidPublicKeyEncoding isValidSignatureEncoding
    (verifies (after_pops state below 3)
       (scriptCodeOf bigIntToBitcoinVarInt (after_pops state below 3)))
    [key1; key2; key3] [signature1; signature3] 3 0 2 = inr 2%nat.
Proof.
  intros Hs Hn Hm Hc Hk1 Hk2 Hk3 Hs1 Hs3 Hv.
  pose proof (Hv (scriptCodeOf bigIntToBitcoinVarInt (after_pops state below 3)))
    as (Hv33 & Hv21 & Hv11).
  split.
  - rewrite (opCheckMultiSig_pops state below [] [signature1; signature3] em
               [key1; key2; key3] en 3 2);
      try reflexivity; try assumption; try lia.
    unfold loop, verifies in *. simpl.
    rewrite Hk3, Hs3. simpl. rewrite Hv33.
    rewrite Hk2, Hs1. simpl. rewrite Hv21.
    reflexivity.
  - unfold verifies in *. simpl.
    rewrite Hk3, Hs3. simpl. rewrite Hv33.
    rewrite Hk2, Hs1. simpl. rewrite Hv21.
    rewrite Hk1. simpl. rewrite Hv11.
    reflexivity.
Qed.

(** C8 (the code departs from the claim).  The claim: with n = 0 the
    operation removes zero public-key elements and leaves the elements
    below the dummy untouched.  The source removes the keys with
    [state.stack.splice(-potentialPublicKeys)], and [splice(-0)] removes
    the whole array: with the count 0 on top, everything that is left on the
    stack is taken as public keys, the next pop finds the stack empty, and
    the operation fails with emptyStack on an empty stack. *)
Theorem opCheckMultiSig_zero_keys_empties_stack (state : ProgramState)
    (rest : list Uint8Array) (en : Uint8Array) :
  stack state = rest ++ [en] ->
  parseBytesAsScriptNumber en = Some 0 ->
  operationCount state <= 201 ->
  operation checkMultiSig state =
    applyError (Common CommonAuthenticationError.emptyStack)
      (set_stack [] (set_operationCount (operationCount state + 0) state)) /\
  stack (operation checkMultiSig state) = [] /\
  error (operation checkMultiSig state) =
    Some (Common CommonAuthenticationError.emptyStack).
Proof.
  intros Hs Hn Hc.
  assert (operation checkMultiSig state =
          applyError (Common CommonAuthenticationError.emptyStack)
            (set_stack []
               (set_operationCount (operationCount state + 0) state))) as H.
  { destruct state as [e i l c o sc st ex].
    cbn [stack operationCount set_stack set_operationCount] in *.
    subst st.
    unfold checkMultiSig, opCheckMultiSig. cbn [operation stack].
    rewrite pop_app. cbn [stack set_stack]. rewrite Hn.
    cbn [Z.ltb Z.gtb Z.compare Multisig.maximumPublicKeys].
    rewrite splice_zero.
    cbn [stack set_stack operationCount set_operationCount].
    replace (c + 0 >? CommonConsensus.maximumOperationCount) with false
      by (symmetry; rewrite Z.gtb_ltb; apply Z.ltb_ge;
          unfold CommonConsensus.maximumOperationCount; lia).
    rewrite pop_nil. reflexivity. }
  rewrite H. repeat split.
Qed.

(** The same slip on the signatures: with m = 0 and at least one key,
    [splice(-0)] takes the dummy element and everything below it as
    signatures, and the pop of the dummy element fails with emptyStack. *)
Lemma opCheckMultiSig_zero_signatures_empties_stack (state : ProgramState)
    (rest : list Uint8Array) (em : Uint8Array)
    (publicKeys : list Uint8Array) (en : Uint8Array) (n : Z) :
  stack state = rest ++ [em] ++ publicKeys ++ [en] ->
  parseBytesAsScriptNumber en = Some n -> n = len publicKeys -> 1 <= n <= 20 ->
  parseBytesAsScriptNumber em = Some 0 ->
  operationCount state + n <= 201 ->
  operation checkMultiSig state =
    applyError (Common CommonAuthenticationError.emptyStack)
      (after_pops state [] n).
Proof.
  intros Hs Hn Hnk Hnr Hm Hc.
  destruct state as [e i l c o sc st ex].
  unfold after_pops.
  cbn [stack operationCount set_stack set_operationCount] in *.
  subst st.
  unfold checkMultiSig, opCheckMultiSig. cbn [operation stack].
  rewrite !app_assoc.
  rewrite pop_app. cbn [stack set_stack]. rewrite Hn.
  replace (n <? 0) with false by (symmetry; apply Z.ltb_ge; lia).
  replace (n >? Multisig.maximumPublicKeys) with false
    by (symmetry; rewrite Z.gtb_ltb; apply Z.ltb_ge;
        unfold Multisig.maximumPublicKeys; lia).
  rewrite Hnk at 1. rewrite splice_last by lia.
  cbn [stack set_stack operationCount set_operationCount].
  replace (c + n >? CommonConsensus.maximumOperationCount) with false
    by (symmetry; rewrite Z.gtb_ltb; apply Z.ltb_ge;
        unfold CommonConsensus.maximumOperationCount; lia).
  rewrite pop_app. cbn [stack set_stack]. rewrite Hm.
  cbn [Z.ltb Z.compare].
  replace (0 >? n) with false
    by (symmetry; rewrite Z.gtb_ltb; apply Z.ltb_ge; lia).
  rewrite splice_zero. cbn [stack set_stack].
  rewrite pop_nil. reflexivity.
Qed.

End MultisigProperties.

Lemma opCheckMultiSig_gives_up_early_witness :
  stack two_of_three_state =
    [[0x07]] ++ [[]; sample_signature 1; sample_signature 3; [0x02];
                 sample_key 1; sample_key 2; sample_key 3; [0x03]] /\
  parseBytesAsScriptNumber [0x03] = Some 3 /\
  parseBytesAsScriptNumber [0x02] = Some 2 /\
  operationCount two_of_three_state + 3 <= 201 /\
  (operation Sample.opCheckMultiSig two_of_three_state =
     stack_push (booleanToScriptNumber false)
       (after_pops two_of_three_state [[0x07]] 3) /\
   multisigWalk Sample.isValidPublicKeyEncoding Sample.isValidSignatureEncoding
     (signed Sample.sha256 Sample.secp256k1 Sample.decodeBitcoinSignature
        Sample.generateBitcoinCashSigningSerialization
        (after_pops two_of_three_state [[0x07]] 3)
        (scriptCodeOf Sample.bigIntToBitcoinVarInt
           (after_pops two_of_three_state [[0x07]] 3)))
     [sample_key 1; sample_key 2; sample_key 3]
     [sample_signature 1; sample_signature 3] 3 0 2 = inr 2%nat).
Proof.
  split; [reflexivity|]. split; [reflexivity|]. split; [reflexivity|].
  split; [simpl; lia|].
  apply (opCheckMultiSig_gives_up_early
           Sample.sha256 Sample.secp256k1 booleanToScriptNumber
           parseBytesAsScriptNumber Sample.bigIntToBitcoinVarInt
           Sample.isValidPublicKeyEncoding Sample.isValidSignatureEncoding
           Sample.decodeBitcoinSignature
           Sample.generateBitcoinCashSigningSerialization
           two_of_three_state [[0x07]]
           (sample_signature 1) (sample_signature 3) [0x02]
           (sample_key 1) (sample_key 2) (sample_key 3) [0x03]);
    try reflexivity.
  - simpl; lia.
  - intros scriptCode. repeat split; reflexivity.
Defined.

(** The failing input of C7, run: one element is left below, and the empty
    element (false) is pushed. *)
Lemma opCheckMultiSig_gives_up_early_run :
  stack (operation Sample.opCheckMultiSig two_of_three_state) = [[0x07]; []] /\
  error (operation Sample.opCheckMultiSig two_of_three_state) = None.
Proof. split; reflexivity. Qed.

Lemma opCheckMultiSig_zero_keys_empties_stack_witness :
  stack zero_of_zero_state = [[0x07]; []; []] ++ [[]] /\
  parseBytesAsScriptNumber [] = Some 0 /\
  operationCount zero_of_zero_state <= 201 /\
  stack (operation Sample.opCheckMultiSig zero_of_zero_state) = [] /\
  error (operation Sample.opCheckMultiSig zero_of_zero_state) =
    Some (Common CommonAuthenticationError.emptyStack).
Proof.
  split; [reflexivity|]. split; [reflexivity|]. split; [simpl; lia|].
  apply (opCheckMultiSig_zero_keys_empties_stack
           Sample.sha256 Sample.secp256k1 booleanToScriptNumber
           parseBytesAsScriptNumber Sample.bigIntToBitcoinVarInt
           Sample.isValidPublicKeyEncoding Sample.isValidSignatureEncoding
           Sample.decodeBitcoinSignature
           Sample.generateBitcoinCashSigningSerialization
           zero_of_zero_state [[0x07]; []; []] []).
  - reflexivity.
  - reflexivity.
  - simpl; lia.
Defined.

(* ================================================================= *)
(** ** The operators of the table, one by one *)

Ltac break_match :=
  match goal with
  | |- context [match ?x with _ => _ end] => destruct x eqn:?
  | |- context [if ?x then _ else _] => destruct x eqn:?
  end.

Ltac fields :=
  cbn [operation error ip lastCodeSeparator operationCount operations script
       stack external set_error set_ip set_operationCount set_operations
       set_stack stack_push applyError].

Ltac order_of_tests :=
  repeat match goal with
         | H : (_ <? _) = false |- _ => apply Z.ltb_ge in H
         | H : (_ <? _) = true |- _ => apply Z.ltb_lt in H
         | H : (_ >? _) = false |- _ => rewrite Z.gtb_ltb in H; apply Z.ltb_ge in H
         | H : (_ >? _) = true |- _ => rewrite Z.gtb_ltb in H; apply Z.ltb_lt in H
         end.

Lemma lookup_operator_In (table : OperatorTable) (opcode : Z) (operator : Operator) :
  lookup_operator table opcode = Some operator ->
  exists entry, In entry table /\ snd entry = operator.
Proof.
  unfold lookup_operator. intros H.
  destruct (find (fun entry => fst entry =? opcode) (rev table)) as [entry|] eqn:Hf;
    [|discriminate].
  injection H as <-. exists entry. split; [|reflexivity].
  apply find_some in Hf as [Hin _]. now apply in_rev.
Qed.

Lemma map_indexed_from_In {A B} (f : A -> Z -> B) (l : list A) (i : Z) (y : B) :
  In y (map_indexed_from i f l) -> exists x j, i <= j /\ y = f x j.
Proof.
  revert i. induction l as [|a l IH]; intros i; simpl; [contradiction|].
  intros [<-|H].
  - exists a, i. split; [lia | reflexivity].
  - apply IH in H as (x & j & Hj & ->). exists x, j. split; [lia | reflexivity].
Qed.

Section TableProperties.

Variable binToHex : Uint8Array -> string.
Variable bigIntToScriptNumber : Z -> Uint8Array.
Variable bufferAround : Uint8Array -> ArrayBufferRest.
Variable sha256 : Sha256.
Variable ripemd160 : Ripemd160.
Variable secp256k1 : Secp256k1.
Variable booleanToScriptNumber : bool -> Uint8Array.
Variable parseBytesAsScriptNumber : Uint8Array -> option Z.
Variable bigIntToBitcoinVarInt : Z -> Uint8Array.
Variable isValidPublicKeyEncoding : Uint8Array -> bool.
Variable isValidSignatureEncoding : Uint8Array -> bool.
Variable decodeBitcoinSignature : Uint8Array -> DecodedSignature.
Variable generateBitcoinCashSigningSerialization :
  Z -> Uint8Array -> Uint8Array -> Uint8Array -> Z -> Uint8Array ->
  Z -> Z -> Uint8Array -> Uint8Array -> Z -> Uint8Array -> Uint8Array.

Let table : OperatorTable :=
  sourceOperators binToHex bigIntToScriptNumber bufferAround
    sha256 ripemd160 secp256k1
    booleanToScriptNumber parseBytesAsScriptNumber bigIntToBitcoinVarInt
    isValidPublicKeyEncoding isValidSignatureEncoding decodeBitcoinSignature
    generateBitcoinCashSigningSerialization.

Let hash160 : Operator := opHash160 sha256 ripemd160.

Let checkSig : Operator :=
  opCheckSig sha256 secp256k1 booleanToScriptNumber bigIntToBitcoinVarInt
    isValidPublicKeyEncoding isValidSignatureEncoding decodeBitcoinSignature
    generateBitcoinCashSigningSerialization.

Let checkMultiSig : Operator :=
  opCheckMultiSig sha256 secp256k1 booleanToScriptNumber
    parseBytesAsScriptNumber bigIntToBitcoinVarInt
    isValidPublicKeyEncoding isValidSignatureEncoding decodeBitcoinSignature
    generateBitcoinCashSigningSerialization.

(** A property of the operators of push.ts and crypto.ts is a property of
    every operator of the table. *)
Lemma sourceOperators_all (P : Operator -> Prop) :
  (forall value, P (opPushNumber bigIntToScriptNumber value)) ->
  (forall value, 1 <= value -> P (opPushDataConstant binToHex value)) ->
  P (opPushData1 binToHex bufferAround) ->
  P (opPushData2 binToHex bufferAround) ->
  P (opPushData4 binToHex bufferAround) ->
  P hash160 -> P checkSig -> P checkMultiSig ->
  forall entry, In entry table -> P (snd entry).
Proof.
  intros Hnumber Hconstant Hdata1 Hdata2 Hdata4 Hhash Hsig Hmulti entry Hin.
  unfold table, sourceOperators in Hin.
  repeat (apply in_app_or in Hin as [Hin|Hin]).
  - apply map_indexed_from_In in Hin as (x & j & _ & ->). apply Hnumber.
  - apply map_indexed_from_In in Hin as (x & j & Hj & ->).
    apply Hconstant. lia.
  - destruct Hin as [<-|[<-|[<-|[]]]]; assumption.
  - destruct Hin as [<-|[<-|[<-|[]]]]; assumption.
Qed.

(* --------------------------------------------------------------- *)
(** *** The operation count *)

Lemma opPushNumber_respects_limit (value : Z) :
  respects_operation_limit
    (operation (opPushNumber bigIntToScriptNumber value)).
Proof.
  intros [e i l c o sc st ex]. unfold opPushNumber. fields.
  split; [lia|]. intros H He. now apply H.
Qed.

Lemma opPushDataConstant_respects_limit (value : Z) :
  respects_operation_limit
    (operation (opPushDataConstant binToHex value)).
Proof.
  intros [e i l c o sc st ex]. unfold opPushDataConstant, pushDataConstantMethod.
  fields. break_match; fields; (split; [lia|]); intros H He;
    [discriminate | now apply H].
Qed.

Lemma createPushDataOperator_respects_limit
    (lengthBits : Z) (type : Uint) (minimum maximum : Z) :
  respects_operation_limit
    (operation
       (createPushDataOperator binToHex bufferAround lengthBits type minimum
          maximum)).
Proof.
  intros state.
  destruct (createPushDataOperator_cases binToHex bufferAround lengthBits type
              minimum maximum state) as [(kind & ->)|(length_ & _ & _ & _ & ->)];
    destruct state as [e i l c o sc st ex]; fields;
    (split; [lia|]); intros H He; try discriminate; now apply H.
Qed.

Lemma opHash160_respects_limit : respects_operation_limit (operation hash160).
Proof.
  intros [e i l c o sc st ex]. unfold hash160, opHash160. fields.
  repeat (break_match; fields); (split; [lia|]); intros H He;
    try discriminate; now apply H.
Qed.

Lemma opCheckSig_respects_limit : respects_operation_limit (operation checkSig).
Proof.
  intros [e i l c o sc st ex]. unfold checkSig, opCheckSig. fields.
  repeat (break_match; fields); (split; [lia|]); intros H He;
    try discriminate; now apply H.
Qed.

(** OP_CHECKMULTISIG adds the number of keys it was given, which is not
    negative, and fails when the sum is above the limit. *)
Lemma opCheckMultiSig_respects_limit :
  respects_operation_limit (operation checkMultiSig).
Proof.
  intros [e i l c o sc st ex].
  unfold checkMultiSig, opCheckMultiSig, CommonConsensus.maximumOperationCount.
  fields.
  repeat (break_match; fields); order_of_tests;
    (split; [lia|]); intros H He; try discriminate; try lia; now apply H.
Qed.

Lemma sourceOperators_respect_limit (entry : Z * Operator) :
  In entry table -> respects_operation_limit (operation (snd entry)).
Proof.
  apply (sourceOperators_all
           (fun operator => respects_operation_limit (operation operator))).
  - apply opPushNumber_respects_limit.
  - intros value _. apply opPushDataConstant_respects_limit.
  - apply createPushDataOperator_respects_limit.
  - apply createPushDataOperator_respects_limit.
  - apply createPushDataOperator_respects_limit.
  - apply opHash160_respects_limit.
  - apply opCheckSig_respects_limit.
  - apply opCheckMultiSig_respects_limit.
Qed.

(** OP_CHECKMULTISIG on a state whose count, with the keys added, is above
    the limit: the count is raised all the same, and the error is set. *)
Lemma opCheckMultiSig_exceeds (state : ProgramState)
    (rest : list Uint8Array) (en : Uint8Array) (n : Z) :
  stack state = rest ++ [en] ->
  parseBytesAsScriptNumber en = Some n -> 0 <= n <= 20 ->
  operationCount state + n > 201 ->
  error (operation checkMultiSig state) =
    Some (Common CommonAuthenticationError.exceededMaximumOperationCount) /\
  operationCount (operation checkMultiSig state) = operationCount state + n.
Proof.
  intros Hs Hn Hr Hc. destruct state as [e i l c o sc st ex].
  cbn [stack operationCount] in *. subst st.
  unfold checkMultiSig, opCheckMultiSig. fields.
  rewrite pop_app. fields. rewrite Hn.
  replace (n <? 0) with false by (symmetry; apply Z.ltb_ge; lia).
  replace (n >? Multisig.maximumPublicKeys) with false
    by (symmetry; rewrite Z.gtb_ltb; apply Z.ltb_ge;
        unfold Multisig.maximumPublicKeys; lia).
  destruct (splice rest (- n)) as [publicKeys rest']. fields.
  replace (c + n >? CommonConsensus.maximumOperationCount) with true
    by (symmetry; rewrite Z.gtb_ltb; apply Z.ltb_lt;
        unfold CommonConsensus.maximumOperationCount; lia).
  fields. split; reflexivity.
Qed.

(* --------------------------------------------------------------- *)
(** *** The script *)

Lemma createPushDataOperator_keeps_script
    (lengthBits : Z) (type : Uint) (minimum maximum : Z) (state : ProgramState) :
  script (operation
            (createPushDataOperator binToHex bufferAround lengthBits type
               minimum maximum)
            state) = script state.
Proof.
  destruct (createPushDataOperator_cases binToHex bufferAround lengthBits type
              minimum maximum state) as [(kind & ->)|(length_ & _ & _ & _ & ->)];
    destruct state as [e i l c o sc st ex]; reflexivity.
Qed.

Lemma sourceOperators_keep_script (entry : Z * Operator) :
  In entry table ->
  forall state, script (operation (snd entry) state) = script state.
Proof.
  apply (sourceOperators_all
           (fun operator =>
              forall state, script (operation operator state) = script state)).
  - intros value [e i l c o sc st ex]. reflexivity.
  - intros value _ [e i l c o sc st ex].
    unfold opPushDataConstant, pushDataConstantMethod. fields.
    break_match; reflexivity.
  - apply createPushDataOperator_keeps_script.
  - apply createPushDataOperator_keeps_script.
  - apply createPushDataOperator_keeps_script.
  - intros [e i l c o sc st ex]. unfold hash160, opHash160. fields.
    repeat (break_match; fields); reflexivity.
  - intros [e i l c o sc st ex]. unfold checkSig, opCheckSig. fields.
    repeat (break_match; fields); reflexivity.
  - intros [e i l c o sc st ex]. unfold checkMultiSig, opCheckMultiSig. fields.
    repeat (break_match; fields); reflexivity.
Qed.

(* --------------------------------------------------------------- *)
(** *** The instruction pointer *)

Lemma readLittleEndianLength_nonneg
    (script_ : Uint8Array) (ip_ lengthBits : Z) (type : Uint) (length_ : Z) :
  Forall (fun b => 0 <= b) (buffer bufferAround script_) ->
  readLittleEndianLength bufferAround script_ ip_ lengthBits type
    = Returned length_ ->
  0 <= length_.
Proof.
  intros Hb Hread.
  destruct (readLittleEndianLength_bytes bufferAround (fun b => 0 <= b)
              script_ ip_ lengthBits type length_ (Z.le_refl 0) Hb Hread)
    as (b0 & b1 & b2 & b3 & H0 & H1 & H2 & H3 & ->).
  destruct type; lia.
Qed.

Lemma createPushDataOperator_moves_forward
    (lengthBits : Z) (type : Uint) (minimum maximum : Z) (state : ProgramState) :
  0 <= lengthBits ->
  Forall (fun b => 0 <= b) (buffer bufferAround (script state)) ->
  ip state <=
  ip (operation
        (createPushDataOperator binToHex bufferAround lengthBits type minimum
           maximum) state).
Proof.
  intros Hl Hb.
  destruct (createPushDataOperator_cases binToHex bufferAround lengthBits type
              minimum maximum state)
    as [(kind & ->)|(length_ & Hread & _ & _ & ->)].
  - destruct state; fields; cbn [ip]; lia.
  - apply readLittleEndianLength_nonneg in Hread; [|exact Hb].
    destruct state; fields; cbn [ip] in *; lia.
Qed.

(** No operator of the table moves the instruction pointer back, on a
    script in whose buffer no byte is negative. *)
Lemma sourceOperators_move_forward (entry : Z * Operator) :
  In entry table ->
  forall state,
    Forall (fun b => 0 <= b) (buffer bufferAround (script state)) ->
    ip state <= ip (operation (snd entry) state).
Proof.
  apply (sourceOperators_all
           (fun operator =>
              forall state,
                Forall (fun b => 0 <= b) (buffer bufferAround (script state)) ->
                ip state <= ip (operation operator state))).
  - intros value [e i l c o sc st ex] _. unfold opPushNumber. fields. lia.
  - intros value Hv [e i l c o sc st ex] _.
    unfold opPushDataConstant, pushDataConstantMethod. fields.
    break_match; fields; lia.
  - intros state. apply createPushDataOperator_moves_forward. simpl. lia.
  - intros state. apply createPushDataOperator_moves_forward. simpl. lia.
  - intros state. apply createPushDataOperator_moves_forward. simpl. lia.
  - intros [e i l c o sc st ex] _. unfold hash160, opHash160. fields.
    repeat (break_match; fields); lia.
  - intros [e i l c o sc st ex] _. unfold checkSig, opCheckSig. fields.
    repeat (break_match; fields); lia.
  - intros [e i l c o sc st ex] _. unfold checkMultiSig, opCheckMultiSig. fields.
    repeat (break_match; fields); lia.
Qed.

End TableProperties.

Lemma opEqual_respects_limit : respects_operation_limit (operation opEqual).
Proof.
  intros [e i l c o sc st ex]. unfold opEqual. fields.
  repeat (break_match; fields); (split; [lia|]); intros H He;
    try discriminate; now apply H.
Qed.

Lemma opEqual_keeps_script (state : ProgramState) :
  script (operation opEqual state) = script state.
Proof.
  destruct state as [e i l c o sc st ex]. unfold opEqual. fields.
  repeat (break_match; fields); reflexivity.
Qed.

(** The table of the machine that is run below. *)
Lemma commonOperators_respect_limit (opcode : Z) (operator : Operator) :
  lookup_operator Sample.commonOperators opcode = Some operator ->
  respects_operation_limit (operation operator).
Proof.
  intros Hl. apply lookup_operator_In in Hl as (entry & Hin & <-).
  apply in_app_or in Hin as [Hin|[<-|[]]].
  - apply (sourceOperators_respect_limit _ _ _ _ _ _ _ _ _ _ _ _ _ entry Hin).
  - apply opEqual_respects_limit.
Qed.

(** An array of [Sample] is its whole buffer. *)
Lemma sample_buffer (array : Uint8Array) :
  buffer Sample.bufferAround array = array.
Proof. unfold buffer. simpl. apply app_nil_r. Qed.

Lemma commonOperators_move_forward (opcode : Z) (operator : Operator) :
  lookup_operator Sample.commonOperators opcode = Some operator ->
  forall state,
    Forall (fun b => 0 <= b) (script state) ->
    ip state <= ip (operation operator state).
Proof.
  intros Hl. apply lookup_operator_In in Hl as (entry & Hin & <-).
  apply in_app_or in Hin as [Hin|[<-|[]]].
  - intros state Hb.
    apply (sourceOperators_move_forward _ _ _ _ _ _ _ _ _ _ _ _ _ entry Hin).
    now rewrite sample_buffer.
  - intros [e i l c o sc st ex] _. cbn [snd]. unfold opEqual. fields.
    repeat (break_match; fields); lia.
Qed.

Lemma commonOperators_keep_script (opcode : Z) (operator : Operator) :
  lookup_operator Sample.commonOperators opcode = Some operator ->
  forall state, script (operation operator state) = script state.
Proof.
  intros Hl. apply lookup_operator_In in Hl as (entry & Hin & <-).
  apply in_app_or in Hin as [Hin|[<-|[]]].
  - apply (sourceOperators_keep_script _ _ _ _ _ _ _ _ _ _ _ _ _ entry Hin).
  - apply opEqual_keeps_script.
Qed.

(* ================================================================= *)
(** ** The operation count *)

Lemma before_respects_limit : respects_operation_limit before.
Proof.
  intros [e i l c o sc st ex].
  unfold before, CommonConsensus.maximumOperationCount. fields.
  repeat (break_match; fields); order_of_tests;
    (split; [lia|]); intros H He; try discriminate; try lia; now apply H.
Qed.

(** [before] on a state whose count is at the limit, with an opcode to read:
    the count is raised to one above the limit and the error is set. *)
Lemma before_exceeds (state : ProgramState) (opcode : Z) :
  at_index (script state) (ip state + 1) = Some opcode ->
  operationCount state + 1 > 201 ->
  error (before state) =
    Some (BitcoinCash BitcoinCashAuthenticationError.exceededMaximumOperationCount) /\
  operationCount (before state) = operationCount state + 1.
Proof.
  intros Ho Hc. destruct state as [e i l c o sc st ex].
  cbn [script ip operationCount] in *.
  unfold before. fields. rewrite Ho. fields.
  replace (c + 1 >? CommonConsensus.maximumOperationCount) with true
    by (symmetry; rewrite Z.gtb_ltb; apply Z.ltb_lt;
        unfold CommonConsensus.maximumOperationCount; lia).
  fields. split; reflexivity.
Qed.

Lemma applyError_respects_limit (kind : AuthenticationError) :
  respects_operation_limit (applyError kind).
Proof.
  intros [e i l c o sc st ex]. fields. split; [lia|]. intros H He. discriminate.
Qed.

Section OperationCount.

Variable sha256 : Sha256.
Variable secp256k1 : Secp256k1.
Variable booleanToScriptNumber : bool -> Uint8Array.
Variable parseBytesAsScriptNumber : Uint8Array -> option Z.
Variable bigIntToBitcoinVarInt : Z -> Uint8Array.
Variable isValidPublicKeyEncoding : Uint8Array -> bool.
Variable isValidSignatureEncoding : Uint8Array -> bool.
Variable decodeBitcoinSignature : Uint8Array -> DecodedSignature.
Variable generateBitcoinCashSigningSerialization :
  Z -> Uint8Array -> Uint8Array -> Uint8Array -> Z -> Uint8Array ->
  Z -> Z -> Uint8Array -> Uint8Array -> Z -> Uint8Array -> Uint8Array.

Let checkMultiSig : Operator :=
  opCheckMultiSig sha256 secp256k1 booleanToScriptNumber
    parseBytesAsScriptNumber bigIntToBitcoinVarInt
    isValidPublicKeyEncoding isValidSignatureEncoding decodeBitcoinSignature
    generateBitcoinCashSigningSerialization.

Variable table : OperatorTable.

Hypothesis table_respects_limit :
  forall opcode operator,
    lookup_operator table opcode = Some operator ->
    respects_operation_limit (operation operator).

Lemma transition_respects_limit (state state' : ProgramState) :
  transition table state state' ->
  operationCount state <= operationCount state' /\
  ((error state = None ->
    operationCount state <= CommonConsensus.maximumOperationCount) ->
   error state' = None ->
   operationCount state' <= CommonConsensus.maximumOperationCount).
Proof.
  intros [s | s opcode operator Hl | s].
  - apply before_respects_limit.
  - apply (table_respects_limit opcode operator Hl).
  - apply applyError_respects_limit.
Qed.

Lemma reachable_within_limit (initial state : ProgramState) :
  (error initial = None ->
   operationCount initial <= CommonConsensus.maximumOperationCount) ->
  reachable table initial state ->
  error state = None ->
  operationCount state <= CommonConsensus.maximumOperationCount.
Proof.
  intros Hi Hr. induction Hr as [|s s' Hr IH Ht]; [exact Hi|].
  now apply (transition_respects_limit s s' Ht).
Qed.

(** C10 (amended).  In every reachable program state that carries no
    error, operationCount <= 201; operationCount never decreases across a
    step, be it the hook [before], the operation of an operator or the
    failure on an unknown opcode; a call of [before] that reads an opcode
    when the count is already 201 yields a state with error =
    exceededMaximumOperationCount, and so does OP_CHECKMULTISIG when the
    count and the n keys it is given (0 <= n <= 20) are above 201 together.
    The state with that error holds the count as raised, above 201.  The
    table of operators is any table whose operations respect the limit, as
    those of push.ts and crypto.ts do. *)
Theorem operationCount_invariant (program : AuthenticationProgram)
    (script_ : Uint8Array) (stack_ : list Uint8Array) (state : ProgramState) :
  reachable table (createBitcoinCashProgramState program script_ stack_) state ->
  (error state = None -> operationCount state <= 201) /\
  (forall state', transition table state state' ->
                  operationCount state <= operationCount state') /\
  (forall opcode,
      at_index (script state) (ip state + 1) = Some opcode ->
      operationCount state + 1 > 201 ->
      error (before state) =
        Some (BitcoinCash
                BitcoinCashAuthenticationError.exceededMaximumOperationCount) /\
      201 < operationCount (before state)) /\
  (forall rest en n,
      stack state = rest ++ [en] ->
      parseBytesAsScriptNumber en = Some n -> 0 <= n <= 20 ->
      operationCount state + n > 201 ->
      error (operation checkMultiSig state) =
        Some (Common CommonAuthenticationError.exceededMaximumOperationCount) /\
      201 < operationCount (operation checkMultiSig state)).
Proof.
  intros Hr. split; [|split; [|split]].
  - apply (reachable_within_limit
             (createBitcoinCashProgramState program script_ stack_) state);
      [|exact Hr].
    simpl. unfold CommonConsensus.maximumOperationCount. lia.
  - intros state' Ht. now apply transition_respects_limit.
  - intros opcode Ho Hc.
    destruct (before_exceeds state opcode Ho Hc) as [He Hn].
    split; [exact He | lia].
  - intros rest en n Hs Hn Hr' Hc.
    destruct (opCheckMultiSig_exceeds sha256 secp256k1 booleanToScriptNumber
                parseBytesAsScriptNumber bigIntToBitcoinVarInt
                isValidPublicKeyEncoding isValidSignatureEncoding
                decodeBitcoinSignature generateBitcoinCashSigningSerialization
                state rest en n Hs Hn Hr' Hc) as [He Hk].
    split; [exact He | unfold checkMultiSig; lia].
Qed.

(** Whatever the machine of the specification runs through is reachable. *)
Lemma step_reachable (initial state : ProgramState) :
  reachable table initial state ->
  reachable table initial (step (bitcoinCashInstructionSet table) state).
Proof.
  intros Hr. unfold step. cbn [instruction_before bitcoinCashInstructionSet operators].
  assert (reachable table initial (before state)) as Hb
    by (eapply reachable_next; [exact Hr | constructor]).
  destruct (at_index (script (before state)) (ip (before state))) as [opcode|];
    [|exact Hb].
  destruct (lookup_operator table opcode) as [operator|] eqn:Hl.
  - eapply reachable_next; [exact Hb|]. now apply transition_operation with opcode.
  - eapply reachable_next; [exact Hb|]. apply transition_unknown.
Qed.

Lemma run_reachable (turns : nat) (initial state : ProgramState) :
  reachable table initial state ->
  reachable table initial (run (bitcoinCashInstructionSet table) turns state).
Proof.
  revert state. induction turns as [|turns IH]; intros state Hr; simpl; [exact Hr|].
  destruct (continue state); [|exact Hr].
  apply IH. now apply step_reachable.
Qed.

End OperationCount.

(** C10 (as stated, it fails on the code).  The claim has operationCount <=
    201 in every reachable state.  The machine, run on a script of 203 bytes
    that are OP_1 from index 1 on, ends in a state whose count is 202: the
    hook raises the count before it compares it with the limit, and the
    state that carries the error keeps the raised count. *)
Lemma operationCount_counterexample :
  let initial :=
    createBitcoinCashProgramState (Sample.program [] []) long_script [] in
  reachable Sample.commonOperators initial (evaluate Sample.vm initial) /\
  operationCount (evaluate Sample.vm initial) = 202 /\
  error (evaluate Sample.vm initial) =
    Some (BitcoinCash BitcoinCashAuthenticationError.exceededMaximumOperationCount) /\
  ~ operationCount (evaluate Sample.vm initial) <= 201.
Proof.
  intros initial. split; [|split; [|split]].
  - apply run_reachable. constructor.
  - vm_compute. reflexivity.
  - vm_compute. reflexivity.
  - vm_compute. intros H. apply H. reflexivity.
Qed.

Lemma operationCount_invariant_witness :
  let initial :=
    createBitcoinCashProgramState (Sample.program [] []) long_script [] in
  reachable Sample.commonOperators initial (evaluate Sample.vm initial) /\
  ((error (evaluate Sample.vm initial) = None ->
    operationCount (evaluate Sample.vm initial) <= 201) /\
   (forall state',
       transition Sample.commonOperators (evaluate Sample.vm initial) state' ->
       operationCount (evaluate Sample.vm initial) <= operationCount state') /\
   (forall opcode,
       at_index (script (evaluate Sample.vm initial))
                (ip (evaluate Sample.vm initial) + 1) = Some opcode ->
       operationCount (evaluate Sample.vm initial) + 1 > 201 ->
       error (before (evaluate Sample.vm initial)) =
         Some (BitcoinCash
                 BitcoinCashAuthenticationError.exceededMaximumOperationCount) /\
       201 < operationCount (before (evaluate Sample.vm initial))) /\
   (forall rest en n,
       stack (evaluate Sample.vm initial) = rest ++ [en] ->
       parseBytesAsScriptNumber en = Some n -> 0 <= n <= 20 ->
       operationCount (evaluate Sample.vm initial) + n > 201 ->
       error (operation Sample.opCheckMultiSig (evaluate Sample.vm initial)) =
         Some (Common CommonAuthenticationError.exceededMaximumOperationCount) /\
       201 < operationCount
               (operation Sample.opCheckMultiSig (evaluate Sample.vm initial)))).
Proof.
  intros initial.
  assert (reachable Sample.commonOperators initial (evaluate Sample.vm initial))
    as Hr by (apply run_reachable; constructor).
  split; [exact Hr|].
  apply (operationCount_invariant
           Sample.sha256 Sample.secp256k1 booleanToScriptNumber
           parseBytesAsScriptNumber Sample.bigIntToBitcoinVarInt
           Sample.isValidPublicKeyEncoding Sample.isValidSignatureEncoding
           Sample.decodeBitcoinSignature
           Sample.generateBitcoinCashSigningSerialization
           Sample.commonOperators commonOperators_respect_limit
           (Sample.program [] []) long_script [] (evaluate Sample.vm initial) Hr).
Defined.

(* ================================================================= *)
(** ** The machine of the specification: debug and evaluate agree *)

Lemma last_cons {A} (x : A) (l : list A) (d : A) : last (x :: l) d = last l x.
Proof.
  revert x d. induction l as [|y l IH]; intros x d; [reflexivity|].
  change (last (x :: y :: l) d) with (last (y :: l) d).
  now rewrite (IH y d), (IH y x).
Qed.

Section MachineProperties.

Variable instructionSet : InstructionSet.

Hypothesis clone_copies :
  forall state, instruction_clone instructionSet state = state.

Lemma run_entries_last (turns : nat) (state : ProgramState)
    (entry : DebuggingStep.t) :
  DebuggingStep.state entry = state ->
  DebuggingStep.state (last (run_entries instructionSet turns state) entry)
  = run instructionSet turns state.
Proof.
  revert state entry. induction turns as [|turns IH]; intros state entry He;
    simpl; [exact He|].
  destruct (instruction_continue instructionSet state); [|exact He].
  rewrite last_cons. apply IH. simpl. apply clone_copies.
Qed.

(** Property 7 of the specification, for the machine itself: the state of
    the last entry of [debug] is the terminal state of [evaluate]. *)
Lemma machine_debug_agrees (state : ProgramState) (phaseLabel : string) :
  exists entries last_entry,
    machine_debug instructionSet state phaseLabel = entries ++ [last_entry] /\
    DebuggingStep.state last_entry = machine_evaluate instructionSet state.
Proof.
  unfold machine_debug, machine_evaluate.
  set (first_entry :=
         {| DebuggingStep.asm := EmptyString;
            DebuggingStep.description := phaseLabel;
            DebuggingStep.state := instruction_clone instructionSet state |}).
  set (entries := run_entries instructionSet (turns_for state) state).
  exists (removelast (first_entry :: entries)), (last (first_entry :: entries) first_entry).
  split.
  - apply app_removelast_last. discriminate.
  - rewrite last_cons. apply run_entries_last. simpl. apply clone_copies.
Qed.

End MachineProperties.

Lemma run_keeps_script (table : OperatorTable) :
  (forall opcode operator,
      lookup_operator table opcode = Some operator ->
      forall state, script (operation operator state) = script state) ->
  forall turns state,
    script (run (bitcoinCashInstructionSet table) turns state) = script state.
Proof.
  intros Ht. induction turns as [|turns IH]; intros state; simpl; [reflexivity|].
  destruct (continue state); [|reflexivity].
  rewrite IH. unfold step.
  cbn [instruction_before bitcoinCashInstructionSet operators].
  assert (script (before state) = script state) as Hb.
  { destruct state as [e i l c o sc st ex]. unfold before. fields.
    repeat (break_match; fields); reflexivity. }
  destruct (at_index (script (before state)) (ip (before state))) as [opcode|];
    [|exact Hb].
  destruct (lookup_operator table opcode) as [operator|] eqn:Hl.
  - now rewrite (Ht opcode operator Hl).
  - exact Hb.
Qed.

(** The turns granted to [evaluate] are enough: on a script whose bytes are
    not negative and from an instruction pointer that is not negative, the
    loop has come to an end when the turns are used up, provided that no
    operator of the table changes the script or moves the pointer back. *)
Lemma run_halts (table : OperatorTable) :
  (forall opcode operator,
      lookup_operator table opcode = Some operator ->
      forall state, script (operation operator state) = script state) ->
  (forall opcode operator,
      lookup_operator table opcode = Some operator ->
      forall state,
        Forall (fun b => 0 <= b) (script state) ->
        ip state <= ip (operation operator state)) ->
  forall turns state,
    Forall (fun b => 0 <= b) (script state) ->
    len (script state) - ip state < Z.of_nat turns ->
    continue (run (bitcoinCashInstructionSet table) turns state) = false.
Proof.
  intros Hscript Hip. induction turns as [|turns IH]; intros state Hb Hl.
  - simpl. unfold continue. destruct (error state); [reflexivity|].
    apply Z.ltb_ge. simpl in Hl. lia.
  - simpl. destruct (continue state) eqn:Hc; [|exact Hc].
    assert (script (before state) = script state /\
            ip (before state) = ip state + 1) as [Hbs Hbi].
    { destruct state as [e i l c o sc st ex]. unfold before. fields.
      repeat (break_match; fields); split; reflexivity. }
    assert (script (step (bitcoinCashInstructionSet table) state) = script state /\
            ip state + 1 <= ip (step (bitcoinCashInstructionSet table) state))
      as [Hss Hsi].
    { unfold step.
      cbn [instruction_before bitcoinCashInstructionSet operators].
      destruct (at_index (script (before state)) (ip (before state)))
        as [opcode|]; [|split; [exact Hbs | lia]].
      destruct (lookup_operator table opcode) as [operator|] eqn:Ho.
      - split; [now rewrite (Hscript opcode operator Ho)|].
        pose proof (Hip opcode operator Ho (before state)) as Hf.
        rewrite Hbs in Hf. specialize (Hf Hb). lia.
      - split; [exact Hbs | simpl; lia]. }
    apply IH; [now rewrite Hss | rewrite Hss; lia].
Qed.

Lemma sample_vm_halts (state : ProgramState) :
  Forall (fun b => 0 <= b) (script state) -> 0 <= ip state ->
  continue (evaluate Sample.vm state) = false.
Proof.
  intros Hb Hi.
  apply (run_halts Sample.commonOperators
           commonOperators_keep_script commonOperators_move_forward);
    [exact Hb|].
  unfold turns_for, len. lia.
Qed.

Lemma sample_vm_agrees (state : ProgramState) (phaseLabel : string) :
  exists entries last_entry,
    debug Sample.vm state phaseLabel = entries ++ [last_entry] /\
    DebuggingStep.state last_entry = evaluate Sample.vm state.
Proof.
  apply (machine_debug_agrees (bitcoinCashInstructionSet Sample.commonOperators)).
  apply clone_id.
Qed.

Lemma sample_vm_keeps_script (state : ProgramState) :
  script (evaluate Sample.vm state) = script state.
Proof. apply run_keeps_script. apply commonOperators_keep_script. Qed.

(* ================================================================= *)
(** ** The phase pipelines *)

Lemma final_state_app (entries : list DebuggingStep.t) (entry : DebuggingStep.t) :
  final_state (entries ++ [entry]) = Some (DebuggingStep.state entry).
Proof. unfold final_state. now rewrite at_index_app_last. Qed.

Lemma evaluateP2sh_pop {T} (rest : list Uint8Array) (top : Uint8Array)
    (evaluate : option Uint8Array -> list Uint8Array -> T) :
  evaluateP2sh (rest ++ [top]) evaluate = evaluate (Some top) rest.
Proof. unfold evaluateP2sh. now rewrite cloneStack_id, pop_app. Qed.

Lemma evaluateP2sh_empty {T}
    (evaluate : option Uint8Array -> list Uint8Array -> T) :
  evaluateP2sh [] evaluate = evaluate None [].
Proof. reflexivity. Qed.

(** A stack array that was left as it was changes nothing in the trace. *)
Lemma with_final_stack_same (entries : list DebuggingStep.t)
    (entry : DebuggingStep.t) :
  with_final_stack (stack (DebuggingStep.state entry)) (entries ++ [entry])
  = entries ++ [entry].
Proof.
  unfold with_final_stack. rewrite pop_app.
  destruct entry as [a d [e i l c o sc st ex]]. reflexivity.
Qed.

Section Pipelines.

Variable vm : AuthenticationVirtualMachine.
Variable program : AuthenticationProgram.

(** The evaluate pipeline, phase by phase. *)
Lemma evaluate_pipeline_phases :
  evaluateBitcoinCashAuthenticationProgram vm program =
  if has_error (unlockingResultOf vm program)
  then Returned (unlockingResultOf vm program)
  else if isPayToScriptHash (lockingScript program)
  then evaluateP2sh (evaluate_leaves vm (lockingStateOf vm program))
         (fun p2shScript p2shStack =>
            with_script p2shScript (fun p2shScript =>
              Returned
                (evaluate vm
                   (createBitcoinCashProgramState program p2shScript p2shStack))))
  else Returned (lockingResultOf vm program).
Proof. reflexivity. Qed.


(** C3 (the code departs from the claim).  The claim: on a P2SH locking
    script, an unlocking phase whose operations hold an opcode >= OP_16 makes
    the program fail with p2shPushOnly, in the evaluate pipeline as in the
    debug pipeline.  The evaluate pipeline never looks at the operations: it
    runs the P2SH phase on the top element of the unlocking stack all the
    same and returns its terminal state. *)
Theorem evaluate_ignores_push_only (rest : list Uint8Array) (top : Uint8Array) :
  isPayToScriptHash (lockingScript program) = true ->
  error (unlockingResultOf vm program) = None ->
  evaluate_leaves vm (lockingStateOf vm program) = rest ++ [top] ->
  isPushOnly (operations (unlockingResultOf vm program)) = false ->
  evaluateBitcoinCashAuthenticationProgram vm program =
    Returned (evaluate vm (createBitcoinCashProgramState program top rest)).
Proof.
  intros Hp He Hs _. rewrite evaluate_pipeline_phases. unfold has_error.
  rewrite He, Hp, Hs. now rewrite evaluateP2sh_pop.
Qed.

(** The other prerequisite: on an empty unlocking stack the evaluate
    pipeline does not fail with p2shEmptyStack; it pops [undefined] as the
    script of the P2SH phase and throws. *)
Lemma evaluate_throws_on_empty_stack :
  isPayToScriptHash (lockingScript program) = true ->
  error (unlockingResultOf vm program) = None ->
  evaluate_leaves vm (lockingStateOf vm program) = [] ->
  evaluateBitcoinCashAuthenticationProgram vm program = Thrown TypeError.
Proof.
  intros Hp He Hs. rewrite evaluate_pipeline_phases. unfold has_error.
  rewrite He, Hp, Hs. reflexivity.
Qed.

(** From here on the machine is one whose [debug] ends on the terminal
    state of [evaluate] (property 7 of the specification). *)
Hypothesis vm_agrees :
  forall state phaseLabel,
  exists entries last_entry,
    debug vm state phaseLabel = entries ++ [last_entry] /\
    DebuggingStep.state last_entry = evaluate vm state.

Lemma debugPhase_result (script_ : Uint8Array) (message : string)
    (stack_ : list Uint8Array) :
  exists entries last_entry,
    debugPhase vm program script_ message stack_ =
      Returned
        {| result :=
             evaluate vm (createBitcoinCashProgramState program script_ stack_);
           steps := entries ++ [last_entry];
           stack_left :=
             debug_leaves vm
               (createBitcoinCashProgramState program script_ stack_) message |} /\
    DebuggingStep.state last_entry =
      evaluate vm (createBitcoinCashProgramState program script_ stack_).
Proof.
  destruct (vm_agrees (createBitcoinCashProgramState program script_ stack_)
              message) as (entries & last_entry & Hd & Hl).
  exists entries, last_entry. split; [|exact Hl].
  unfold debugPhase. rewrite Hd, at_index_app_last, Hl. reflexivity.
Qed.

(** The debug pipeline up to the end of the locking phase: when the
    unlocking phase ends without an error, the trace of the locking phase
    follows, and it ends on the terminal state of the locking phase. *)
Lemma debug_pipeline_locking :
  error (unlockingResultOf vm program) = None ->
  exists unlockingSteps entries last_entry,
    DebuggingStep.state last_entry = lockingResultOf vm program /\
    debugBitcoinCashAuthenticationProgram vm program =
    let unlockingStack :=
      debug_leaves vm (lockingStateOf vm program) Phase.locking in
    let lockingSteps := entries ++ [last_entry] in
    if has_error (lockingResultOf vm program) ||
       negb (isPayToScriptHash (lockingScript program))
    then Returned (unlockingSteps ++ lockingSteps)
    else if negb (isPushOnly (operations (unlockingResultOf vm program)))
    then Returned (unlockingSteps ++ lockingSteps ++
                   [ {| DebuggingStep.asm := P2shError.asm;
                        DebuggingStep.description := P2shError.pushOnly;
                        DebuggingStep.state := lockingResultOf vm program |} ])
    else if len unlockingStack =? 0
    then Returned (unlockingSteps ++ lockingSteps ++
                   [ {| DebuggingStep.asm := P2shError.asm;
                        DebuggingStep.description := P2shError.emptyStack;
                        DebuggingStep.state := lockingResultOf vm program |} ])
    else
    match evaluateP2sh unlockingStack
            (fun p2shScript p2shStack =>
               with_script p2shScript (fun p2shScript =>
                 debugPhase vm program p2shScript Phase.p2sh p2shStack)) with
    | Thrown e => Thrown e
    | Returned p2sh => Returned (unlockingSteps ++ lockingSteps ++ steps p2sh)
    end.
Proof.
  intros Hu.
  destruct (debugPhase_result (unlockingScript program) Phase.unlocking [])
    as (e1 & l1 & H1 & _).
  destruct (debugPhase_result (lockingScript program) Phase.locking
              (stack (unlockingResultOf vm program))) as (e2 & l2 & H2 & Hl2).
  exists (with_final_stack
            (debug_leaves vm (lockingStateOf vm program) Phase.locking)
            (e1 ++ [l1])), e2, l2.
  split; [exact Hl2|].
  unfold debugBitcoinCashAuthenticationProgram.
  rewrite H1. cbn [result steps stack_left].
  fold (unlockingResultOf vm program). unfold has_error at 1. rewrite Hu.
  rewrite H2. cbn [result steps stack_left].
  reflexivity.
Qed.

(** The debug pipeline does check the push-only prerequisite, once the
    locking phase has ended without an error: it appends an entry that names
    the prerequisite in its description.  The state of that entry is the
    terminal state of the locking phase, unchanged: no error is set. *)
Lemma debug_names_push_only :
  isPayToScriptHash (lockingScript program) = true ->
  error (unlockingResultOf vm program) = None ->
  error (lockingResultOf vm program) = None ->
  isPushOnly (operations (unlockingResultOf vm program)) = false ->
  exists entries,
    debugBitcoinCashAuthenticationProgram vm program =
      Returned
        (entries ++
         [ {| DebuggingStep.asm := P2shError.asm;
              DebuggingStep.description := P2shError.pushOnly;
              DebuggingStep.state := lockingResultOf vm program |} ]).
Proof.
  intros Hp Hu Hl Ho.
  destruct (debug_pipeline_locking Hu) as (u & e2 & l2 & _ & Hd).
  rewrite Hd. unfold has_error. rewrite Hl, Hp, Ho. cbn [negb orb].
  exists (u ++ e2 ++ [l2]). now rewrite <- !app_assoc.
Qed.

(** C6 (the code departs from the claim).  The claim: the state the evaluate
    pipeline returns is the state of the last entry of the debug pipeline.
    On a P2SH locking script, when the locking phase ends with an error or
    the unlocking phase was not push-only, the debug pipeline ends on the
    terminal state of the locking phase, while the evaluate pipeline goes on
    to run the redeem script and returns the terminal state of that phase: a
    state with another script. *)
Theorem debug_and_evaluate_disagree (rest : list Uint8Array) (top : Uint8Array) :
  (forall state, script (evaluate vm state) = script state) ->
  isPayToScriptHash (lockingScript program) = true ->
  error (unlockingResultOf vm program) = None ->
  evaluate_leaves vm (lockingStateOf vm program) = rest ++ [top] ->
  has_error (lockingResultOf vm program) = true \/
  isPushOnly (operations (unlockingResultOf vm program)) = false ->
  top <> lockingScript program ->
  exists final trace,
    evaluateBitcoinCashAuthenticationProgram vm program = Returned final /\
    debugBitcoinCashAuthenticationProgram vm program = Returned trace /\
    final = evaluate vm (createBitcoinCashProgramState program top rest) /\
    final_state trace = Some (lockingResultOf vm program) /\
    final_state trace <> Some final.
Proof.
  intros Hscript Hp Hu Hs Hcause Hdiff.
  exists (evaluate vm (createBitcoinCashProgramState program top rest)).
  assert (lockingResultOf vm program <>
          evaluate vm (createBitcoinCashProgramState program top rest)) as Hne.
  { intros Heq. apply (f_equal script) in Heq.
    unfold lockingResultOf, lockingStateOf in Heq. rewrite !Hscript in Heq.
    simpl in Heq. congruence. }
  assert (exists trace,
             debugBitcoinCashAuthenticationProgram vm program = Returned trace /\
             final_state trace = Some (lockingResultOf vm program))
    as (trace & Hd & Hf).
  { destruct (debug_pipeline_locking Hu) as (u & e2 & l2 & Hl2 & Hd).
    rewrite Hd. rewrite Hp. cbn [negb]. rewrite orb_false_r.
    destruct (has_error (lockingResultOf vm program)) eqn:Hle.
    - eexists. split; [reflexivity|].
      rewrite app_assoc, final_state_app. now rewrite Hl2.
    - destruct Hcause as [Hc|Hc]; [discriminate|]. rewrite Hc. cbn [negb].
      eexists. split; [reflexivity|].
      rewrite !app_assoc, final_state_app. reflexivity. }
  exists trace. split; [|split; [exact Hd|split; [reflexivity|split; [exact Hf|]]]].
  - rewrite evaluate_pipeline_phases. unfold has_error.
    rewrite Hu, Hp, Hs. now rewrite evaluateP2sh_pop.
  - rewrite Hf. intros Heq. injection Heq as Heq. now apply Hne.
Qed.

End Pipelines.

Lemma sample_vm_works_on_a_copy : works_on_a_copy Sample.vm.
Proof. split; reflexivity. Qed.



Lemma evaluate_ignores_push_only_witness :
  isPayToScriptHash (lockingScript program_not_push_only) = true /\
  error (unlockingResultOf Sample.vm program_not_push_only) = None /\
  evaluate_leaves Sample.vm (lockingStateOf Sample.vm program_not_push_only)
    = [] ++ [[0x10]] /\
  operations (unlockingResultOf Sample.vm program_not_push_only)
    = [BitcoinCashOpCodes.OP_16] /\
  isPushOnly (operations (unlockingResultOf Sample.vm program_not_push_only))
    = false /\
  evaluateBitcoinCashAuthenticationProgram Sample.vm program_not_push_only =
    Returned
      (evaluate Sample.vm
         (createBitcoinCashProgramState program_not_push_only [0x10] [])).
Proof.
  split; [reflexivity|]. split; [reflexivity|]. split; [reflexivity|].
  split; [reflexivity|]. split; [reflexivity|].
  apply (evaluate_ignores_push_only Sample.vm program_not_push_only [] [0x10]);
    reflexivity.
Defined.

(** The failing inputs of C3, run.  With the unlocking script OP_0 OP_16 the
    evaluate pipeline returns a state without any error; the debug pipeline
    ends on the entry that names the prerequisite, whose state has no error
    either.  With the empty unlocking script the evaluate pipeline throws. *)
Lemma p2sh_prerequisites_run :
  (exists final,
      evaluateBitcoinCashAuthenticationProgram Sample.vm program_not_push_only
        = Returned final /\
      error final = None) /\
  (exists trace entry,
      debugBitcoinCashAuthenticationProgram Sample.vm program_not_push_only
        = Returned (trace ++ [entry]) /\
      DebuggingStep.description entry = P2shError.pushOnly /\
      error (DebuggingStep.state entry) = None) /\
  evaluateBitcoinCashAuthenticationProgram Sample.vm program_empty_unlocking
    = Thrown TypeError.
Proof.
  split; [|split].
  - eexists. split; [vm_compute; reflexivity | reflexivity].
  - destruct (debug_names_push_only Sample.vm program_not_push_only
                sample_vm_agrees) as (entries & Hd); try reflexivity.
    eexists. eexists. split; [exact Hd|]. split; reflexivity.
  - reflexivity.
Qed.

Lemma debug_and_evaluate_disagree_witness :
  isPayToScriptHash (lockingScript program_not_push_only) = true /\
  error (unlockingResultOf Sample.vm program_not_push_only) = None /\
  evaluate_leaves Sample.vm (lockingStateOf Sample.vm program_not_push_only)
    = [] ++ [[0x10]] /\
  isPushOnly (operations (unlockingResultOf Sample.vm program_not_push_only))
    = false /\
  [0x10] <> lockingScript program_not_push_only /\
  exists final trace,
    evaluateBitcoinCashAuthenticationProgram Sample.vm program_not_push_only
      = Returned final /\
    debugBitcoinCashAuthenticationProgram Sample.vm program_not_push_only
      = Returned trace /\
    final =
      evaluate Sample.vm
        (createBitcoinCashProgramState program_not_push_only [0x10] []) /\
    final_state trace = Some (lockingResultOf Sample.vm program_not_push_only) /\
    final_state trace <> Some final.
Proof.
  split; [reflexivity|]. split; [reflexivity|]. split; [reflexivity|].
  split; [reflexivity|]. split; [discriminate|].
  apply (debug_and_evaluate_disagree Sample.vm program_not_push_only
           sample_vm_agrees [] [0x10] sample_vm_keeps_script).
  - reflexivity.
  - reflexivity.
  - reflexivity.
  - right. reflexivity.
  - discriminate.
Defined.

(** The failing input of C6, run: the two pipelines end on states with
    different scripts, instruction pointers and stacks. *)
Lemma debug_and_evaluate_disagree_run :
  exists final trace last_state,
    evaluateBitcoinCashAuthenticationProgram Sample.vm program_not_push_only
      = Returned final /\
    debugBitcoinCashAuthenticationProgram Sample.vm program_not_push_only
      = Returned trace /\
    final_state trace = Some last_state /\
    script final = [0x10] /\ stack final = [] /\ ip final = 1 /\
    script last_state = Sample.p2shLockingScript /\
    stack last_state = [[]] /\ ip last_state = 23.
Proof.
  eexists. eexists. eexists.
  split; [vm_compute; reflexivity|].
  split; [vm_compute; reflexivity|].
  split; [vm_compute; reflexivity|].
  repeat split.
Qed.

(* ================================================================= *)
(** * Further properties of the code *)

(** ** The predicates of bitcoin-cash.ts *)

(** X1.  [isPayToScriptHash] holds of exactly the scripts OP_HASH160
    OP_PUSHBYTES_20 <20 bytes> OP_EQUAL: 23 bytes, whatever the 20 bytes in
    the middle are. *)
Theorem isPayToScriptHash_shape (lockingScript_ : Uint8Array) :
  isPayToScriptHash lockingScript_ = true <->
  exists hash,
    len hash = 20 /\
    lockingScript_ =
      [BitcoinCashOpCodes.OP_HASH160; BitcoinCashOpCodes.OP_PUSHBYTES_20]
      ++ hash ++ [BitcoinCashOpCodes.OP_EQUAL].
Proof.
  split.
  - unfold isPayToScriptHash. intros H.
    apply andb_prop in H as [H H3]. apply andb_prop in H as [H H2].
    apply andb_prop in H as [H0 H1].
    apply Z.eqb_eq in H0. unfold len, PayToScriptHash.length in H0.
    assert (length lockingScript_ = 23%nat) as Hlen by lia. clear H0.
    destruct lockingScript_ as [|x0 l]; [discriminate|].
    destruct l as [|x1 l]; [discriminate|].
    exists (firstn 20 l).
    do 20 (destruct l as [|? l]; [discriminate|]).
    destruct l as [|x22 l]; [discriminate|].
    destruct l; [|discriminate].
    cbn in H1, H2, H3.
    apply Z.eqb_eq in H1, H2, H3. subst x0 x1 x22.
    split; reflexivity.
  - intros (hash & Hlen & ->).
    unfold len in Hlen. assert (length hash = 20%nat) as Hl by lia. clear Hlen.
    do 20 (destruct hash as [|? hash]; [discriminate|]).
    destruct hash; [|discriminate]. reflexivity.
Qed.

(** X2.  [isPushOnly] accepts exactly the lists of operations that are all
    below OP_16 (0x60).  Of the opcodes the push tables of push.ts bind,
    every one is accepted but OP_16 itself, which is rejected. *)
Theorem isPushOnly_accepts :
  (forall operations_,
      isPushOnly operations_ = true <->
      forall value, In value operations_ -> value < BitcoinCashOpCodes.OP_16) /\
  (forall opcode,
      In opcode (pushNumberOpCodes ++ pushDataConstantOpCodes ++
                 [BitcoinCashOpCodes.OP_PUSHDATA1; BitcoinCashOpCodes.OP_PUSHDATA2;
                  BitcoinCashOpCodes.OP_PUSHDATA4]) ->
      isPushOnly [opcode] = negb (opcode =? BitcoinCashOpCodes.OP_16)) /\
  In BitcoinCashOpCodes.OP_16 pushNumberOpCodes.
Proof.
  split; [|split].
  - intros operations_. unfold isPushOnly. rewrite forallb_forall.
    split; intros H value Hin.
    + apply Z.ltb_lt. now apply H.
    + apply Z.ltb_lt. now apply H.
  - assert (forallb
              (fun opcode =>
                 Bool.eqb (isPushOnly [opcode])
                          (negb (opcode =? BitcoinCashOpCodes.OP_16)))
              (pushNumberOpCodes ++ pushDataConstantOpCodes ++
               [BitcoinCashOpCodes.OP_PUSHDATA1; BitcoinCashOpCodes.OP_PUSHDATA2;
                BitcoinCashOpCodes.OP_PUSHDATA4]) = true) as H
      by (vm_compute; reflexivity).
    rewrite forallb_forall in H. intros opcode Hin.
    apply Bool.eqb_prop. now apply H.
  - unfold pushNumberOpCodes. simpl. tauto.
Qed.

(** X3.  [before] advances the instruction pointer by exactly one and
    touches neither the script, nor the stack, nor the last code separator,
    nor the external state; it never lowers the operation count, never
    removes a recorded operation and never clears an error. *)
Theorem before_frame (state : ProgramState) :
  ip (before state) = ip state + 1 /\
  script (before state) = script state /\
  stack (before state) = stack state /\
  lastCodeSeparator (before state) = lastCodeSeparator state /\
  external (before state) = external state /\
  operationCount state <= operationCount (before state) <= operationCount state + 1 /\
  (exists recorded, operations (before state) = operations state ++ recorded) /\
  (error (before state) = None -> error state = None).
Proof.
  destruct state as [e i l c o sc st ex]. unfold before. fields.
  repeat (break_match; fields); repeat split; try lia; try discriminate;
    try (intros H; exact H);
    first [ now (eexists; reflexivity)
          | now (exists []; rewrite app_nil_r) ].
Qed.

Lemma before_frame_witness :
  error (before successful_state) = None /\
  ip (before successful_state) = 1 /\
  error successful_state = None.
Proof.
  split; [reflexivity|]. split; [reflexivity|].
  apply (before_frame successful_state). reflexivity.
Defined.

(** X4.  The check of the source accepts a state exactly when the state
    carries an error, has a single stack element, and that element is
    truthy. *)
Theorem validate_accepts_exactly (truthy : Uint8Array -> bool)
    (state : ProgramState) :
  validateBitcoinCashAuthenticationProgramState truthy state = true <->
  exists kind element,
    error state = Some kind /\ stack state = [element] /\ truthy element = true.
Proof.
  unfold validateBitcoinCashAuthenticationProgramState, has_error. split.
  - intros H. apply andb_prop in H as [H Ht]. apply andb_prop in H as [He Hl].
    destruct (error state) as [kind|]; [|discriminate].
    apply Z.eqb_eq in Hl. unfold len in Hl.
    destruct (stack state) as [|element [|? ?]]; simpl in Hl; try lia.
    exists kind, element. repeat split. exact Ht.
  - intros (kind & element & -> & -> & Ht). simpl. exact Ht.
Qed.

(* ----------------------------------------------------------------- *)
(** ** More on push.ts *)

Section MorePushProperties.

Variable binToHex : Uint8Array -> string.
Variable bigIntToScriptNumber : Z -> Uint8Array.
Variable bufferAround : Uint8Array -> ArrayBufferRest.

(** X5.  The table of the number pushes binds OP_1NEGATE to the push of -1,
    OP_0 to the push of 0 and OP_n (0x50 + n, n from 1 to 16) to the push of
    n; the byte 0x50 between OP_1NEGATE and OP_1 is not bound.  The operation
    appends the script number of the value to the stack and changes nothing
    else. *)
Theorem pushNumberOperators_bind (n : Z) (state : ProgramState) :
  1 <= n <= 16 ->
  lookup_operator (pushNumberOperators bigIntToScriptNumber) (0x50 + n)
    = Some (opPushNumber bigIntToScriptNumber n) /\
  lookup_operator (pushNumberOperators bigIntToScriptNumber)
                  BitcoinCashOpCodes.OP_0
    = Some (opPushNumber bigIntToScriptNumber 0) /\
  lookup_operator (pushNumberOperators bigIntToScriptNumber)
                  BitcoinCashOpCodes.OP_1NEGATE
    = Some (opPushNumber bigIntToScriptNumber (-1)) /\
  lookup_operator (pushNumberOperators bigIntToScriptNumber) 0x50 = None /\
  operation (opPushNumber bigIntToScriptNumber n) state =
    set_stack (stack state ++ [bigIntToScriptNumber n]) state.
Proof.
  intros Hn. repeat split.
  assert (exists k, (k < 16)%nat /\ n = Z.of_nat (S k)) as (k & Hk & ->)
    by (exists (Z.to_nat (n - 1)); lia).
  clear Hn.
  do 16 (destruct k as [|k]; [reflexivity|]).
  lia.
Qed.

(** X6.  OP_PUSHDATA2 with its length field and the payload at hand.  The
    length K is the little-endian number of the two bytes the view of
    [readLittleEndianLength] finds: the bytes of the buffer of the script at
    the offsets ip and ip+1, to which the byte offset of the script is not
    added (for a script with a buffer of its own these are its own bytes at
    ip and ip+1).  K below 256 fails with nonMinimalPush, K above 520 with
    exceedsMaximumPush, and for K from 256 to 520 the K bytes of the script
    from ip+2 on are pushed and the instruction pointer is set behind
    them. *)
Theorem opPushData2_operation (b0 b1 : Z) (state : ProgramState) :
  at_index (buffer bufferAround (script state)) (ip state) = Some b0 ->
  at_index (buffer bufferAround (script state)) (ip state + 1) = Some b1 ->
  ip state + 2 <= len (script state) ->
  ip state + 2 + (b0 + 256 * b1) <= len (script state) ->
  operation (opPushData2 binToHex bufferAround) state =
  if b0 + 256 * b1 <? 256
  then applyError (Common CommonAuthenticationError.nonMinimalPush) state
  else if b0 + 256 * b1 >? 520
  then applyError (Common CommonAuthenticationError.exceedsMaximumPush) state
  else set_ip (ip state + 2 + (b0 + 256 * b1))
         (set_stack
            (stack state ++
             [slice (script state) (ip state + 2) (ip state + 2 + (b0 + 256 * b1))])
            state).
Proof.
  intros H0 H1 Hfield Hlen.
  unfold opPushData2, createPushDataOperator. cbn [operation].
  rewrite (pushDataVariableMethod_read bufferAround _ _ _ _ _ _ _ _ _ state
             (b0 + 256 * b1));
    [|cbn [BYTES_PER_ELEMENT]; lia
     |now apply readLittleEndianLength_Uint16].
  cbn [returned_or BYTES_PER_ELEMENT stack_push].
  change (highestRepresentableNumberIn 1) with 256.
  unfold PushOperationConstants.maximumPushSize.
  replace (len (script state) <? ip state + 2 + (b0 + 256 * b1)) with false
    by (symmetry; apply Z.ltb_ge; lia).
  reflexivity.
Qed.



End MorePushProperties.

Lemma pushNumberOperators_bind_witness :
  1 <= 16 <= 16 /\
  lookup_operator (pushNumberOperators bigIntToScriptNumber)
                  BitcoinCashOpCodes.OP_16
    = Some (opPushNumber bigIntToScriptNumber 16) /\
  stack (operation (opPushNumber bigIntToScriptNumber 16) successful_state)
    = [[0x01]; [0x10]].
Proof.
  split; [lia|].
  pose proof (pushNumberOperators_bind bigIntToScriptNumber 16 successful_state
                ltac:(lia)) as (H16 & _ & _ & _ & Hop).
  split; [exact H16|]. rewrite Hop. reflexivity.
Defined.

Lemma opPushData2_operation_witness :
  at_index (buffer Sample.bufferAround (script pushdata2_state))
           (ip pushdata2_state) = Some 0 /\
  at_index (buffer Sample.bufferAround (script pushdata2_state))
           (ip pushdata2_state + 1) = Some 1 /\
  ip pushdata2_state + 2 <= len (script pushdata2_state) /\
  ip pushdata2_state + 2 + (0 + 256 * 1) <= len (script pushdata2_state) /\
  stack (operation (opPushData2 Sample.binToHex Sample.bufferAround)
           pushdata2_state)
    = [repeat 0xcd 256] /\
  ip (operation (opPushData2 Sample.binToHex Sample.bufferAround)
        pushdata2_state) = 259.
Proof.
  split; [reflexivity|]. split; [reflexivity|].
  split; [vm_compute; discriminate|]. split; [vm_compute; discriminate|].
  rewrite (opPushData2_operation Sample.binToHex Sample.bufferAround 0 1
             pushdata2_state).
  - split; reflexivity.
  - reflexivity.
  - reflexivity.
  - vm_compute; discriminate.
  - vm_compute; discriminate.
Defined.

(** The same script as a view on a larger buffer, [tx.subarray(2)] with the
    instruction pointer on the opcode: the view of [readLittleEndianLength]
    is made at the offset ip of the buffer, so the length is read from the
    two bytes 0x00 0x01 of the buffer that lie before the script (256),
    where the bytes of the script at ip and ip+1 are 0x4d 0x00; 256 bytes of
    the script are pushed, from the second length byte on. *)
Lemma opPushData2_on_a_subarray :
  let state := state_at (script pushdata2_state) 0 [] in
  byteOffset bufferOfSubarray (script state) = 2 /\
  at_index (script state) (ip state) = Some BitcoinCashOpCodes.OP_PUSHDATA2 /\
  at_index (script state) (ip state + 1) = Some 0x00 /\
  readLittleEndianLength bufferOfSubarray (script state) (ip state)
    (BYTES_PER_ELEMENT Uint16) Uint16 = Returned 256 /\
  stack (operation (opPushData2 Sample.binToHex bufferOfSubarray) state)
    = [0x01 :: repeat 0xcd 255] /\
  error (operation (opPushData2 Sample.binToHex bufferOfSubarray) state) = None /\
  error (operation (opPushData2 Sample.binToHex Sample.bufferAround) state)
    = Some (Common CommonAuthenticationError.nonMinimalPush).
Proof. intros state. repeat split; reflexivity. Qed.


(* ----------------------------------------------------------------- *)
(** ** More on crypto.ts *)

Section MoreCryptoProperties.

Variable sha256 : Sha256.
Variable ripemd160 : Ripemd160.
Variable secp256k1 : Secp256k1.
Variable booleanToScriptNumber : bool -> Uint8Array.
Variable parseBytesAsScriptNumber : Uint8Array -> option Z.
Variable bigIntToBitcoinVarInt : Z -> Uint8Array.
Variable isValidPublicKeyEncoding : Uint8Array -> bool.
Variable isValidSignatureEncoding : Uint8Array -> bool.
Variable decodeBitcoinSignature : Uint8Array -> DecodedSignature.
Variable generateBitcoinCashSigningSerialization :
  Z -> Uint8Array -> Uint8Array -> Uint8Array -> Z -> Uint8Array ->
  Z -> Z -> Uint8Array -> Uint8Array -> Z -> Uint8Array -> Uint8Array.

Let hash160 : Operator := opHash160 sha256 ripemd160.

Let checkSig : Operator :=
  opCheckSig sha256 secp256k1 booleanToScriptNumber bigIntToBitcoinVarInt
    isValidPublicKeyEncoding isValidSignatureEncoding decodeBitcoinSignature
    generateBitcoinCashSigningSerialization.

Let checkMultiSig : Operator :=
  opCheckMultiSig sha256 secp256k1 booleanToScriptNumber
    parseBytesAsScriptNumber bigIntToBitcoinVarInt
    isValidPublicKeyEncoding isValidSignatureEncoding decodeBitcoinSignature
    generateBitcoinCashSigningSerialization.

Let loop :=
  checkMultiSigLoop sha256 secp256k1
    isValidPublicKeyEncoding isValidSignatureEncoding decodeBitcoinSignature
    generateBitcoinCashSigningSerialization.

Let verifies (state : ProgramState) (scriptCode : Uint8Array) :=
  signed sha256 secp256k1 decodeBitcoinSignature
    generateBitcoinCashSigningSerialization state scriptCode.

(** X9.  OP_HASH160 on an empty stack fails with emptyStack and changes
    nothing else; on any other stack it replaces the top element by the
    ripemd160 of its sha256 and leaves everything below, and every other
    field, as it was. *)
Theorem opHash160_replaces_top (state : ProgramState) :
  (stack state = [] /\
   operation hash160 state =
     applyError (Common CommonAuthenticationError.emptyStack) state) \/
  (exists rest top,
     stack state = rest ++ [top] /\
     operation hash160 state =
       set_stack
         (rest ++ [ripemd160_hash ripemd160 (sha256_hash sha256 top)]) state).
Proof.
  destruct state as [e i l c o sc st ex]. unfold hash160, opHash160. fields.
  destruct (pop_cases st) as [[-> Hp]|(rest & top & -> & Hp)]; rewrite Hp.
  - left. split; reflexivity.
  - right. exists rest, top. split; reflexivity.
Qed.

(** X10.  OP_CHECKSIG on a stack of fewer than two elements fails with
    emptyStack, and the element it did find is gone: the stack is left
    empty. *)
Theorem opCheckSig_underflow (state : ProgramState) :
  len (stack state) < 2 ->
  operation checkSig state =
    applyError (Common CommonAuthenticationError.emptyStack)
      (set_stack [] state).
Proof.
  intros H. destruct state as [e i l c o sc st ex]. cbn [stack] in H.
  unfold checkSig, opCheckSig. fields.
  destruct st as [|x [|y st]].
  - reflexivity.
  - reflexivity.
  - unfold len in H. simpl in H. lia.
Qed.

(** X11.  OP_CHECKSIG on a stack with the signature and, above it, the
    public key on top: both are taken off the stack in every case.  A
    badly encoded key fails with invalidPublicKeyEncoding, whatever the
    signature; with the key well encoded, a badly encoded signature fails
    with invalidSignatureEncoding; otherwise the outcome of the signature
    check is pushed as a boolean, and the check is that of the state before
    the operation: the stack does not enter it. *)
Theorem opCheckSig_operation (state : ProgramState) (below : list Uint8Array)
    (bitcoinEncodedSignature publicKey : Uint8Array) :
  stack state = below ++ [bitcoinEncodedSignature; publicKey] ->
  operation checkSig state =
  if negb (isValidPublicKeyEncoding publicKey)
  then applyError (Common CommonAuthenticationError.invalidPublicKeyEncoding)
         (set_stack below state)
  else if negb (isValidSignatureEncoding bitcoinEncodedSignature)
  then applyError (Common CommonAuthenticationError.invalidSignatureEncoding)
         (set_stack below state)
  else set_stack
         (below ++
          [booleanToScriptNumber
             (verifies state (scriptCodeOf bigIntToBitcoinVarInt state)
                publicKey bitcoinEncodedSignature)])
         state.
Proof.
  intros Hs. destruct state as [e i l c o sc st ex]. cbn [stack] in Hs. subst st.
  unfold checkSig, opCheckSig. fields.
  replace (below ++ [bitcoinEncodedSignature; publicKey])
    with ((below ++ [bitcoinEncodedSignature]) ++ [publicKey])
    by (now rewrite <- app_assoc).
  rewrite !pop_app. fields.
  repeat break_match; reflexivity.
Qed.

(** X12.  OP_CHECKMULTISIG, the count of public keys on top of the stack:
    a count that is no script number or is negative fails with
    invalidNaturalNumber, a count above 20 with
    exceedsMaximumMultisigPublicKeyCount; in both cases the count element is
    off the stack and nothing else is changed, the operation count
    included. *)
Theorem opCheckMultiSig_key_count (state : ProgramState)
    (rest : list Uint8Array) (en : Uint8Array) :
  stack state = rest ++ [en] ->
  match parseBytesAsScriptNumber en with
  | None =>
      operation checkMultiSig state =
        applyError (Common CommonAuthenticationError.invalidNaturalNumber)
          (set_stack rest state)
  | Some n =>
      (n < 0 ->
       operation checkMultiSig state =
         applyError (Common CommonAuthenticationError.invalidNaturalNumber)
           (set_stack rest state)) /\
      (20 < n ->
       operation checkMultiSig state =
         applyError
           (Common CommonAuthenticationError.exceedsMaximumMultisigPublicKeyCount)
           (set_stack rest state))
  end.
Proof.
  intros Hs. destruct state as [e i l c o sc st ex]. cbn [stack] in Hs. subst st.
  unfold checkMultiSig, opCheckMultiSig. fields. rewrite pop_app. fields.
  destruct (parseBytesAsScriptNumber en) as [n|]; [|reflexivity].
  split; intros Hn.
  - replace (n <? 0) with true by (symmetry; apply Z.ltb_lt; lia). reflexivity.
  - replace (n <? 0) with false by (symmetry; apply Z.ltb_ge; lia).
    replace (n >? Multisig.maximumPublicKeys) with true
      by (symmetry; rewrite Z.gtb_ltb; apply Z.ltb_lt;
          unfold Multisig.maximumPublicKeys; lia).
    reflexivity.
Qed.

(** X13.  OP_CHECKMULTISIG with more signatures required than keys given
    fails with insufficientPublicKeys.  The keys and both counts are off the
    stack by then and the keys have been added to the operation count;
    what lies below the count of signatures is not touched. *)
Theorem opCheckMultiSig_insufficient_keys (state : ProgramState)
    (rest : list Uint8Array) (em : Uint8Array)
    (publicKeys : list Uint8Array) (en : Uint8Array) (n m : Z) :
  stack state = rest ++ [em] ++ publicKeys ++ [en] ->
  parseBytesAsScriptNumber en = Some n -> n = len publicKeys -> 1 <= n <= 20 ->
  operationCount state + n <= 201 ->
  parseBytesAsScriptNumber em = Some m -> n < m ->
  operation checkMultiSig state =
    applyError (Common CommonAuthenticationError.insufficientPublicKeys)
      (after_pops state rest n).
Proof.
  intros Hs Hn Hnk Hnr Hc Hm Hmn.
  destruct state as [e i l c o sc st ex].
  unfold after_pops.
  cbn [stack operationCount set_stack set_operationCount] in *.
  subst st.
  unfold checkMultiSig, opCheckMultiSig. cbn [operation stack].
  rewrite !app_assoc.
  rewrite pop_app. cbn [stack set_stack]. rewrite Hn.
  replace (n <? 0) with false by (symmetry; apply Z.ltb_ge; lia).
  replace (n >? Multisig.maximumPublicKeys) with false
    by (symmetry; rewrite Z.gtb_ltb; apply Z.ltb_ge;
        unfold Multisig.maximumPublicKeys; lia).
  rewrite Hnk at 1. rewrite splice_last by lia.
  cbn [stack set_stack operationCount set_operationCount].
  replace (c + n >? CommonConsensus.maximumOperationCount) with false
    by (symmetry; rewrite Z.gtb_ltb; apply Z.ltb_ge;
        unfold CommonConsensus.maximumOperationCount; lia).
  rewrite pop_app. cbn [stack set_stack]. rewrite Hm.
  replace (m <? 0) with false by (symmetry; apply Z.ltb_ge; lia).
  replace (m >? n) with true
    by (symmetry; rewrite Z.gtb_ltb; apply Z.ltb_lt; lia).
  reflexivity.
Qed.

(** X14.  OP_CHECKMULTISIG with a dummy element that is not empty fails with
    invalidProtocolBugValue, before any key or signature is looked at: the
    outcome is the same for every choice of keys and signatures, well
    encoded or not. *)
Theorem opCheckMultiSig_protocol_bug_value (state : ProgramState)
    (below : list Uint8Array) (dummy : Uint8Array)
    (signatures : list Uint8Array) (em : Uint8Array)
    (publicKeys : list Uint8Array) (en : Uint8Array) (n m : Z) :
  stack state = below ++ [dummy] ++ signatures ++ [em] ++ publicKeys ++ [en] ->
  parseBytesAsScriptNumber en = Some n -> n = len publicKeys -> 1 <= n <= 20 ->
  parseBytesAsScriptNumber em = Some m -> m = len signatures -> 1 <= m <= n ->
  operationCount state + n <= 201 ->
  dummy <> [] ->
  operation checkMultiSig state =
    applyError (Common CommonAuthenticationError.invalidProtocolBugValue)
      (after_pops state below n).
Proof.
  intros Hs Hn Hnk Hnr Hm Hms Hmr Hc Hd.
  destruct state as [e i l c o sc st ex].
  unfold after_pops.
  cbn [stack operationCount set_stack set_operationCount] in *.
  subst st.
  unfold checkMultiSig, opCheckMultiSig. cbn [operation stack].
  rewrite !app_assoc.
  rewrite pop_app. cbn [stack set_stack]. rewrite Hn.
  replace (n <? 0) with false by (symmetry; apply Z.ltb_ge; lia).
  replace (n >? Multisig.maximumPublicKeys) with false
    by (symmetry; rewrite Z.gtb_ltb; apply Z.ltb_ge;
        unfold Multisig.maximumPublicKeys; lia).
  rewrite Hnk at 1. rewrite splice_last by lia.
  cbn [stack set_stack operationCount set_operationCount].
  replace (c + n >? CommonConsensus.maximumOperationCount) with false
    by (symmetry; rewrite Z.gtb_ltb; apply Z.ltb_ge;
        unfold CommonConsensus.maximumOperationCount; lia).
  rewrite pop_app. cbn [stack set_stack]. rewrite Hm.
  replace (m <? 0) with false by (symmetry; apply Z.ltb_ge; lia).
  replace (m >? n) with false
    by (symmetry; rewrite Z.gtb_ltb; apply Z.ltb_ge; lia).
  rewrite Hms at 1. rewrite splice_last by lia.
  cbn [stack set_stack]. rewrite pop_app.
  cbn [stack set_stack].
  replace (len dummy =? 0) with false; [reflexivity|].
  symmetry. apply Z.eqb_neq. destruct dummy; [congruence|].
  unfold len. simpl. lia.
Qed.

(** X15.  The loop of OP_CHECKMULTISIG against the walk of section 4.1,
    from any point at which the matched and the remaining signatures add up
    to the required number: an encoding error of the loop is the error of
    the walk, and when the loop ends with all required signatures matched so
    does the walk.  The loop never approves what the walk rejects. *)
Theorem checkMultiSigLoop_sound (state : ProgramState) (scriptCode : Uint8Array)
    (publicKeys signatures : list Uint8Array) (required : Z)
    (remainingPublicKeys approving remainingSignatures : nat) :
  Z.of_nat (approving + remainingSignatures) = required ->
  match loop state scriptCode publicKeys signatures required
             remainingPublicKeys approving remainingSignatures with
  | inl kind =>
      multisigWalk isValidPublicKeyEncoding isValidSignatureEncoding
        (verifies state scriptCode) publicKeys signatures
        remainingPublicKeys approving remainingSignatures = inl kind
  | inr approved =>
      Z.of_nat approved = required ->
      multisigWalk isValidPublicKeyEncoding isValidSignatureEncoding
        (verifies state scriptCode) publicKeys signatures
        remainingPublicKeys approving remainingSignatures = inr approved
  end.
Proof.
  revert approving remainingSignatures.
  induction remainingPublicKeys as [|remaining IH];
    intros approving remainingSignatures Hsum.
  - simpl. reflexivity.
  - unfold loop in *. cbn [checkMultiSigLoop multisigWalk].
    destruct (0 <? remainingSignatures)%nat eqn:Hpos; cbn [andb].
    + apply Nat.ltb_lt in Hpos.
      destruct (approving + remainingSignatures <=? S remaining)%nat eqn:Hroom;
        cbn [andb].
      * apply Nat.leb_le in Hroom.
        replace (Z.of_nat approving =? required) with false
          by (symmetry; apply Z.eqb_neq; lia).
        replace (remainingSignatures <=? S remaining)%nat with true
          by (symmetry; apply Nat.leb_le; lia).
        cbn [negb].
        destruct (negb (isValidPublicKeyEncoding
                          (nth (S remaining - 1) publicKeys []))); [reflexivity|].
        destruct (negb (isValidSignatureEncoding
                          (nth (remainingSignatures - 1) signatures [])));
          [reflexivity|].
        unfold verifies.
        destruct (signed sha256 secp256k1 decodeBitcoinSignature
                    generateBitcoinCashSigningSerialization state scriptCode
                    (nth (S remaining - 1) publicKeys [])
                    (nth (remainingSignatures - 1) signatures [])).
        -- apply IH. lia.
        -- apply IH. lia.
      * intros Happroved. lia.
    + apply Nat.ltb_ge in Hpos. reflexivity.
Qed.

(** X16.  A 1-of-1 OP_CHECKMULTISIG is an OP_CHECKSIG: on the stack
    <dummy = empty> <signature> 1 <key> 1 it comes to the state OP_CHECKSIG
    comes to on <signature> <key>, error or pushed boolean alike, but for
    the operation count, which it has raised by one. *)
Theorem opCheckMultiSig_one_of_one (state : ProgramState)
    (below : list Uint8Array)
    (bitcoinEncodedSignature publicKey one : Uint8Array) :
  parseBytesAsScriptNumber one = Some 1 ->
  operationCount state + 1 <= 201 ->
  operation checkMultiSig
    (set_stack
       (below ++ [[]; bitcoinEncodedSignature; one; publicKey; one]) state) =
  set_operationCount (operationCount state + 1)
    (operation checkSig
       (set_stack (below ++ [bitcoinEncodedSignature; publicKey]) state)).
Proof.
  intros Hone Hc.
  rewrite (opCheckSig_operation
             (set_stack (below ++ [bitcoinEncodedSignature; publicKey]) state)
             below bitcoinEncodedSignature publicKey)
    by (destruct state; reflexivity).
  assert (operation checkMultiSig
            (set_stack
               (below ++ [[]; bitcoinEncodedSignature; one; publicKey; one])
               state) =
          match loop (after_pops state below 1)
                     (scriptCodeOf bigIntToBitcoinVarInt (after_pops state below 1))
                     [publicKey] [bitcoinEncodedSignature] 1 1%nat 0%nat 1%nat with
          | inl kind => applyError (Common kind) (after_pops state below 1)
          | inr approving =>
              stack_push (booleanToScriptNumber (Z.of_nat approving =? 1))
                         (after_pops state below 1)
          end) as Hpops.
  { unfold checkMultiSig, loop.
    rewrite (opCheckMultiSig_pops sha256 secp256k1 booleanToScriptNumber
               parseBytesAsScriptNumber bigIntToBitcoinVarInt
               isValidPublicKeyEncoding isValidSignatureEncoding
               decodeBitcoinSignature generateBitcoinCashSigningSerialization
               (set_stack
                  (below ++ [[]; bitcoinEncodedSignature; one; publicKey; one])
                  state)
               below [] [bitcoinEncodedSignature] one [publicKey] one 1 1).
    - destruct state; reflexivity.
    - destruct state; reflexivity.
    - exact Hone.
    - reflexivity.
    - lia.
    - exact Hone.
    - reflexivity.
    - lia.
    - destruct state; simpl in *; lia.
    - reflexivity. }
  rewrite Hpops. clear Hpops.
  unfold loop.
  cbn [checkMultiSigLoop length Nat.ltb Nat.leb andb Nat.add Nat.sub nth
       Z.of_nat Z.eqb negb Pos.of_succ_nat Pos.eqb].
  destruct state as [e i l c o sc st ex]. unfold after_pops. fields.
  destruct (isValidPublicKeyEncoding publicKey); cbn [negb]; [|reflexivity].
  destruct (isValidSignatureEncoding bitcoinEncodedSignature); cbn [negb];
    [|reflexivity].
  unfold verifies, signed, scriptCodeOf. fields.
  match goal with
  | |- context [if ?verified then inr _ else inr _] => destruct verified
  end; reflexivity.
Qed.

End MoreCryptoProperties.

Lemma opCheckSig_underflow_witness :
  len (stack checksig_short_state) < 2 /\
  stack (operation Sample.opCheckSig checksig_short_state) = [] /\
  error (operation Sample.opCheckSig checksig_short_state) =
    Some (Common CommonAuthenticationError.emptyStack).
Proof.
  split; [vm_compute; reflexivity|].
  unfold Sample.opCheckSig.
  rewrite (opCheckSig_underflow
             Sample.sha256 Sample.secp256k1 booleanToScriptNumber
             Sample.bigIntToBitcoinVarInt
             Sample.isValidPublicKeyEncoding Sample.isValidSignatureEncoding
             Sample.decodeBitcoinSignature
             Sample.generateBitcoinCashSigningSerialization
             checksig_short_state).
  - split; reflexivity.
  - vm_compute; reflexivity.
Defined.

Lemma opCheckSig_operation_witness :
  stack checksig_state = [[0x07]] ++ [sample_signature 1; sample_key 1] /\
  stack (operation Sample.opCheckSig checksig_state) = [[0x07]; [0x01]] /\
  error (operation Sample.opCheckSig checksig_state) = None.
Proof.
  split; [reflexivity|].
  unfold Sample.opCheckSig.
  rewrite (opCheckSig_operation
             Sample.sha256 Sample.secp256k1 booleanToScriptNumber
             Sample.bigIntToBitcoinVarInt
             Sample.isValidPublicKeyEncoding Sample.isValidSignatureEncoding
             Sample.decodeBitcoinSignature
             Sample.generateBitcoinCashSigningSerialization
             checksig_state [[0x07]] (sample_signature 1) (sample_key 1)).
  - split; reflexivity.
  - reflexivity.
Defined.

Lemma opCheckMultiSig_key_count_witness :
  stack too_many_keys_state = [[0x07]] ++ [[0x15]] /\
  parseBytesAsScriptNumber [0x15] = Some 21 /\
  operation Sample.opCheckMultiSig too_many_keys_state =
    applyError
      (Common CommonAuthenticationError.exceedsMaximumMultisigPublicKeyCount)
      (set_stack [[0x07]] too_many_keys_state).
Proof.
  split; [reflexivity|]. split; [reflexivity|].
  pose proof (opCheckMultiSig_key_count
                Sample.sha256 Sample.secp256k1 booleanToScriptNumber
                parseBytesAsScriptNumber Sample.bigIntToBitcoinVarInt
                Sample.isValidPublicKeyEncoding Sample.isValidSignatureEncoding
                Sample.decodeBitcoinSignature
                Sample.generateBitcoinCashSigningSerialization
                too_many_keys_state [[0x07]] [0x15] eq_refl) as H.
  change (parseBytesAsScriptNumber [0x15]) with (Some 21) in H.
  destruct H as [_ H]. apply H. lia.
Defined.

Lemma opCheckMultiSig_insufficient_keys_witness :
  stack two_of_one_state = [[0x07]] ++ [[0x02]] ++ [sample_key 1] ++ [[0x01]] /\
  parseBytesAsScriptNumber [0x01] = Some 1 /\
  parseBytesAsScriptNumber [0x02] = Some 2 /\
  operation Sample.opCheckMultiSig two_of_one_state =
    applyError (Common CommonAuthenticationError.insufficientPublicKeys)
      (after_pops two_of_one_state [[0x07]] 1).
Proof.
  split; [reflexivity|]. split; [reflexivity|]. split; [reflexivity|].
  apply (opCheckMultiSig_insufficient_keys
           Sample.sha256 Sample.secp256k1 booleanToScriptNumber
           parseBytesAsScriptNumber Sample.bigIntToBitcoinVarInt
           Sample.isValidPublicKeyEncoding Sample.isValidSignatureEncoding
           Sample.decodeBitcoinSignature
           Sample.generateBitcoinCashSigningSerialization
           two_of_one_state [[0x07]] [0x02] [sample_key 1] [0x01] 1 2);
    try reflexivity; simpl; lia.
Defined.

Lemma opCheckMultiSig_protocol_bug_value_witness :
  stack dummy_not_empty_state =
    [[0x07]] ++ [[0x01]] ++ [sample_signature 1] ++ [[0x01]] ++
    [sample_key 1] ++ [[0x01]] /\
  parseBytesAsScriptNumber [0x01] = Some 1 /\
  operation Sample.opCheckMultiSig dummy_not_empty_state =
    applyError (Common CommonAuthenticationError.invalidProtocolBugValue)
      (after_pops dummy_not_empty_state [[0x07]] 1).
Proof.
  split; [reflexivity|]. split; [reflexivity|].
  apply (opCheckMultiSig_protocol_bug_value
           Sample.sha256 Sample.secp256k1 booleanToScriptNumber
           parseBytesAsScriptNumber Sample.bigIntToBitcoinVarInt
           Sample.isValidPublicKeyEncoding Sample.isValidSignatureEncoding
           Sample.decodeBitcoinSignature
           Sample.generateBitcoinCashSigningSerialization
           dummy_not_empty_state [[0x07]] [0x01] [sample_signature 1] [0x01]
           [sample_key 1] [0x01] 1 1);
    try reflexivity; try discriminate; simpl; lia.
Defined.

Lemma checkMultiSigLoop_sound_witness :
  Z.of_nat (0 + 2) = 2 /\
  checkMultiSigLoop Sample.sha256 Sample.secp256k1
    Sample.isValidPublicKeyEncoding Sample.isValidSignatureEncoding
    Sample.decodeBitcoinSignature Sample.generateBitcoinCashSigningSerialization
    successful_state []
    [sample_key 1; sample_key 2; sample_key 3]
    [sample_signature 2; sample_signature 3] 2 3 0 2 = inr 2%nat /\
  multisigWalk Sample.isValidPublicKeyEncoding Sample.isValidSignatureEncoding
    (signed Sample.sha256 Sample.secp256k1 Sample.decodeBitcoinSignature
       Sample.generateBitcoinCashSigningSerialization successful_state [])
    [sample_key 1; sample_key 2; sample_key 3]
    [sample_signature 2; sample_signature 3] 3 0 2 = inr 2%nat.
Proof.
  split; [reflexivity|]. split; [reflexivity|].
  pose proof (checkMultiSigLoop_sound
                Sample.sha256 Sample.secp256k1
                Sample.isValidPublicKeyEncoding Sample.isValidSignatureEncoding
                Sample.decodeBitcoinSignature
                Sample.generateBitcoinCashSigningSerialization
                successful_state []
                [sample_key 1; sample_key 2; sample_key 3]
                [sample_signature 2; sample_signature 3] 2 3%nat 0%nat 2%nat
                eq_refl) as H.
  change (checkMultiSigLoop Sample.sha256 Sample.secp256k1
            Sample.isValidPublicKeyEncoding Sample.isValidSignatureEncoding
            Sample.decodeBitcoinSignature
            Sample.generateBitcoinCashSigningSerialization
            successful_state []
            [sample_key 1; sample_key 2; sample_key 3]
            [sample_signature 2; sample_signature 3] 2 3 0 2)
    with (@inr CommonAuthenticationError.t nat 2%nat) in H.
  apply H. reflexivity.
Defined.

Lemma opCheckMultiSig_one_of_one_witness :
  parseBytesAsScriptNumber [0x01] = Some 1 /\
  operationCount one_of_one_state + 1 <= 201 /\
  set_stack ([[0x07]] ++ [[]; sample_signature 1; [0x01]; sample_key 1; [0x01]])
    one_of_one_state = one_of_one_state /\
  operation Sample.opCheckMultiSig one_of_one_state =
    set_operationCount (operationCount one_of_one_state + 1)
      (operation Sample.opCheckSig
         (set_stack ([[0x07]] ++ [sample_signature 1; sample_key 1])
            one_of_one_state)).
Proof.
  split; [reflexivity|]. split; [simpl; lia|]. split; [reflexivity|].
  apply (opCheckMultiSig_one_of_one
           Sample.sha256 Sample.secp256k1 booleanToScriptNumber
           parseBytesAsScriptNumber Sample.bigIntToBitcoinVarInt
           Sample.isValidPublicKeyEncoding Sample.isValidSignatureEncoding
           Sample.decodeBitcoinSignature
           Sample.generateBitcoinCashSigningSerialization
           one_of_one_state [[0x07]] (sample_signature 1) (sample_key 1) [0x01]).
  - reflexivity.
  - simpl; lia.
Defined.

(* ----------------------------------------------------------------- *)
(** ** What every reachable state has kept *)

Lemma at_index_In {A} (l : list A) (i : Z) (x : A) :
  at_index l i = Some x -> In x l.
Proof.
  unfold at_index. destruct (i <? 0); [discriminate|]. apply nth_error_In.
Qed.

Lemma subarray_zero {A} (l : list A) : subarray l 0 = l.
Proof.
  unfold subarray, relative_index. simpl.
  rewrite Z.min_l by apply len_nonneg. reflexivity.
Qed.

(** The three ways [before] can go. *)
Lemma before_cases (state : ProgramState) :
  (at_index (script state) (ip state + 1) = None /\
   before state = set_ip (ip state + 1) state) \/
  (exists opcode,
     at_index (script state) (ip state + 1) = Some opcode /\
     (before state =
        applyError
          (BitcoinCash BitcoinCashAuthenticationError.exceededMaximumOperationCount)
          (set_operationCount (operationCount state + 1)
             (set_ip (ip state + 1) state)) \/
      before state =
        set_operations (operations state ++ [opcode])
          (set_operationCount (operationCount state + 1)
             (set_ip (ip state + 1) state)))).
Proof.
  destruct state as [e i l c o sc st ex]. unfold before. fields.
  destruct (at_index sc (i + 1)) as [opcode|].
  - right. exists opcode. split; [reflexivity|].
    destruct (c + 1 >? CommonConsensus.maximumOperationCount);
      [left | right]; reflexivity.
  - left. split; reflexivity.
Qed.

Section SourceOperatorsFrame.

Variable binToHex : Uint8Array -> string.
Variable bigIntToScriptNumber : Z -> Uint8Array.
Variable bufferAround : Uint8Array -> ArrayBufferRest.
Variable sha256 : Sha256.
Variable ripemd160 : Ripemd160.
Variable secp256k1 : Secp256k1.
Variable booleanToScriptNumber : bool -> Uint8Array.
Variable parseBytesAsScriptNumber : Uint8Array -> option Z.
Variable bigIntToBitcoinVarInt : Z -> Uint8Array.
Variable isValidPublicKeyEncoding : Uint8Array -> bool.
Variable isValidSignatureEncoding : Uint8Array -> bool.
Variable decodeBitcoinSignature : Uint8Array -> DecodedSignature.
Variable generateBitcoinCashSigningSerialization :
  Z -> Uint8Array -> Uint8Array -> Uint8Array -> Z -> Uint8Array ->
  Z -> Z -> Uint8Array -> Uint8Array -> Z -> Uint8Array -> Uint8Array.

Let table : OperatorTable :=
  sourceOperators binToHex bigIntToScriptNumber bufferAround
    sha256 ripemd160 secp256k1
    booleanToScriptNumber parseBytesAsScriptNumber bigIntToBitcoinVarInt
    isValidPublicKeyEncoding isValidSignatureEncoding decodeBitcoinSignature
    generateBitcoinCashSigningSerialization.

Ltac frame_of_operation :=
  repeat (break_match; fields); order_of_tests;
  repeat split; try lia; try discriminate; intros He; exact He.

Lemma createPushDataOperator_keeps_frame
    (lengthBits : Z) (type : Uint) (minimum maximum : Z) :
  keeps_frame
    (operation
       (createPushDataOperator binToHex bufferAround lengthBits type minimum
          maximum)).
Proof.
  intros state.
  destruct (createPushDataOperator_cases binToHex bufferAround lengthBits type
              minimum maximum state) as [(kind & ->)|(length_ & _ & _ & _ & ->)];
    destruct state as [e i l c o sc st ex]; fields;
    repeat split; try lia; try discriminate; intros He; exact He.
Qed.

(** Every operator of push.ts and crypto.ts keeps the frame. *)
Lemma sourceOperators_keep_frame (entry : Z * Operator) :
  In entry table -> keeps_frame (operation (snd entry)).
Proof.
  apply (sourceOperators_all binToHex bigIntToScriptNumber bufferAround
           sha256 ripemd160
           secp256k1 booleanToScriptNumber parseBytesAsScriptNumber
           bigIntToBitcoinVarInt isValidPublicKeyEncoding
           isValidSignatureEncoding decodeBitcoinSignature
           generateBitcoinCashSigningSerialization
           (fun operator => keeps_frame (operation operator))).
  - intros value [e i l c o sc st ex]. unfold opPushNumber. fields.
    frame_of_operation.
  - intros value _ [e i l c o sc st ex].
    unfold opPushDataConstant, pushDataConstantMethod. fields.
    frame_of_operation.
  - apply createPushDataOperator_keeps_frame.
  - apply createPushDataOperator_keeps_frame.
  - apply createPushDataOperator_keeps_frame.
  - intros [e i l c o sc st ex]. unfold opHash160. fields.
    frame_of_operation.
  - intros [e i l c o sc st ex]. unfold opCheckSig. fields.
    frame_of_operation.
  - intros [e i l c o sc st ex]. unfold opCheckMultiSig. fields.
    frame_of_operation.
Qed.

End SourceOperatorsFrame.

Lemma sample_sourceOperators_keep_frame (opcode : Z) (operator : Operator) :
  lookup_operator Sample.sourceOperators opcode = Some operator ->
  keeps_frame (operation operator).
Proof.
  intros Hl. apply lookup_operator_In in Hl as (entry & Hin & <-).
  exact (sourceOperators_keep_frame _ _ _ _ _ _ _ _ _ _ _ _ _ entry Hin).
Qed.

Lemma sample_sourceOperators_move_forward (opcode : Z) (operator : Operator) :
  lookup_operator Sample.sourceOperators opcode = Some operator ->
  forall state,
    Forall (fun b => 0 <= b) (script state) ->
    ip state <= ip (operation operator state).
Proof.
  intros Hl. apply lookup_operator_In in Hl as (entry & Hin & <-).
  intros state Hb.
  apply (sourceOperators_move_forward _ _ _ _ _ _ _ _ _ _ _ _ _ entry Hin).
  now rewrite sample_buffer.
Qed.

Section ReachableStates.

Variable table : OperatorTable.

Hypothesis table_keeps_frame :
  forall opcode operator,
    lookup_operator table opcode = Some operator ->
    keeps_frame (operation operator).

Lemma transition_keeps_frame (state state' : ProgramState) :
  transition table state state' ->
  script state' = script state /\
  lastCodeSeparator state' = lastCodeSeparator state /\
  external state' = external state /\
  (error state' = None -> error state = None).
Proof.
  intros [s | s opcode operator Hl | s].
  - destruct (before_cases s) as [[_ ->]|(opcode & _ & [-> | ->])];
      destruct s; fields; repeat split; try discriminate; intros He; exact He.
  - destruct (table_keeps_frame opcode operator Hl s)
      as (Hs & Hc & He & _ & _ & Herr).
    repeat split; assumption.
  - destruct s; fields. repeat split. discriminate.
Qed.

(** X17.  In every state a phase can come to, whatever the operators of the
    table did on the way: the script is the one the phase was started on,
    the last code separator is still -1 and the external state is that of
    the program.  The script code signatures are checked against is
    therefore always the whole script, behind its length. *)
Theorem reachable_keeps_script (program : AuthenticationProgram)
    (script_ : Uint8Array) (stack_ : list Uint8Array) (reached : ProgramState) :
  reachable table (createBitcoinCashProgramState program script_ stack_) reached ->
  script reached = script_ /\
  lastCodeSeparator reached = -1 /\
  external reached = state program /\
  forall bigIntToBitcoinVarInt,
    scriptCodeOf bigIntToBitcoinVarInt reached =
    bigIntToBitcoinVarInt (len script_) ++ script_.
Proof.
  intros Hr.
  assert (script reached = script_ /\ lastCodeSeparator reached = -1 /\
          external reached = state program) as (Hs & Hc & He).
  { induction Hr as [|s s' Hr IH Ht]; [repeat split|].
    destruct IH as (Hs & Hc & He).
    destruct (transition_keeps_frame s s' Ht) as (Hs' & Hc' & He' & _).
    repeat split; congruence. }
  repeat split; try assumption.
  intros bigIntToBitcoinVarInt. unfold scriptCodeOf. rewrite Hs, Hc.
  change (-1 + 1) with 0. now rewrite subarray_zero.
Qed.

(** X18.  An error is never cleared: a state that can be come to from a
    state with an error carries an error as well, by the hook [before], by
    every operator of the table and by the failure on an unknown opcode. *)
Theorem error_is_never_cleared (initial state : ProgramState) :
  reachable table initial state ->
  error initial <> None -> error state <> None.
Proof.
  intros Hr Hi. induction Hr as [|s s' Hr IH Ht]; [exact Hi|].
  destruct (transition_keeps_frame s s' Ht) as (_ & _ & _ & He).
  intros Hnone. apply IH. now apply He.
Qed.

(** X19.  In every state a phase can come to, the recorded operations are
    bytes of the script of the phase, and there are at most as many of them
    as the operation count says: [before] records an opcode only together
    with a count, and no operator of the table touches the record or lowers
    the count. *)
Theorem operations_are_counted (program : AuthenticationProgram)
    (script_ : Uint8Array) (stack_ : list Uint8Array) (state : ProgramState) :
  reachable table (createBitcoinCashProgramState program script_ stack_) state ->
  len (operations state) <= operationCount state /\
  forall opcode, In opcode (operations state) -> In opcode script_.
Proof.
  intros Hr.
  assert (script state = script_ /\
          len (operations state) <= operationCount state /\
          forall opcode, In opcode (operations state) -> In opcode script_)
    as (_ & Hc & Ho); [|split; assumption].
  induction Hr as [|s s' Hr IH Ht].
  - simpl. repeat split; [unfold len; simpl; lia | contradiction].
  - destruct IH as (Hs & Hc & Ho).
    destruct Ht as [s | s opcode operator Hl | s].
    + destruct (before_cases s) as [[_ ->]|(opcode & Hat & [-> | ->])];
        destruct s as [e i l c o sc st ex]; fields; cbn [script operations
          operationCount ip] in *.
      * repeat split; assumption.
      * repeat split; [assumption | lia | assumption].
      * repeat split; [assumption | rewrite len_app; unfold len at 2; simpl; lia |].
        intros opcode' Hin. apply in_app_or in Hin as [Hin|[<-|[]]].
        -- now apply Ho.
        -- subst sc. now apply at_index_In in Hat.
    + destruct (table_keeps_frame opcode operator Hl s)
        as (Hs' & _ & _ & Ho' & Hc' & _).
      rewrite Hs', Ho'. repeat split; [assumption | lia | assumption].
    + destruct s; fields. repeat split; assumption.
Qed.

Hypothesis table_moves_forward :
  forall opcode operator,
    lookup_operator table opcode = Some operator ->
    forall state,
      Forall (fun b => 0 <= b) (script state) ->
      ip state <= ip (operation operator state).

(** X20.  On a script whose bytes are not negative the instruction pointer
    never moves back, so it is never negative in a state a phase can come
    to: the reads of the push operators, which start at the instruction
    pointer, never start before the script. *)
Theorem ip_never_moves_back (program : AuthenticationProgram)
    (script_ : Uint8Array) (stack_ : list Uint8Array) (state state' : ProgramState) :
  Forall (fun b => 0 <= b) script_ ->
  reachable table (createBitcoinCashProgramState program script_ stack_) state ->
  transition table state state' ->
  0 <= ip state <= ip state'.
Proof.
  intros Hb Hr Ht.
  assert (script state = script_ /\ 0 <= ip state) as (Hs & Hip).
  { clear Ht state'. induction Hr as [|s s' Hr IH Ht]; [simpl; split; [reflexivity|lia]|].
    destruct IH as (Hs & Hip).
    destruct (transition_keeps_frame s s' Ht) as (Hs' & _).
    split; [congruence|].
    destruct Ht as [s | s opcode operator Hl | s].
    - destruct (before_cases s) as [[_ ->]|(opcode & _ & [-> | ->])];
        destruct s; fields; cbn [ip] in *; lia.
    - pose proof (table_moves_forward opcode operator Hl s) as Hf.
      rewrite Hs in Hf. specialize (Hf Hb). lia.
    - destruct s; fields; cbn [ip] in *; lia. }
  split; [exact Hip|].
  destruct Ht as [s | s opcode operator Hl | s].
  - destruct (before_cases s) as [[_ ->]|(opcode & _ & [-> | ->])];
      destruct s; fields; cbn [ip] in *; lia.
  - apply (table_moves_forward opcode operator Hl s). now rewrite Hs.
  - destruct s; fields; cbn [ip] in *; lia.
Qed.

End ReachableStates.

Lemma reachable_keeps_script_witness :
  let initial :=
    createBitcoinCashProgramState (Sample.program [] []) long_script [] in
  reachable Sample.sourceOperators initial (before initial) /\
  script (before initial) = long_script /\
  lastCodeSeparator (before initial) = -1 /\
  scriptCodeOf Sample.bigIntToBitcoinVarInt (before initial) =
    Sample.bigIntToBitcoinVarInt (len long_script) ++ long_script.
Proof.
  intros initial.
  assert (reachable Sample.sourceOperators initial (before initial)) as Hr
    by (eapply reachable_next; [apply reachable_initial | constructor]).
  split; [exact Hr|].
  destruct (reachable_keeps_script Sample.sourceOperators
              sample_sourceOperators_keep_frame
              (Sample.program [] []) long_script [] (before initial) Hr)
    as (Hs & Hc & _ & Hcode).
  split; [exact Hs|]. split; [exact Hc|]. apply Hcode.
Defined.

Lemma error_is_never_cleared_witness :
  let initial :=
    applyError (Common CommonAuthenticationError.unknownOpcode)
      (createBitcoinCashProgramState (Sample.program [] []) long_script []) in
  reachable Sample.sourceOperators initial (before initial) /\
  error initial <> None /\
  error (before initial) <> None.
Proof.
  intros initial.
  assert (reachable Sample.sourceOperators initial (before initial)) as Hr
    by (eapply reachable_next; [apply reachable_initial | constructor]).
  assert (error initial <> None) as He by discriminate.
  split; [exact Hr|]. split; [exact He|].
  exact (error_is_never_cleared Sample.sourceOperators
           sample_sourceOperators_keep_frame initial (before initial) Hr He).
Defined.

Lemma operations_are_counted_witness :
  let initial :=
    createBitcoinCashProgramState (Sample.program [] []) long_script [] in
  reachable Sample.sourceOperators initial (before initial) /\
  operations (before initial) = [BitcoinCashOpCodes.OP_1] /\
  len (operations (before initial)) <= operationCount (before initial) /\
  forall opcode, In opcode (operations (before initial)) -> In opcode long_script.
Proof.
  intros initial.
  assert (reachable Sample.sourceOperators initial (before initial)) as Hr
    by (eapply reachable_next; [apply reachable_initial | constructor]).
  split; [exact Hr|]. split; [reflexivity|].
  exact (operations_are_counted Sample.sourceOperators
           sample_sourceOperators_keep_frame
           (Sample.program [] []) long_script [] (before initial) Hr).
Defined.

Lemma ip_never_moves_back_witness :
  let initial :=
    createBitcoinCashProgramState (Sample.program [] []) long_script [] in
  Forall (fun b => 0 <= b) long_script /\
  reachable Sample.sourceOperators initial (before initial) /\
  transition Sample.sourceOperators (before initial) (before (before initial)) /\
  0 <= ip (before initial) <= ip (before (before initial)).
Proof.
  intros initial.
  assert (Forall (fun b => 0 <= b) long_script) as Hb.
  { apply Forall_forall. intros b Hin.
    destruct Hin as [<-|Hin]; [discriminate|].
    apply repeat_spec in Hin. subst b. discriminate. }
  assert (reachable Sample.sourceOperators initial (before initial)) as Hr
    by (eapply reachable_next; [apply reachable_initial | constructor]).
  assert (transition Sample.sourceOperators (before initial)
            (before (before initial))) as Ht by constructor.
  split; [exact Hb|]. split; [exact Hr|]. split; [exact Ht|].
  exact (ip_never_moves_back Sample.sourceOperators
           sample_sourceOperators_keep_frame
           sample_sourceOperators_move_forward
           (Sample.program [] []) long_script []
           (before initial) (before (before initial)) Hb Hr Ht).
Defined.

(* ----------------------------------------------------------------- *)
(** ** More on the phase pipelines *)

Section MorePipelines.

Variable vm : AuthenticationVirtualMachine.
Variable program : AuthenticationProgram.

(** The machine is one whose [debug] ends on the terminal state of
    [evaluate]. *)
Hypothesis vm_agrees :
  forall state phaseLabel,
  exists entries last_entry,
    debug vm state phaseLabel = entries ++ [last_entry] /\
    DebuggingStep.state last_entry = evaluate vm state.

(** The debug pipeline when the unlocking phase ends with an error. *)
Lemma debug_pipeline_unlocking_error (kind : AuthenticationError) :
  error (unlockingResultOf vm program) = Some kind ->
  exists entries last_entry,
    debug vm
      (createBitcoinCashProgramState program (unlockingScript program) [])
      Phase.unlocking = entries ++ [last_entry] /\
    DebuggingStep.state last_entry = unlockingResultOf vm program /\
    debugBitcoinCashAuthenticationProgram vm program =
      Returned (entries ++ [last_entry]).
Proof.
  intros He.
  destruct (vm_agrees
              (createBitcoinCashProgramState program (unlockingScript program) [])
              Phase.unlocking) as (entries & last_entry & Hd & Hl).
  exists entries, last_entry. split; [exact Hd|]. split; [exact Hl|].
  unfold debugBitcoinCashAuthenticationProgram, debugPhase.
  rewrite Hd, at_index_app_last. cbn [result steps].
  rewrite Hl. fold (unlockingResultOf vm program).
  unfold has_error. now rewrite He.
Qed.

(** X21.  When the unlocking phase ends with an error, both pipelines stop
    there: the evaluate pipeline returns the terminal state of the unlocking
    phase, the debug pipeline returns the trace of the unlocking phase and
    nothing more, and the locking script is not run. *)
Theorem unlocking_error_ends_pipelines (kind : AuthenticationError) :
  error (unlockingResultOf vm program) = Some kind ->
  evaluateBitcoinCashAuthenticationProgram vm program =
    Returned (unlockingResultOf vm program) /\
  debugBitcoinCashAuthenticationProgram vm program =
    Returned
      (debug vm
         (createBitcoinCashProgramState program (unlockingScript program) [])
         Phase.unlocking) /\
  final_state
    (debug vm
       (createBitcoinCashProgramState program (unlockingScript program) [])
       Phase.unlocking) = Some (unlockingResultOf vm program).
Proof.
  intros He.
  destruct (debug_pipeline_unlocking_error kind He)
    as (entries & last_entry & Hd & Hl & Hp).
  split; [|split].
  - rewrite evaluate_pipeline_phases. unfold has_error. now rewrite He.
  - now rewrite Hd.
  - rewrite Hd, final_state_app. now rewrite Hl.
Qed.

(** X22.  On a locking script that is not of the P2SH shape the two
    pipelines agree: the state the evaluate pipeline returns is the state of
    the last entry of the trace of the debug pipeline, whether the phases
    end with an error or not. *)
Theorem pipelines_agree_off_p2sh :
  isPayToScriptHash (lockingScript program) = false ->
  exists final trace,
    evaluateBitcoinCashAuthenticationProgram vm program = Returned final /\
    debugBitcoinCashAuthenticationProgram vm program = Returned trace /\
    final_state trace = Some final.
Proof.
  intros Hp.
  destruct (error (unlockingResultOf vm program)) as [kind|] eqn:He.
  - destruct (debug_pipeline_unlocking_error kind He)
      as (entries & last_entry & _ & Hl & Hd).
    exists (unlockingResultOf vm program), (entries ++ [last_entry]).
    split; [|split; [exact Hd|]].
    + rewrite evaluate_pipeline_phases. unfold has_error. now rewrite He.
    + rewrite final_state_app. now rewrite Hl.
  - destruct (debug_pipeline_locking vm program vm_agrees He)
      as (u & e2 & l2 & Hl2 & Hd).
    exists (lockingResultOf vm program). eexists.
    split; [|split].
    + rewrite evaluate_pipeline_phases. unfold has_error. now rewrite He, Hp.
    + rewrite Hd, Hp. cbn [negb]. rewrite orb_true_r. reflexivity.
    + rewrite app_assoc, final_state_app. now rewrite Hl2.
Qed.

(** X23.  On a P2SH locking script, when every prerequisite holds (no error
    in the unlocking and in the locking phase, push-only unlocking
    operations, an unlocking stack that is not empty and was left as it was
    by the locking phase), the two pipelines agree as well: both end on the
    terminal state of the P2SH phase, which runs the top element of the
    unlocking stack on the elements below it. *)
Theorem pipelines_agree_on_p2sh (rest : list Uint8Array) (top : Uint8Array) :
  isPayToScriptHash (lockingScript program) = true ->
  error (unlockingResultOf vm program) = None ->
  error (lockingResultOf vm program) = None ->
  isPushOnly (operations (unlockingResultOf vm program)) = true ->
  evaluate_leaves vm (lockingStateOf vm program) = rest ++ [top] ->
  debug_leaves vm (lockingStateOf vm program) Phase.locking = rest ++ [top] ->
  exists trace,
    evaluateBitcoinCashAuthenticationProgram vm program =
      Returned (evaluate vm (createBitcoinCashProgramState program top rest)) /\
    debugBitcoinCashAuthenticationProgram vm program = Returned trace /\
    final_state trace =
      Some (evaluate vm (createBitcoinCashProgramState program top rest)).
Proof.
  intros Hp Hu Hl Ho Hse Hsd.
  destruct (debug_pipeline_locking vm program vm_agrees Hu)
    as (u & e2 & l2 & Hl2 & Hd).
  destruct (debugPhase_result vm program vm_agrees top Phase.p2sh rest)
    as (e3 & l3 & H3 & Hl3).
  exists (u ++ (e2 ++ [l2]) ++ e3 ++ [l3]).
  split; [|split].
  - rewrite evaluate_pipeline_phases. unfold has_error.
    rewrite Hu, Hp, Hse. now rewrite evaluateP2sh_pop.
  - rewrite Hd. cbv zeta. unfold has_error. rewrite Hl, Hp, Ho, Hsd.
    cbn [negb orb].
    replace (len (rest ++ [top]) =? 0) with false
      by (symmetry; apply Z.eqb_neq; rewrite len_app; unfold len; simpl; lia).
    rewrite evaluateP2sh_pop. cbn [with_script]. rewrite H3. reflexivity.
  - rewrite !app_assoc, final_state_app. now rewrite Hl3.
Qed.

End MorePipelines.

(** X24.  The evaluate pipeline never checks the hash of a P2SH locking
    script: on a machine that works on a copy of the state it is handed, two
    programs with the same unlocking script and the same external state,
    whose locking scripts both have the P2SH shape, come to the same result,
    whatever their 20 bytes of hash are and however their locking phases
    end. *)
Theorem evaluate_ignores_the_hash (vm : AuthenticationVirtualMachine)
    (program1 program2 : AuthenticationProgram) :
  works_on_a_copy vm ->
  unlockingScript program1 = unlockingScript program2 ->
  state program1 = state program2 ->
  isPayToScriptHash (lockingScript program1) = true ->
  isPayToScriptHash (lockingScript program2) = true ->
  evaluateBitcoinCashAuthenticationProgram vm program1 =
  evaluateBitcoinCashAuthenticationProgram vm program2.
Proof.
  intros [Hcopy _] Hu Hs H1 H2.
  destruct program1 as [l1 s1 u1], program2 as [l2 s2 u2].
  cbn [unlockingScript state lockingScript] in *. subst u2 s2.
  unfold evaluateBitcoinCashAuthenticationProgram.
  cbn [unlockingScript state lockingScript]. rewrite H1, H2, !Hcopy.
  reflexivity.
Qed.

Lemma unlocking_error_ends_pipelines_witness :
  error (unlockingResultOf Sample.vm program_failing_unlocking) =
    Some (Common CommonAuthenticationError.malformedPush) /\
  evaluateBitcoinCashAuthenticationProgram Sample.vm program_failing_unlocking =
    Returned (unlockingResultOf Sample.vm program_failing_unlocking) /\
  debugBitcoinCashAuthenticationProgram Sample.vm program_failing_unlocking =
    Returned
      (debug Sample.vm
         (createBitcoinCashProgramState program_failing_unlocking
            (unlockingScript program_failing_unlocking) [])
         Phase.unlocking) /\
  final_state
    (debug Sample.vm
       (createBitcoinCashProgramState program_failing_unlocking
          (unlockingScript program_failing_unlocking) [])
       Phase.unlocking) =
    Some (unlockingResultOf Sample.vm program_failing_unlocking).
Proof.
  split; [reflexivity|].
  apply (unlocking_error_ends_pipelines Sample.vm program_failing_unlocking
           sample_vm_agrees (Common CommonAuthenticationError.malformedPush)).
  reflexivity.
Defined.

Lemma pipelines_agree_off_p2sh_witness :
  isPayToScriptHash (lockingScript program_plain) = false /\
  exists final trace,
    evaluateBitcoinCashAuthenticationProgram Sample.vm program_plain
      = Returned final /\
    debugBitcoinCashAuthenticationProgram Sample.vm program_plain
      = Returned trace /\
    final_state trace = Some final.
Proof.
  split; [reflexivity|].
  apply (pipelines_agree_off_p2sh Sample.vm program_plain sample_vm_agrees).
  reflexivity.
Defined.

Lemma pipelines_agree_on_p2sh_witness :
  isPayToScriptHash (lockingScript program_push_only) = true /\
  error (unlockingResultOf Sample.vm program_push_only) = None /\
  error (lockingResultOf Sample.vm program_push_only) = None /\
  isPushOnly (operations (unlockingResultOf Sample.vm program_push_only)) = true /\
  evaluate_leaves Sample.vm (lockingStateOf Sample.vm program_push_only)
    = [] ++ [[0x01]] /\
  exists trace,
    evaluateBitcoinCashAuthenticationProgram Sample.vm program_push_only =
      Returned
        (evaluate Sample.vm
           (createBitcoinCashProgramState program_push_only [0x01] [])) /\
    debugBitcoinCashAuthenticationProgram Sample.vm program_push_only
      = Returned trace /\
    final_state trace =
      Some (evaluate Sample.vm
              (createBitcoinCashProgramState program_push_only [0x01] [])).
Proof.
  split; [reflexivity|]. split; [reflexivity|]. split; [reflexivity|].
  split; [reflexivity|]. split; [reflexivity|].
  apply (pipelines_agree_on_p2sh Sample.vm program_push_only sample_vm_agrees
           [] [0x01]); reflexivity.
Defined.

Lemma evaluate_ignores_the_hash_witness :
  works_on_a_copy Sample.vm /\
  lockingScript program_push_only <> lockingScript program_other_hash /\
  isPayToScriptHash (lockingScript program_push_only) = true /\
  isPayToScriptHash (lockingScript program_other_hash) = true /\
  evaluateBitcoinCashAuthenticationProgram Sample.vm program_push_only =
  evaluateBitcoinCashAuthenticationProgram Sample.vm program_other_hash.
Proof.
  split; [exact sample_vm_works_on_a_copy|]. split; [discriminate|].
  split; [reflexivity|]. split; [reflexivity|].
  apply (evaluate_ignores_the_hash Sample.vm program_push_only
           program_other_hash sample_vm_works_on_a_copy); reflexivity.
Defined.

(* ----------------------------------------------------------------- *)
(** ** The opcodes the table binds *)

Lemma lookup_operator_keys (table : OperatorTable) (opcode : Z) :
  lookup_operator table opcode <> None <-> In opcode (map fst table).
Proof.
  unfold lookup_operator.
  destruct (find (fun entry => fst entry =? opcode) (rev table)) as [entry|] eqn:Hf.
  - split; [intros _ | discriminate].
    apply find_some in Hf as [Hin Heq]. apply Z.eqb_eq in Heq. subst opcode.
    apply in_map. now apply in_rev.
  - split; [congruence|]. intros Hin. exfalso.
    apply in_map_iff in Hin as (entry & Heq & Hin).
    apply in_rev in Hin.
    pose proof (find_none _ _ Hf entry Hin) as Hne. cbn beta in Hne.
    apply Z.eqb_neq in Hne. congruence.
Qed.

Lemma map_indexed_from_keys {B} (g : Z -> B) (l : list Z) (i : Z) :
  map fst (map_indexed_from i (fun opcode j => (opcode, g j)) l) = l.
Proof.
  revert i. induction l as [|a l IH]; intros i; simpl; [reflexivity|].
  now rewrite IH.
Qed.

Section TableDomain.

Variable binToHex : Uint8Array -> string.
Variable bigIntToScriptNumber : Z -> Uint8Array.
Variable bufferAround : Uint8Array -> ArrayBufferRest.
Variable sha256 : Sha256.
Variable ripemd160 : Ripemd160.
Variable secp256k1 : Secp256k1.
Variable booleanToScriptNumber : bool -> Uint8Array.
Variable parseBytesAsScriptNumber : Uint8Array -> option Z.
Variable bigIntToBitcoinVarInt : Z -> Uint8Array.
Variable isValidPublicKeyEncoding : Uint8Array -> bool.
Variable isValidSignatureEncoding : Uint8Array -> bool.
Variable decodeBitcoinSignature : Uint8Array -> DecodedSignature.
Variable generateBitcoinCashSigningSerialization :
  Z -> Uint8Array -> Uint8Array -> Uint8Array -> Z -> Uint8Array ->
  Z -> Z -> Uint8Array -> Uint8Array -> Z -> Uint8Array -> Uint8Array.

Let table : OperatorTable :=
  sourceOperators binToHex bigIntToScriptNumber bufferAround
    sha256 ripemd160 secp256k1
    booleanToScriptNumber parseBytesAsScriptNumber bigIntToBitcoinVarInt
    isValidPublicKeyEncoding isValidSignatureEncoding decodeBitcoinSignature
    generateBitcoinCashSigningSerialization.

Lemma sourceOperators_keys :
  map fst table =
  pushNumberOpCodes ++ pushDataConstantOpCodes ++
  [BitcoinCashOpCodes.OP_PUSHDATA1; BitcoinCashOpCodes.OP_PUSHDATA2;
   BitcoinCashOpCodes.OP_PUSHDATA4] ++
  [BitcoinCashOpCodes.OP_HASH160; BitcoinCashOpCodes.OP_CHECKSIG;
   BitcoinCashOpCodes.OP_CHECKMULTISIG].
Proof.
  unfold table, sourceOperators, pushNumberOperators, pushDataConstantOperators,
    map_indexed.
  rewrite !map_app.
  rewrite (map_indexed_from_keys
             (fun j => opPushNumber bigIntToScriptNumber (j - 1))).
  rewrite (map_indexed_from_keys
             (fun j => opPushDataConstant binToHex (j + 1))).
  reflexivity.
Qed.

(** X25.  The opcodes push.ts and crypto.ts bind are exactly 0x00 to 0x4f,
    0x51 to 0x60, and OP_HASH160, OP_CHECKSIG and OP_CHECKMULTISIG; the byte
    0x50 and every other byte have no operator.  No opcode is bound by two
    of the groups, so that the order in which the groups are spread into the
    table does not matter. *)
Theorem sourceOperators_domain :
  (forall opcode,
     lookup_operator table opcode <> None <->
     0x00 <= opcode <= 0x4f \/ 0x51 <= opcode <= 0x60 \/
     opcode = BitcoinCashOpCodes.OP_HASH160 \/
     opcode = BitcoinCashOpCodes.OP_CHECKSIG \/
     opcode = BitcoinCashOpCodes.OP_CHECKMULTISIG) /\
  NoDup (map fst table).
Proof.
  split.
  - intros opcode. rewrite lookup_operator_keys, sourceOperators_keys.
    rewrite !in_app_iff. unfold pushDataConstantOpCodes.
    rewrite in_map_iff.
    unfold pushNumberOpCodes, BitcoinCashOpCodes.OP_PUSHBYTES.
    cbv [In BitcoinCashOpCodes.OP_1NEGATE BitcoinCashOpCodes.OP_0
         BitcoinCashOpCodes.OP_1 BitcoinCashOpCodes.OP_2 BitcoinCashOpCodes.OP_3
         BitcoinCashOpCodes.OP_4 BitcoinCashOpCodes.OP_5 BitcoinCashOpCodes.OP_6
         BitcoinCashOpCodes.OP_7 BitcoinCashOpCodes.OP_8 BitcoinCashOpCodes.OP_9
         BitcoinCashOpCodes.OP_10 BitcoinCashOpCodes.OP_11
         BitcoinCashOpCodes.OP_12 BitcoinCashOpCodes.OP_13
         BitcoinCashOpCodes.OP_14 BitcoinCashOpCodes.OP_15
         BitcoinCashOpCodes.OP_16 BitcoinCashOpCodes.OP_PUSHDATA1
         BitcoinCashOpCodes.OP_PUSHDATA2 BitcoinCashOpCodes.OP_PUSHDATA4
         BitcoinCashOpCodes.OP_HASH160 BitcoinCashOpCodes.OP_CHECKSIG
         BitcoinCashOpCodes.OP_CHECKMULTISIG].
    split.
    + intros [H|[(n & <- & Hn)|[H|H]]].
      * lia.
      * apply in_seq in Hn. lia.
      * lia.
      * lia.
    + intros H.
      assert (1 <= opcode <= 75 \/ ~ 1 <= opcode <= 75) as [Hc|Hc] by lia.
      * right. left. exists (Z.to_nat opcode). split; [lia|].
        apply in_seq. lia.
      * assert (opcode = 0 \/ 76 <= opcode <= 78 \/ opcode = 79 \/
                81 <= opcode <= 96 \/ 169 <= opcode) as [H0|[H1|[H2|[H3|H4]]]]
          by lia.
        -- left. lia.
        -- right. right. left. lia.
        -- left. lia.
        -- left. lia.
        -- right. right. right. lia.
  - rewrite sourceOperators_keys.
    apply (NoDup_map_inv (fun opcode => opcode)). rewrite map_id.
    assert (forall l : list Z,
               (fix distinct (l : list Z) : bool :=
                  match l with
                  | [] => true
                  | x :: r => negb (existsb (Z.eqb x) r) && distinct r
                  end) l = true -> NoDup l) as Hdistinct.
    { induction l as [|x r IH]; intros H; [constructor|].
      apply andb_prop in H as [Hx Hr]. constructor; [|now apply IH].
      intros Hin. apply negb_true_iff in Hx.
      assert (existsb (Z.eqb x) r = true) as He
        by (apply existsb_exists; exists x; split; [exact Hin | apply Z.eqb_refl]).
      congruence. }
    apply Hdistinct. vm_compute. reflexivity.
Qed.

End TableDomain.

(* ----------------------------------------------------------------- *)
(** ** The length field of OP_PUSHDATA1/2/4 *)

(** X26.  On a script in whose buffer every byte is a byte, the length
    [readLittleEndianLength] reads from a field of one, two or four bytes is
    a natural number below 256 to the power of the size of the field.  The
    length OP_PUSHDATA1 reads is therefore below 256 and its maximum of 520
    is out of reach: a state OP_PUSHDATA1 returns carries the error
    exceedsMaximumPush only if the state it was given did. *)
Theorem readLittleEndianLength_range (binToHex : Uint8Array -> string)
    (bufferAround : Uint8Array -> ArrayBufferRest)
    (state : ProgramState) (lengthBits : Z) (type : Uint) :
  Forall (fun b => 0 <= b < 256) (buffer bufferAround (script state)) ->
  (forall length_,
     readLittleEndianLength bufferAround (script state) (ip state) lengthBits type
       = Returned length_ ->
     0 <= length_ < highestRepresentableNumberIn (BYTES_PER_ELEMENT type)) /\
  (error (operation (opPushData1 binToHex bufferAround) state) =
     Some (Common CommonAuthenticationError.exceedsMaximumPush) ->
   error state = Some (Common CommonAuthenticationError.exceedsMaximumPush)).
Proof.
  intros Hb.
  assert (forall lengthBits type length_,
             readLittleEndianLength bufferAround (script state) (ip state)
               lengthBits type = Returned length_ ->
             0 <= length_
               < highestRepresentableNumberIn (BYTES_PER_ELEMENT type))
    as Hrange.
  { clear lengthBits type. intros lengthBits type length_ Hread.
    destruct (readLittleEndianLength_bytes bufferAround
                (fun b => 0 <= b < 256) (script state) (ip state) lengthBits
                type length_ ltac:(cbv beta; lia) Hb Hread)
      as (b0 & b1 & b2 & b3 & H0 & H1 & H2 & H3 & ->).
    destruct type; cbn [BYTES_PER_ELEMENT].
    - change (highestRepresentableNumberIn 1) with 256. lia.
    - change (highestRepresentableNumberIn 2) with 65536.
      change (2 ^ 8) with 256. lia.
    - change (highestRepresentableNumberIn 4) with 4294967296.
      change (2 ^ 8) with 256. change (2 ^ 16) with 65536.
      change (2 ^ 24) with 16777216. lia. }
  split; [apply Hrange|].
  unfold opPushData1, createPushDataOperator, pushDataVariableMethod,
    PushOperationConstants.maximumPushSize.
  cbn [operation].
  destruct (len (script state) <? ip state + BYTES_PER_ELEMENT Uint8);
    [destruct state; cbn [returned_or]; fields; discriminate|].
  destruct (readLittleEndianLength bufferAround (script state) (ip state)
              (BYTES_PER_ELEMENT Uint8) Uint8) as [length_|e] eqn:Hread;
    [|destruct state; cbn [returned_or]; fields; discriminate].
  apply Hrange in Hread. cbn [BYTES_PER_ELEMENT] in Hread.
  change (highestRepresentableNumberIn 1) with 256 in Hread.
  cbn [returned_or]. destruct state as [e i l c o sc st ex]. fields.
  repeat (break_match; fields); order_of_tests;
    try discriminate; try lia; intros He; exact He.
Qed.

Lemma readLittleEndianLength_range_witness :
  Forall (fun b => 0 <= b < 256)
         (buffer Sample.bufferAround (script pushdata2_state)) /\
  readLittleEndianLength Sample.bufferAround (script pushdata2_state)
    (ip pushdata2_state) (BYTES_PER_ELEMENT Uint16) Uint16 = Returned 256 /\
  0 <= 256 < highestRepresentableNumberIn (BYTES_PER_ELEMENT Uint16).
Proof.
  assert (Forall (fun b => 0 <= b < 256)
                 (buffer Sample.bufferAround (script pushdata2_state))) as Hb.
  { rewrite sample_buffer. apply Forall_forall. intros b Hin.
    cbn [pushdata2_state state_at script set_ip createBitcoinCashProgramState]
      in Hin.
    apply in_app_or in Hin as [Hin|Hin].
    - destruct Hin as [<-|[<-|[<-|[]]]];
        (split; [discriminate | reflexivity]).
    - apply repeat_spec in Hin. subst b. split; [discriminate | reflexivity]. }
  split; [exact Hb|]. split; [reflexivity|].
  apply (readLittleEndianLength_range Sample.binToHex Sample.bufferAround
           pushdata2_state (BYTES_PER_ELEMENT Uint16) Uint16 Hb).
  reflexivity.
Defined.

(* ----------------------------------------------------------------- *)
(** ** What OP_CHECKMULTISIG approves *)

Lemma firstn_succ_nth {A} (l : list A) (n : nat) (d : A) :
  (n < length l)%nat -> firstn (S n) l = firstn n l ++ [nth n l d].
Proof.
  revert n. induction l as [|a l IH]; intros n Hn; simpl in Hn; [lia|].
  destruct n as [|n]; [reflexivity|].
  change (firstn (S (S n)) (a :: l)) with (a :: firstn (S n) l).
  rewrite (IH n) by lia. reflexivity.
Qed.

Section MultisigSoundness.

Variable sha256 : Sha256.
Variable secp256k1 : Secp256k1.
Variable isValidPublicKeyEncoding : Uint8Array -> bool.
Variable isValidSignatureEncoding : Uint8Array -> bool.
Variable decodeBitcoinSignature : Uint8Array -> DecodedSignature.
Variable generateBitcoinCashSigningSerialization :
  Z -> Uint8Array -> Uint8Array -> Uint8Array -> Z -> Uint8Array ->
  Z -> Z -> Uint8Array -> Uint8Array -> Z -> Uint8Array -> Uint8Array.

Let loop :=
  checkMultiSigLoop sha256 secp256k1
    isValidPublicKeyEncoding isValidSignatureEncoding decodeBitcoinSignature
    generateBitcoinCashSigningSerialization.

Let verifies (state : ProgramState) (scriptCode : Uint8Array) :=
  signed sha256 secp256k1 decodeBitcoinSignature
    generateBitcoinCashSigningSerialization state scriptCode.

(** X27.  The loop of OP_CHECKMULTISIG approves only what is signed: when it
    ends with the required number of approvals, every signature it was given
    verifies against one of the public keys, and the keys of later
    signatures lie later in the list of keys. *)
Theorem checkMultiSigLoop_approves_signed (state : ProgramState)
    (scriptCode : Uint8Array) (publicKeys signatures : list Uint8Array)
    (required : Z) (remainingPublicKeys approving remainingSignatures : nat) :
  (remainingPublicKeys <= length publicKeys)%nat ->
  (remainingSignatures <= length signatures)%nat ->
  Z.of_nat (approving + remainingSignatures) = required ->
  loop state scriptCode publicKeys signatures required
       remainingPublicKeys approving remainingSignatures
    = inr (approving + remainingSignatures)%nat ->
  signatures_match (verifies state scriptCode)
    (firstn remainingPublicKeys publicKeys)
    (firstn remainingSignatures signatures).
Proof.
  revert approving remainingSignatures.
  induction remainingPublicKeys as [|remaining IH];
    intros approving remainingSignatures Hk Hs Hsum Hloop.
  - unfold loop in Hloop. cbn [checkMultiSigLoop] in Hloop.
    injection Hloop as Heq.
    replace remainingSignatures with 0%nat by lia. constructor.
  - unfold loop in *. cbn [checkMultiSigLoop] in Hloop.
    destruct ((0 <? remainingSignatures)%nat &&
              (approving + remainingSignatures <=? S remaining)%nat &&
              negb (Z.of_nat approving =? required)) eqn:Hcond.
    + apply andb_prop in Hcond as [Hcond _].
      apply andb_prop in Hcond as [Hpos _]. apply Nat.ltb_lt in Hpos.
      replace (S remaining - 1)%nat with remaining in Hloop by lia.
      destruct (negb (isValidPublicKeyEncoding (nth remaining publicKeys [])));
        [discriminate|].
      destruct (negb (isValidSignatureEncoding
                        (nth (remainingSignatures - 1) signatures [])));
        [discriminate|].
      rewrite (firstn_succ_nth publicKeys remaining []) by lia.
      destruct (signed sha256 secp256k1 decodeBitcoinSignature
                  generateBitcoinCashSigningSerialization state scriptCode
                  (nth remaining publicKeys [])
                  (nth (remainingSignatures - 1) signatures [])) eqn:Hsigned.
      * replace (firstn remainingSignatures signatures)
          with (firstn (S (remainingSignatures - 1)) signatures)
          by (f_equal; lia).
        rewrite (firstn_succ_nth signatures (remainingSignatures - 1) [])
          by lia.
        apply match_take; [exact Hsigned|].
        apply (IH (S approving) (remainingSignatures - 1)%nat); try lia.
        rewrite Hloop. f_equal. lia.
      * apply match_skip.
        apply (IH approving remainingSignatures); try lia. exact Hloop.
    + injection Hloop as Heq.
      replace remainingSignatures with 0%nat by lia. constructor.
Qed.

End MultisigSoundness.

Lemma checkMultiSigLoop_approves_signed_witness :
  checkMultiSigLoop Sample.sha256 Sample.secp256k1
    Sample.isValidPublicKeyEncoding Sample.isValidSignatureEncoding
    Sample.decodeBitcoinSignature Sample.generateBitcoinCashSigningSerialization
    successful_state []
    [sample_key 1; sample_key 2; sample_key 3]
    [sample_signature 2; sample_signature 3] 2 3 0 2 = inr 2%nat /\
  signatures_match
    (signed Sample.sha256 Sample.secp256k1 Sample.decodeBitcoinSignature
       Sample.generateBitcoinCashSigningSerialization successful_state [])
    [sample_key 1; sample_key 2; sample_key 3]
    [sample_signature 2; sample_signature 3].
Proof.
  split; [reflexivity|].
  apply (checkMultiSigLoop_approves_signed
           Sample.sha256 Sample.secp256k1
           Sample.isValidPublicKeyEncoding Sample.isValidSignatureEncoding
           Sample.decodeBitcoinSignature
           Sample.generateBitcoinCashSigningSerialization
           successful_state []
           [sample_key 1; sample_key 2; sample_key 3]
           [sample_signature 2; sample_signature 3] 2 3%nat 0%nat 2%nat).
  - simpl; lia.
  - simpl; lia.
  - reflexivity.
  - reflexivity.
Defined.
